(** * chi_annotator.task_center.model: the pipeline lifecycle engine

    A shallow embedding of [Trainer] and [Interpreter] of
    [chi_annotator/task_center/model.py].

    - Python values are the trees of [pyval]; a [dict] with string keys is
      a [gmap string pyval], and [d.update(u)] is the right-biased union
      [dict_update].
    - Exceptions are the constructor [Raise] of [result]; every method runs
      in a state-and-error monad [M] whose state survives an exception, as
      the mutations of a Python program do.
    - The observable effects are kept in a [world]: the chronological
      [trace] of the calls made to components and collaborators (with the
      arguments they received and, for component calls, their outcome), the
      [heap] of corpus objects (so that [copy.deepcopy] and in-place
      mutation are distinguishable), the metadata files on [disk] and the
      clock.
    - A component is an object: the identifier of its class (what
      [utils.module_path_from_object] returns) and its attribute state. The
      methods are looked up in a class table [methods], a parameter of
      every definition, exactly as a Python call dispatches on the class.
      [train] and [prepare_partial_processing] return the new attribute
      state of the object they mutate; [train] also returns the new
      contents of the corpus object it was given.
    - The names [components], [utils], [create_dir], [RasaNLUConfig],
      [Message] and [Metadata] are taken to resolve to the repository's
      modules of the same names. *)

From Stdlib Require Import PrimFloat.
From stdpp Require Import gmap strings list fin_maps.

#[local] Set Warnings "-register-all".
#[local] Open Scope string_scope.
#[local] Open Scope list_scope.
#[local] Open Scope nat_scope.

(** ** Python values *)

Inductive pyval : Type :=
| PyNone
| PyBool (b : bool)
| PyInt (n : Z)
| PyFloat (f : float)
| PyStr (s : string)
| PyList (l : list pyval)
| PyDict (d : gmap string pyval).

Abbreviation dict := (gmap string pyval).

(** [d.update(u)]: the keys of [u] are added to [d], overwriting. *)
Definition dict_update (d u : dict) : dict := u ∪ d.

(** Truth value of [updates] in [if updates:], for a method returning a
    mapping or [None]: [None] and the empty mapping are false. *)
Definition truthy (updates : option dict) : bool :=
  match updates with
  | Some u => bool_decide (size u ≠ 0)
  | None => false
  end.

(** [if updates: d.update(updates)] *)
Definition merge_updates (d : dict) (updates : option dict) : dict :=
  match updates with
  | Some u => if truthy updates then dict_update d u else d
  | None => d
  end.

(** Truth value of a text argument: [None] and [""] are false. *)
Definition str_truthy (text : option string) : bool :=
  match text with
  | Some s => negb (String.eqb s "")
  | None => false
  end.

(** ** Exceptions and results *)

Inductive exn : Type :=
| MissingArgumentError (message : string)   (* components.MissingArgumentError *)
| Exception (message : string)              (* the builtin Exception *)
| OtherError (cls : string) (message : string).

(** [str(e)], as ["{}".format(e)] renders it. *)
Definition exn_str (e : exn) : string :=
  match e with
  | MissingArgumentError m => m
  | Exception m => m
  | OtherError _ m => m
  end.

(** [type(e).__name__]: the name of the class of the exception. *)
Definition exn_class (e : exn) : string :=
  match e with
  | MissingArgumentError _ => "MissingArgumentError"
  | Exception _ => "Exception"
  | OtherError cls _ => cls
  end.

Inductive result (A : Type) : Type :=
| Ok (a : A)
| Raise (e : exn).
Arguments Ok {A} a.
Arguments Raise {A} e.

Definition is_ok {A} (r : result A) : Prop :=
  match r with Ok _ => True | Raise _ => False end.

(** ** Configuration, messages, metadata, components *)

(** [RasaNLUConfig]: the two entries the engine reads, [config["language"]]
    and [config.pipeline]. *)
Record Config : Type := mkConfig {
  cfg_language : string;
  cfg_pipeline : list string;
}.

Module Message.
Record t : Type := mk {
    text : string;
    output : dict;
    output_properties : gset string;
    time : option pyval;
  }.

  (** Modelled from the spec: the class [Message] of
      [chi_annotator.task_center.common] is not part of the sources. A
      message holds its text, a mapping of named output attributes
      initialised to the mapping it is built with, the set of keys marked
      as output properties and an optional timestamp. *)
Definition init (text : string) (data : dict) (time : option pyval) : t :=
    mk text data ∅ time.

  (** Modelled from the spec: [as_dict(only_output_properties=True)] is
      every key the message holds that is marked an output property;
      without the flag it is the whole mapping. *)
Definition as_dict (m : t) (only_output_properties : bool) : dict :=
    if only_output_properties
    then filter (λ kv, kv.1 ∈ output_properties m) (output m)
    else output m.

  (** The write of the component contract: set an attribute, optionally
      marking it as an output property. *)
Definition set (m : t) (prop : string) (info : pyval) (add_to_output : bool) : t :=
    mk (text m) (<[prop := info]> (output m))
       (if add_to_output then {[prop]} ∪ output_properties m
        else output_properties m)
       (time m).
End Message.

Module Metadata.
Record t : Type := mk {
    metadata : dict;
    model_dir : string;
  }.

  (** Modelled from the spec: the class [Metadata] of
      [chi_annotator.task_center.common] is not part of the sources. Its
      [pipeline] is the ordered sequence of component identifiers stored
      under the key ["pipeline"] (empty when the entry is no sequence). *)
Definition pipeline (md : t) : list pyval :=
    match metadata md !! "pipeline" with
    | Some (PyList l) => l
    | _ => []
    end.
End Metadata.

Module Component.
  (** A component object: its class and its attribute state. *)
Record t : Type := mk {
    cls : string;
    self : pyval;
  }.

  (** The capability set of a component class. [requires] and [provides]
      are the context keys [train] declares it needs and promises to
      return; they are read by argument validation only. *)
Record Class : Type := mkClass {
    name : string;
    provide_context : pyval → result (option dict);
    train : pyval → pyval → Config → dict → result (pyval * pyval * option dict);
    process : pyval → Message.t → dict → result Message.t;
    persist : pyval → string → result (option dict);
    prepare_partial_processing : pyval → list t → dict → result pyval;
    requires : list string;
    provides : list string;
  }.

Definition with_self (c : t) (s : pyval) : t := mk (cls c) s.
End Component.

(** [utils.module_path_from_object(o)]: module path and class name of the
    object's class. *)
Definition module_path_from_object (c : Component.t) : string := Component.cls c.

(** [ComponentBuilder]: the registry resolving names to components. *)
Record ComponentBuilder : Type := mkBuilder {
  create_component : string → Config → result Component.t;
  load_component :
    pyval → string → Metadata.t → Config → dict → result Component.t;
}.

(** The optional collaborator of [Trainer.persist]. *)
Record Persistor : Type := mkPersistor {
  persistor_persist : string → string → string → result unit;
}.

(** ** The world: call trace, corpus heap, disk, clock *)

Definition loc := positive.

Inductive event : Type :=
| EvProvideContext (c : Component.t) (r : result (option dict))
| EvValidateArguments (pipeline : list Component.t) (context : dict)
| EvValidateRequirements (names : list pyval)
| EvDeepcopy (src dst : loc)
| EvPrepare (c : Component.t) (prior : list Component.t) (context : dict)
            (r : result pyval)
| EvTrain (c : Component.t) (data : loc) (config : Config) (context : dict)
          (r : result (option dict))
| EvProcess (c : Component.t) (message : Message.t) (context : dict)
| EvLoadComponent (name : pyval) (model_dir : string) (context : dict)
| EvCreateDir (dir_name : string)
| EvDataPersist (data : loc) (dir_name : string)
| EvPersist (c : Component.t) (dir_name : string) (r : result (option dict))
| EvMetadataPersist (md : Metadata.t) (dir_name : string)
| EvPersistor (dir_name model_name project_name : string).

Record world : Type := mkWorld {
  trace : list event;
  heap : gmap loc pyval;
  disk : gmap string dict;
  clock : string;   (* datetime.datetime.now().strftime('%Y%m%d-%H%M%S') *)
}.

(** ** The state-and-error monad *)

Definition M (S A : Type) : Type := S → result A * S.

Definition ret {S A} (a : A) : M S A := λ s, (Ok a, s).
Definition raise {S A} (e : exn) : M S A := λ s, (Raise e, s).
Definition bind {S A B} (m : M S A) (k : A → M S B) : M S B :=
  λ s, match m s with
       | (Ok a, s') => k a s'
       | (Raise e, s') => (Raise e, s')
       end.
Definition gets {S A} (f : S → A) : M S A := λ s, (Ok (f s), s).
Definition modify {S} (f : S → S) : M S unit := λ s, (Ok tt, f s).
Definition of_result {S A} (r : result A) : M S A := λ s, (r, s).

Notation "x <-- m ;; k" := (bind m (λ x, k))
  (at level 20, m at level 99, k at level 200, only parsing).
Notation "' p <-- m ;; k" := (bind m (λ p, k))
  (at level 20, p pattern, m at level 99, k at level 200, only parsing).

Definition log_event (e : event) (w : world) : world :=
  mkWorld (trace w ++ [e]) (heap w) (disk w) (clock w).
Definition set_heap (h : gmap loc pyval) (w : world) : world :=
  mkWorld (trace w) h (disk w) (clock w).
Definition set_disk (d : gmap string dict) (w : world) : world :=
  mkWorld (trace w) (heap w) d (clock w).

Definition log (e : event) : M world unit := modify (log_event e).

(** The object a reference points to. A Python reference always points to
    an object; [PyNone] fills the lookup of a location never allocated. *)
Definition deref (l : loc) (w : world) : pyval := default PyNone (heap w !! l).

(** [copy.deepcopy(data)]: a new object with the same contents. *)
Definition deepcopy (data : loc) : M world loc :=
  λ w, let l := fresh (dom (heap w)) in
       (Ok l, log_event (EvDeepcopy data l)
                (set_heap (<[l := deref data w]> (heap w)) w)).

(** [os.path.join] of [posixpath]. *)
Definition starts_with_slash (s : string) : bool := String.prefix "/" s.
Fixpoint ends_with_slash (s : string) : bool :=
  match s with
  | EmptyString => false
  | String _ s' => if String.eqb s' "" then String.eqb s "/" else ends_with_slash s'
  end.
Definition path_join1 (path b : string) : string :=
  if starts_with_slash b then b
  else if String.eqb path "" || ends_with_slash path then path +:+ b
  else path +:+ "/" +:+ b.
Definition os_path_join (a : string) (p : list string) : string :=
  foldl path_join1 a p.

Module Metadata_io.
  (** Modelled from the spec: [Metadata(...).persist(dir)] writes the record
      to the metadata file of the directory, and [Metadata.load(dir)] reads
      it back unchanged. *)
Definition persist (md : Metadata.t) (dir_name : string) : M world unit :=
    _ <-- log (EvMetadataPersist md dir_name) ;;
    modify (λ w, set_disk (<[dir_name := Metadata.metadata md]> (disk w)) w).

Definition load (model_dir : string) : M world Metadata.t :=
    d <-- gets (λ w, disk w !! model_dir) ;;
    match d with
    | Some m => ret (Metadata.mk m model_dir)
    | None => raise (OtherError "IOError" model_dir)
    end.
End Metadata_io.

(** ** Calls to component methods *)

Section Calls.
Variable methods : string → Component.Class.

Definition class_of (c : Component.t) : Component.Class :=
    methods (Component.cls c).

Definition call_provide_context (c : Component.t) : M world (option dict) :=
    let r := Component.provide_context (class_of c) (Component.self c) in
    _ <-- log (EvProvideContext c r) ;; of_result r.

Definition call_process (c : Component.t) (message : Message.t)
      (context : dict) : M world Message.t :=
    _ <-- log (EvProcess c message context) ;;
    of_result (Component.process (class_of c) (Component.self c) message context).

Definition call_persist (c : Component.t) (dir_name : string)
      : M world (option dict) :=
    let r := Component.persist (class_of c) (Component.self c) dir_name in
    _ <-- log (EvPersist c dir_name r) ;; of_result r.

  (** [c.prepare_partial_processing(prior, context)]; the result is the
      object after the call. *)
Definition call_prepare (c : Component.t) (prior : list Component.t)
      (context : dict) : M world Component.t :=
    let r := Component.prepare_partial_processing (class_of c)
               (Component.self c) prior context in
    _ <-- log (EvPrepare c prior context r) ;;
    s <-- of_result r ;;
    ret (Component.with_self c s).

  (** [c.train(data, config, **context)]: the corpus object at [data] is
      mutated in place; the result is the object after the call and the
      value returned. *)
Definition call_train (c : Component.t) (data : loc) (config : Config)
      (context : dict) : M world (Component.t * option dict) :=
    td <-- gets (deref data) ;;
    match Component.train (class_of c) (Component.self c) td config context with
    | Ok (s, td', updates) =>
        _ <-- log (EvTrain c data config context (Ok updates)) ;;
        _ <-- modify (λ w, set_heap (<[data := td']> (heap w)) w) ;;
        ret (Component.with_self c s, updates)
    | Raise e =>
        _ <-- log (EvTrain c data config context (Raise e)) ;;
        raise e
    end.
End Calls.

(** [try: body except components.MissingArgumentError as e: handler(e)] *)
Definition try_except_MissingArgumentError {S A}
    (body : M S A) (handler : exn → M S A) : M S A :=
  λ s, match body s with
       | (Raise (MissingArgumentError m), s') => handler (MissingArgumentError m) s'
       | other => other
       end.

(** ["Failed to initialize component '{}'. {}".format(name, e)] *)
Definition failed_to_initialize (name : string) (e : exn) : string :=
  "Failed to initialize component '" +:+ name +:+ "'. " +:+ exn_str e.

(** ** class Interpreter *)

Module Interpreter.

Record t : Type := mk {
  pipeline : list Component.t;
  context : dict;
  model_metadata : option Metadata.t;
}.

Definition default_output_attributes : dict :=
  {[ "intent" := PyDict {[ "name" := PyStr ""; "confidence" := PyFloat 0%float ]};
     "entities" := PyList [] ]}.

(** [__init__] *)
Definition init (pipeline : list Component.t) (context : option dict)
    (model_metadata : option Metadata.t) : t :=
  mk pipeline
     (match context with Some c => c | None => ∅ end)
     model_metadata.

Section Methods.
Variable methods : string → Component.Class.
(** [components.ComponentBuilder()], built when no builder is passed. *)
Variable default_builder : ComponentBuilder.
Variable validate_requirements : list pyval → result unit.

Definition call_validate_requirements (names : list pyval) : M world unit :=
  _ <-- log (EvValidateRequirements names) ;;
  of_result (validate_requirements names).

Definition call_load_component (builder : ComponentBuilder)
    (component_name : pyval) (md : Metadata.t) (config : Config)
    (context : dict) : M world Component.t :=
  _ <-- log (EvLoadComponent component_name (Metadata.model_dir md) context) ;;
  of_result (load_component builder component_name (Metadata.model_dir md)
               md config context).

(** [for component_name in model_metadata.pipeline: ...] of [create] *)
Fixpoint create_loop (builder : ComponentBuilder) (md : Metadata.t)
    (config : Config) (names : list pyval)
    (pipeline : list Component.t) (context : dict)
    : M world (list Component.t * dict) :=
  match names with
  | [] => ret (pipeline, context)
  | component_name :: names' =>
      component <-- call_load_component builder component_name md config context ;;
      ' (pipeline, context) <--
        try_except_MissingArgumentError
          (updates <-- call_provide_context methods component ;;
           ret (pipeline ++ [component], merge_updates context updates))
          (λ e, raise (Exception
                  (failed_to_initialize
                     (Component.name (class_of methods component)) e))) ;;
      create_loop builder md config names' pipeline context
  end.

Definition create (model_metadata : Metadata.t) (config : Config)
    (component_builder : option ComponentBuilder) (skip_valdation : bool)
    : M world t :=
  let context : dict := ∅ in
  let component_builder := default default_builder component_builder in
  let pipeline : list Component.t := [] in
  _ <-- (if negb skip_valdation
         then call_validate_requirements (Metadata.pipeline model_metadata)
         else ret tt) ;;
  ' (pipeline, context) <--
    create_loop component_builder model_metadata config
      (Metadata.pipeline model_metadata) pipeline context ;;
  ret (init pipeline (Some context) (Some model_metadata)).

(** [load]: [model_dir] is either a [Metadata] object (the deprecated use)
    or the path of a directory. *)
Definition load (model_dir : Metadata.t + string) (config : Config)
    (component_builder : option ComponentBuilder) (skip_valdation : bool)
    : M world t :=
  model_metadata <--
    match model_dir with
    | inl md => ret md
    | inr path => Metadata_io.load path
    end ;;
  create model_metadata config component_builder skip_valdation.

(** [for component in self.pipeline: component.process(message, **self.context)] *)
Fixpoint process_loop (components : list Component.t) (message : Message.t)
    (context : dict) : M world Message.t :=
  match components with
  | [] => ret message
  | component :: components' =>
      message <-- call_process methods component message context ;;
      process_loop components' message context
  end.

Definition parse (self : t) (text : option string) (time : option pyval)
    : M world dict :=
  if negb (str_truthy text) then
    let output := default_output_attributes in
    let output := <["text" := PyStr ""]> output in
    ret output
  else
    let message :=
      Message.init (default "" text) default_output_attributes time in
    message <-- process_loop (pipeline self) message (context self) ;;
    let output := default_output_attributes in
    let output := dict_update output (Message.as_dict message true) in
    ret output.

End Methods.
End Interpreter.

(** ** components.validate_arguments *)

Module Components.

(** The first key of [required] that is not in [provided]. *)
Definition first_missing (required : list string) (provided : gset string)
    : option string :=
  head (filter (λ k, k ∉ provided) required).

(** Modelled from the spec: [validate_arguments] of
    [chi_annotator.task_center.components] is not part of the sources. The
    validation pass runs against the accumulated context and fails with
    [MissingArgumentError] when a component declares a dependency on a
    context key that is neither in that context nor promised by an earlier
    component. *)
Fixpoint validate_from (methods : string → Component.Class)
    (pipeline : list Component.t) (provided : gset string) : result unit :=
  match pipeline with
  | [] => Ok tt
  | c :: rest =>
      match first_missing (Component.requires (class_of methods c)) provided with
      | Some k =>
          Raise (MissingArgumentError
                   (Component.name (class_of methods c) +:+ ": " +:+ k))
      | None =>
          validate_from methods rest
            (provided ∪ list_to_set (Component.provides (class_of methods c)))
      end
  end.

Definition validate_arguments (methods : string → Component.Class)
    (pipeline : list Component.t) (context : dict) : result unit :=
  validate_from methods pipeline (dom context).

End Components.

(** ** class Trainer *)

Module Trainer.

Record t : Type := mk {
  config : Config;
  skip_validation : bool;
  training_data : option loc;
  pipeline : list Component.t;
}.

(** The state of a method that mutates [self]: the object and the world. *)
Record state : Type := mkState {
  self : t;
  env : world;
}.

Definition lift {A} (m : M world A) : M state A :=
  λ s, let (r, w) := m (env s) in (r, mkState (self s) w).

Definition with_training_data (self : t) (data : option loc) : t :=
  mk (config self) (skip_validation self) data (pipeline self).
Definition with_pipeline (self : t) (pipeline : list Component.t) : t :=
  mk (config self) (skip_validation self) (training_data self) pipeline.

(** [self.training_data = data] *)
Definition set_training_data (data : loc) : M state unit :=
  modify (λ s, mkState (with_training_data (self s) (Some data)) (env s)).

(** The in-place mutation of the object [self.pipeline[i]]. *)
Definition set_component (i : nat) (c : Component.t) : M state unit :=
  modify (λ s, mkState (with_pipeline (self s) (<[i := c]> (pipeline (self s))))
                       (env s)).

Section Methods.
Variable methods : string → Component.Class.
(** [components.ComponentBuilder()], built when no builder is passed. *)
Variable default_builder : ComponentBuilder.
Variable validate_arguments : list Component.t → dict → result unit.
(** The class [TrainingData]: its [persist] and its truth value. *)
Variable TrainingData_persist : pyval → string → result dict.
Variable TrainingData_bool : pyval → bool.

(** [for component_name in config.pipeline: ...] of [__init__] *)
Fixpoint create_loop (builder : ComponentBuilder) (config : Config)
    (names : list string) (pipeline : list Component.t)
    : M world (list Component.t) :=
  match names with
  | [] => ret pipeline
  | component_name :: names' =>
      component <-- of_result (create_component builder component_name config) ;;
      create_loop builder config names' (pipeline ++ [component])
  end.

Definition init (config : Config) (component_builder : option ComponentBuilder)
    (skip_validation : bool) : M world t :=
  let component_builder := default default_builder component_builder in
  pipeline <-- create_loop component_builder config (cfg_pipeline config) [] ;;
  ret (mk config skip_validation None pipeline).

(** The first loop of [train]: fold every [provide_context()] into the
    context. *)
Fixpoint provide_context_loop (components : list Component.t) (context : dict)
    : M world dict :=
  match components with
  | [] => ret context
  | component :: components' =>
      updates <-- call_provide_context methods component ;;
      provide_context_loop components' (merge_updates context updates)
  end.

Definition call_validate_arguments (pipeline : list Component.t)
    (context : dict) : M world unit :=
  _ <-- log (EvValidateArguments pipeline context) ;;
  of_result (validate_arguments pipeline context).

(** The body of the training loop for [i, component]. *)
Definition train_step (working_data : loc) (i : nat) (component : Component.t)
    (context : dict) : M state (option dict) :=
  prior <-- gets (λ s, take i (pipeline (self s))) ;;
  component <-- lift (call_prepare methods component prior context) ;;
  _ <-- set_component i component ;;
  config <-- gets (λ s, config (self s)) ;;
  ' (component, updates) <--
    lift (call_train methods component working_data config context) ;;
  _ <-- set_component i component ;;
  ret updates.

(** [for i, component in enumerate(self.pipeline): ...]: the iterator
    yields the object at index [i] until the list is exhausted. *)
Fixpoint train_loop (working_data : loc) (indices : list nat) (context : dict)
    : M state dict :=
  match indices with
  | [] => ret context
  | i :: indices' =>
      component <-- gets (λ s, pipeline (self s) !! i) ;;
      match component with
      | None => ret context
      | Some component =>
          updates <-- train_step working_data i component context ;;
          train_loop working_data indices' (merge_updates context updates)
      end
  end.

Definition train (data : loc) : M state Interpreter.t :=
  _ <-- set_training_data data ;;
  let context : dict := ∅ in
  components <-- gets (λ s, pipeline (self s)) ;;
  context <-- lift (provide_context_loop components context) ;;
  skip <-- gets (λ s, skip_validation (self s)) ;;
  _ <-- (if negb skip
         then lift (call_validate_arguments components context)
         else ret tt) ;;
  working_data <-- lift (deepcopy data) ;;
  context <-- train_loop working_data (seq 0 (length components)) context ;;
  components <-- gets (λ s, pipeline (self s)) ;;
  ret (Interpreter.init components (Some context) None).

Definition call_data_persist (data : loc) (dir_name : string) : M world dict :=
  _ <-- log (EvDataPersist data dir_name) ;;
  td <-- gets (deref data) ;;
  of_result (TrainingData_persist td dir_name).

(** [for component in self.pipeline: ...] of [persist] *)
Fixpoint persist_loop (components : list Component.t) (dir_name : string)
    (metadata : dict) : M world dict :=
  match components with
  | [] => ret metadata
  | component :: components' =>
      update <-- call_persist methods component dir_name ;;
      persist_loop components' dir_name (merge_updates metadata update)
  end.

Definition call_persistor (p : Persistor)
    (dir_name model_name project_name : string) : M world unit :=
  _ <-- log (EvPersistor dir_name model_name project_name) ;;
  of_result (persistor_persist p dir_name model_name project_name).

(** The metadata record [persist] starts from. *)
Definition base_metadata (self : t) : dict :=
  {[ "language" := PyStr (cfg_language (config self));
     "pipeline" := PyList (PyStr <$> (module_path_from_object <$> pipeline self)) ]}.

Definition persist (self : t) (path : string) (persistor : option Persistor)
    (project_name fixed_model_name : option string) : M world string :=
  timestamp <-- gets clock ;;
  let metadata := base_metadata self in
  let project_name := default "default" project_name in
  let model_name :=
    if str_truthy fixed_model_name then default "" fixed_model_name
    else "model_" +:+ timestamp in
  let dir_name := os_path_join path [project_name; model_name] in
  _ <-- log (EvCreateDir dir_name) ;;
  metadata <--
    match training_data self with
    | Some data =>
        td <-- gets (deref data) ;;
        if TrainingData_bool td then
          update <-- call_data_persist data dir_name ;;
          ret (dict_update metadata update)
        else ret metadata
    | None => ret metadata
    end ;;
  metadata <-- persist_loop (pipeline self) dir_name metadata ;;
  _ <-- Metadata_io.persist (Metadata.mk metadata dir_name) dir_name ;;
  _ <-- match persistor with
        | Some p => call_persistor p dir_name model_name project_name
        | None => ret tt
        end ;;
  ret dir_name.

End Methods.
End Trainer.

(** ** Reading a trace *)

(** The components whose [process] was called, in call order. *)
Definition process_calls (evs : list event) : list Component.t :=
  omap (λ e, match e with EvProcess c _ _ => Some c | _ => None end) evs.

(** The identifiers passed to [load_component], in call order. *)
Definition loaded_names (evs : list event) : list pyval :=
  omap (λ e, match e with EvLoadComponent n _ _ => Some n | _ => None end) evs.

(** The contexts passed to [train], and the values [train] returned. *)
Definition train_contexts (evs : list event) : list dict :=
  omap (λ e, match e with EvTrain _ _ _ ctx _ => Some ctx | _ => None end) evs.
Definition train_returns (evs : list event) : list (option dict) :=
  omap (λ e, match e with EvTrain _ _ _ _ (Ok u) => Some u | _ => None end) evs.

Definition is_train_event (e : event) : bool :=
  match e with EvTrain _ _ _ _ _ => true | _ => false end.
Definition is_prepare_event (e : event) : bool :=
  match e with EvPrepare _ _ _ _ => true | _ => false end.
Definition is_validate_event (e : event) : bool :=
  match e with EvValidateArguments _ _ => true | _ => false end.

(** [e] is a call of a component method that raised [x]. *)
Definition raised_by_component (x : exn) (e : event) : Prop :=
  match e with
  | EvProvideContext _ (Raise x') => x' = x
  | EvPrepare _ _ _ (Raise x') => x' = x
  | EvTrain _ _ _ _ (Raise x') => x' = x
  | _ => False
  end.

(** The events of the first loop of [train], and the values folded. *)
Definition provide_events (methods : string → Component.Class)
    (components : list Component.t) : list event :=
  (λ c, EvProvideContext c
          (Component.provide_context (class_of methods c) (Component.self c)))
    <$> components.
Definition provided_updates (methods : string → Component.Class)
    (components : list Component.t) : list (option dict) :=
  (λ c, match Component.provide_context (class_of methods c) (Component.self c) with
        | Ok u => u
        | Raise _ => None
        end) <$> components.

(** The values the components' [persist] return for a directory. *)
Definition persisted_updates (methods : string → Component.Class)
    (components : list Component.t) (dir_name : string) : list (option dict) :=
  (λ c, match Component.persist (class_of methods c) (Component.self c) dir_name with
        | Ok u => u
        | Raise _ => None
        end) <$> components.

(** The training schedule, as the events of the training loop must show
    it: from index [i], context [context] and contents [td] of the working
    copy on, the events come in pairs. The first is the call of
    [prepare_partial_processing] of the component at index [i] (as it was
    [before] the loop) with the first [i] components of the pipeline
    [after] the loop and the current context, and it records what that
    method of the component's class returns on these arguments. The second
    is the call of [train] of the prepared component on the working copy
    with the configuration and the same context: the method of the
    component's class, run on the prepared object and the contents [td],
    returns the trained object, which is the one the pipeline holds at
    index [i] [after] the loop, the new contents of the working copy, and
    the value recorded, which is folded into the context of the next index.
    [final] and [final_td] are the context and the contents of the working
    copy after the last index. *)
Fixpoint follows_schedule (methods : string → Component.Class)
    (config : Config) (working_data : loc)
    (before after : list Component.t) (i : nat) (context : dict) (td : pyval)
    (evs : list event) (final : dict) (final_td : pyval) : Prop :=
  match evs with
  | [] => i = length after ∧ final = context ∧ final_td = td
  | e1 :: evs1 =>
      match evs1 with
      | [] => False
      | e2 :: rest =>
          match e1, e2 with
          | EvPrepare c prior ctx1 (Ok s), EvTrain c' d cfg ctx2 (Ok updates) =>
              before !! i = Some c ∧ prior = take i after ∧ ctx1 = context
              ∧ Component.prepare_partial_processing (class_of methods c)
                  (Component.self c) (take i after) context = Ok s
              ∧ c' = Component.with_self c s
              ∧ d = working_data ∧ cfg = config ∧ ctx2 = context
              ∧ ∃ trained td',
                  Component.train (class_of methods c) s td config context
                    = Ok (trained, td', updates)
                  ∧ after !! i = Some (Component.with_self c trained)
                  ∧ follows_schedule methods config working_data before after
                      (S i) (merge_updates context updates) td' rest
                      final final_td
          | _, _ => False
          end
      end
  end.

(** ** The training loop as a function of the class table *)

(** Lines 70-76 of [train] read without the call trace and the in-place
    updates: the components still [todo] are prepared and trained one after
    the other, each with the components [done] before it, the context and
    the contents [td] of the working copy its predecessors left. A raising
    call ends the loop and leaves the pipeline as it is at that point.
    [Trainer.train_loop] is the code; the theorems below relate the two. *)
Module Schedule.

(** What the loop leaves: its outcome (the final context or the exception
    raised), the pipeline, the contents of the working copy and the values
    the calls of [train] returned, in call order. *)
Record t : Type := mk {
  outcome : result dict;
  pipeline : list Component.t;
  working_data : pyval;
  returned : list (option dict);
}.

Fixpoint run (methods : string → Component.Class) (config : Config)
    (todo done : list Component.t) (context : dict) (td : pyval)
    (returned : list (option dict)) : t :=
  match todo with
  | [] => mk (Ok context) done td returned
  | c :: todo' =>
      match Component.prepare_partial_processing (class_of methods c)
              (Component.self c) done context with
      | Raise e => mk (Raise e) (done ++ c :: todo') td returned
      | Ok prepared =>
          match Component.train (class_of methods c) prepared td config context with
          | Raise e =>
              mk (Raise e) (done ++ Component.with_self c prepared :: todo')
                 td returned
          | Ok (trained, td', updates) =>
              run methods config todo' (done ++ [Component.with_self c trained])
                (merge_updates context updates) td' (returned ++ [updates])
          end
      end
  end.

End Schedule.

(** What a run of [train] hands to its caller, as an outcome of the loop:
    the context of the interpreter returned, or the exception. *)
Definition train_outcome (r : result Interpreter.t) : result dict :=
  match r with
  | Ok interp => Ok (Interpreter.context interp)
  | Raise e => Raise e
  end.

(** An event of the training loop on the working copy [working_data]. *)
Definition loop_event (working_data : loc) (e : event) : Prop :=
  match e with
  | EvPrepare _ _ _ _ => True
  | EvTrain _ d _ _ _ => d = working_data
  | _ => False
  end.

(** The world after more calls were recorded. *)
Definition add_events (evs : list event) (w : world) : world :=
  mkWorld (trace w ++ evs) (heap w) (disk w) (clock w).

(** The events of the loop of [persist]. *)
Definition persist_events (methods : string → Component.Class)
    (components : list Component.t) (dir_name : string) : list event :=
  (λ c, EvPersist c dir_name
          (Component.persist (class_of methods c) (Component.self c) dir_name))
    <$> components.

(** The mapping (if any) has no entry for [k]. *)
Definition lacks_key (k : string) (u : option dict) : Prop :=
  match u with
  | Some m => m !! k = None
  | None => True
  end.

(** The directory [persist] writes to, from its arguments and the clock. *)
Definition persist_dir_name (path : string)
    (project_name fixed_model_name : option string) (timestamp : string)
    : string :=
  os_path_join path
    [default "default" project_name;
     if str_truthy fixed_model_name then default "" fixed_model_name
     else "model_" +:+ timestamp].

(** The mapping the corpus contributes to the metadata: the value of its
    [persist] when the trainer holds a corpus that is true. *)
Definition corpus_updates (TrainingData_persist : pyval → string → result dict)
    (TrainingData_bool : pyval → bool) (self : Trainer.t) (w : world)
    (dir_name : string) : option dict :=
  match Trainer.training_data self with
  | Some data =>
      if TrainingData_bool (deref data w) then
        match TrainingData_persist (deref data w) dir_name with
        | Ok u => Some u
        | Raise _ => None
        end
      else None
  | None => None
  end.

(** The events of the corpus's [persist], when it is called. *)
Definition corpus_events (TrainingData_bool : pyval → bool) (self : Trainer.t)
    (w : world) (dir_name : string) : list event :=
  match Trainer.training_data self with
  | Some data =>
      if TrainingData_bool (deref data w) then [EvDataPersist data dir_name]
      else []
  | None => []
  end.

(** The metadata after the corpus's contribution. *)
Definition corpus_merged (TrainingData_persist : pyval → string → result dict)
    (TrainingData_bool : pyval → bool) (self : Trainer.t) (w : world)
    (dir_name : string) : dict :=
  match corpus_updates TrainingData_persist TrainingData_bool self w dir_name with
  | Some u => dict_update (Trainer.base_metadata self) u
  | None => Trainer.base_metadata self
  end.

(** ** A concrete pipeline of stub components *)

Module Stubs.

(** A stub class: it provides the context [provided], records that it was
    trained, annotates the corpus with its name, writes its name under the
    output key [out_key] and persists the mapping [persisted]. *)
Definition stub (name : string) (provided : option dict)
    (out_key : string) (persisted : option dict)
    (requires provides : list string) : Component.Class :=
  Component.mkClass name
    (λ _, Ok provided)
    (λ _ td _ _,
       Ok (PyStr "trained",
           match td with
           | PyList l => PyList (l ++ [PyStr name])
           | other => other
           end,
           None))
    (λ _ m _, Ok (Message.set m out_key (PyStr name) true))
    (λ _ _, Ok persisted)
    (λ s _ _, Ok s)
    requires provides.

Definition class_A : Component.Class :=
  stub "A" (Some {[ "x" := PyInt 1 ]}) "intent"
    (Some {[ "a_file" := PyStr "a.pkl" ]}) [] [].
Definition class_B : Component.Class :=
  stub "B" (Some {[ "x" := PyInt 2; "y" := PyInt 3 ]}) "intent"
    (Some {[ "b_file" := PyStr "b.pkl" ]}) ["x"] [].
Definition class_C : Component.Class :=
  stub "C" None "c_out" None ["y"] [].

(** A class whose [train] needs a context key nobody supplies. *)
Definition class_Needy : Component.Class :=
  stub "Needy" None "needy_out" None ["spacy_nlp"] [].

(** A class whose [provide_context] raises a missing-argument error. *)
Definition class_Broken : Component.Class :=
  Component.mkClass "Broken"
    (λ _, Raise (MissingArgumentError "spacy_nlp"))
    (λ s td _ _, Ok (s, td, None))
    (λ _ m _, Ok m)
    (λ _ _, Ok None)
    (λ s _ _, Ok s)
    [] [].

(** A class whose [persist] returns a mapping with the key ["pipeline"]. *)
Definition class_Greedy : Component.Class :=
  stub "Greedy" None "greedy_out" (Some {[ "pipeline" := PyList [] ]}) [] [].

Definition methods (cls : string) : Component.Class :=
  if String.eqb cls "stubs.A" then class_A
  else if String.eqb cls "stubs.B" then class_B
  else if String.eqb cls "stubs.C" then class_C
  else if String.eqb cls "stubs.Needy" then class_Needy
  else if String.eqb cls "stubs.Greedy" then class_Greedy
  else class_Broken.

(** The registry: a component name [N] resolves to the class [stubs.N]. *)
Definition known (cls : string) : bool :=
  bool_decide (cls ∈ ["stubs.A"; "stubs.B"; "stubs.C"; "stubs.Needy";
                      "stubs.Greedy"; "stubs.Broken"]).

Definition builder : ComponentBuilder :=
  mkBuilder
    (λ name _,
       if known ("stubs." +:+ name)
       then Ok (Component.mk ("stubs." +:+ name) PyNone)
       else Raise (OtherError "Exception" name))
    (λ name _ _ _ _,
       match name with
       | PyStr cls =>
           if known cls then Ok (Component.mk cls (PyStr "loaded"))
           else Raise (OtherError "Exception" cls)
       | _ => Raise (OtherError "Exception" "")
       end).

Definition validate_requirements (names : list pyval) : result unit := Ok tt.
Definition TrainingData_persist (td : pyval) (dir_name : string) : result dict :=
  Ok {[ "training_data" := PyStr "training_data.json" ]}.
Definition TrainingData_bool (td : pyval) : bool := true.

(** The corpus object of the caller lives at location [1]. *)
Definition corpus : loc := 1%positive.
Definition world0 : world :=
  mkWorld [] {[ corpus := PyList [] ]} ∅ "20170101-120000".

Definition config_ABC : Config := mkConfig "zh" ["A"; "B"; "C"].
Definition component_A : Component.t := Component.mk "stubs.A" PyNone.
Definition component_B : Component.t := Component.mk "stubs.B" PyNone.
Definition component_C : Component.t := Component.mk "stubs.C" PyNone.

Definition trainer_ABC : Trainer.t :=
  Trainer.mk config_ABC false None [component_A; component_B; component_C].

(** The run of [train] on the trainer [A, B, C]. *)
Definition run_ABC : result Interpreter.t * Trainer.state :=
  Trainer.train methods (Components.validate_arguments methods) corpus
    (Trainer.mkState trainer_ABC world0).
Definition trained_ABC : Trainer.state := run_ABC.2.
Definition interpreter_ABC : Interpreter.t :=
  match run_ABC.1 with
  | Ok interp => interp
  | Raise _ => Interpreter.init [] None None
  end.

(** An interpreter over the loaded components [A, B]. *)
Definition interpreter_AB : Interpreter.t :=
  Interpreter.init
    [Component.mk "stubs.A" (PyStr "loaded");
     Component.mk "stubs.B" (PyStr "loaded")]
    (Some {[ "x" := PyInt 2; "y" := PyInt 3 ]}) None.

(** A trainer whose second component needs a key nobody supplies. *)
Definition component_Needy : Component.t := Component.mk "stubs.Needy" PyNone.
Definition trainer_needy : Trainer.t :=
  Trainer.mk (mkConfig "zh" ["A"; "Needy"; "C"]) false None
    [component_A; component_Needy; component_C].

(** A trainer whose only component persists the key ["pipeline"]. *)
Definition config_greedy : Config := mkConfig "zh" ["Greedy"].
Definition trainer_greedy : Trainer.t :=
  Trainer.mk config_greedy false None [Component.mk "stubs.Greedy" PyNone].

(** Metadata naming a component whose [provide_context] raises. *)
Definition metadata_broken : Metadata.t :=
  Metadata.mk
    {[ "language" := PyStr "zh";
       "pipeline" := PyList [PyStr "stubs.A"; PyStr "stubs.Broken";
                             PyStr "stubs.C"] ]}
    "models/default/broken".

End Stubs.
(** ** Reading a trace, continued *)

(** The contexts passed to [load_component], in call order. *)
Definition load_contexts (evs : list event) : list dict :=
  omap (λ e, match e with EvLoadComponent _ _ ctx => Some ctx | _ => None end) evs.

(** The contexts passed to [process], in call order. *)
Definition process_contexts (evs : list event) : list dict :=
  omap (λ e, match e with EvProcess _ _ ctx => Some ctx | _ => None end) evs.

(** The objects [copy.deepcopy] created, in call order. *)
Definition working_copies (evs : list event) : list loc :=
  omap (λ e, match e with EvDeepcopy _ dst => Some dst | _ => None end) evs.

(** The events recorded between two worlds. *)
Definition new_events (w w' : world) : list event :=
  drop (length (trace w)) (trace w').

(** The world when the clock shows another time. *)
Definition at_time (timestamp : string) (w : world) : world :=
  mkWorld (trace w) (heap w) (disk w) timestamp.

(** The components [prepare_partial_processing] was called on, in call
    order: one per iteration of the training loop that began. *)
Definition prepared (evs : list event) : list Component.t :=
  omap (λ e, match e with EvPrepare c _ _ _ => Some c | _ => None end) evs.

(** The calls made to the persistor: directory, model name, project name. *)
Definition persistor_calls (evs : list event) : list (string * string * string) :=
  omap (λ e, match e with EvPersistor d m p => Some (d, m, p) | _ => None end) evs.

(** The messages passed to [process], in call order. *)
Definition process_messages (evs : list event) : list Message.t :=
  omap (λ e, match e with EvProcess _ m _ => Some m | _ => None end) evs.

(** The messages [ms] are those a pipeline hands from component to
    component: the first component receives [m], each next one the message
    its predecessor returned, and [final] is what the last one returned. *)
Fixpoint handed_on (methods : string → Component.Class) (context : dict)
    (components : list Component.t) (m : Message.t) (ms : list Message.t)
    (final : Message.t) : Prop :=
  match components, ms with
  | [], [] => final = m
  | c :: components', m0 :: ms' =>
      m0 = m
      ∧ match Component.process (class_of methods c) (Component.self c) m context with
        | Ok m1 => handed_on methods context components' m1 ms' final
        | Raise _ => False
        end
  | _, _ => False
  end.

(** ** More stub components: failures *)

Module Stubs2.

(** A class whose [train], [process] and [persist] raise. *)
Definition class_Fragile : Component.Class :=
  Component.mkClass "Fragile"
    (λ _, Ok None)
    (λ _ _ _ _, Raise (OtherError "ValueError" "no training examples"))
    (λ _ _ _, Raise (OtherError "ValueError" "cannot process"))
    (λ _ _, Raise (OtherError "IOError" "disk full"))
    (λ _ _ _, Ok (PyStr "prepared"))
    [] [].

Definition methods (cls : string) : Component.Class :=
  if String.eqb cls "stubs.Fragile" then class_Fragile else Stubs.methods cls.

Definition component_Fragile : Component.t := Component.mk "stubs.Fragile" PyNone.

(** A trainer whose second component cannot be trained or persisted. *)
Definition trainer_fragile : Trainer.t :=
  Trainer.mk (mkConfig "zh" ["A"; "Fragile"; "C"]) true None
    [Stubs.component_A; component_Fragile; Stubs.component_C].

(** A trainer whose second component cannot provide its context. *)
Definition component_Broken : Component.t := Component.mk "stubs.Broken" PyNone.
Definition trainer_broken : Trainer.t :=
  Trainer.mk (mkConfig "zh" ["A"; "Broken"; "C"]) false None
    [Stubs.component_A; component_Broken; Stubs.component_C].

(** An interpreter whose second component cannot process. *)
Definition interpreter_fragile : Interpreter.t :=
  Interpreter.init
    [Component.mk "stubs.A" (PyStr "loaded");
     Component.mk "stubs.Fragile" (PyStr "loaded");
     Component.mk "stubs.B" (PyStr "loaded")]
    (Some {[ "x" := PyInt 2 ]}) None.

(** A persistor whose upload fails. *)
Definition persistor_offline : Persistor :=
  mkPersistor (λ _ _ _, Raise (OtherError "IOError" "upload failed")).

(** Metadata of the pipeline [A, B, C], and of one naming an unknown class. *)
Definition metadata_ABC : Metadata.t :=
  Metadata.mk
    {[ "language" := PyStr "zh";
       "pipeline" := PyList [PyStr "stubs.A"; PyStr "stubs.B"; PyStr "stubs.C"] ]}
    "models/default/m".
Definition metadata_unknown : Metadata.t :=
  Metadata.mk
    {[ "language" := PyStr "zh";
       "pipeline" := PyList [PyStr "stubs.A"; PyStr "stubs.Unknown";
                             PyStr "stubs.C"] ]}
    "models/default/u".

(** The run of [create] on the metadata of [A, B, C]. *)
Definition created_ABC : result Interpreter.t * world :=
  Interpreter.create Stubs.methods Stubs.builder Stubs.validate_requirements
    metadata_ABC Stubs.config_ABC None false Stubs.world0.
Definition loaded_ABC : Interpreter.t :=
  match created_ABC.1 with
  | Ok interp => interp
  | Raise _ => Interpreter.init [] None None
  end.

(** The run of [parse] on the interpreter [A, B]. *)
Definition parsed_AB : result dict * world :=
  Interpreter.parse Stubs.methods Stubs.interpreter_AB (Some "hello") None
    Stubs.world0.
Definition output_AB : dict :=
  match parsed_AB.1 with Ok out => out | Raise _ => ∅ end.

(** Two runs of [persist] of the trainer [A, B, C], one second apart. *)
Definition persisted_first : result string * world :=
  Trainer.persist Stubs.methods Stubs.TrainingData_persist
    Stubs.TrainingData_bool Stubs.trainer_ABC "models" None None None
    Stubs.world0.
Definition persisted_second : result string * world :=
  Trainer.persist Stubs.methods Stubs.TrainingData_persist
    Stubs.TrainingData_bool Stubs.trainer_ABC "models" None None None
    (at_time "20170101-120001" persisted_first.2).

End Stubs2.

(** ** More stub components: late providers and training values *)

Module Stubs3.

(** A class whose [provide_context] supplies the key ["spacy_nlp"]. *)
Definition class_Late : Component.Class :=
  Stubs.stub "Late" (Some {[ "spacy_nlp" := PyStr "nlp" ]}) "late_out" None [] [].

(** A class whose [train] returns a mapping: it overwrites ["x"] and adds
    ["z"]. *)
Definition class_Tagger : Component.Class :=
  Component.mkClass "Tagger"
    (λ _, Ok None)
    (λ _ td _ _,
       Ok (PyStr "tagger trained",
           match td with
           | PyList l => PyList (l ++ [PyStr "Tagger"])
           | other => other
           end,
           Some {[ "x" := PyInt 7; "z" := PyInt 9 ]}))
    (λ _ m _, Ok m)
    (λ _ _, Ok None)
    (λ _ prior _, Ok (PyInt (Z.of_nat (length prior))))
    [] [].

Definition methods (cls : string) : Component.Class :=
  if String.eqb cls "stubs.Late" then class_Late
  else if String.eqb cls "stubs.Tagger" then class_Tagger
  else Stubs2.methods cls.

Definition component_Late : Component.t := Component.mk "stubs.Late" PyNone.
Definition component_Tagger : Component.t := Component.mk "stubs.Tagger" PyNone.

(** A trainer whose second component requires a key that only the third
    component's [provide_context] supplies. *)
Definition trainer_late : Trainer.t :=
  Trainer.mk (mkConfig "zh" ["A"; "Needy"; "Late"]) false None
    [Stubs.component_A; Stubs.component_Needy; component_Late].

(** A persistor whose upload succeeds. *)
Definition persistor_online : Persistor := mkPersistor (λ _ _ _, Ok tt).

(** A trainer whose third component's [train] returns a mapping. *)
Definition config_tagger : Config := mkConfig "zh" ["A"; "B"; "Tagger"; "C"].
Definition trainer_tagger : Trainer.t :=
  Trainer.mk config_tagger false None
    [Stubs.component_A; Stubs.component_B; component_Tagger; Stubs.component_C].

(** The run of [train] on the trainer [A, B, Tagger, C]. *)
Definition run_tagger : result Interpreter.t * Trainer.state :=
  Trainer.train methods (Components.validate_arguments methods) Stubs.corpus
    (Trainer.mkState trainer_tagger Stubs.world0).
Definition trained_tagger : Trainer.state := run_tagger.2.
Definition interpreter_tagger : Interpreter.t :=
  match run_tagger.1 with
  | Ok interp => interp
  | Raise _ => Interpreter.init [] None None
  end.

End Stubs3.

(** * Properties *)

(** ** Dictionaries and the monad *)

Lemma merge_updates_lookup (d : dict) (u : option dict) (k : string) :
  merge_updates d u !! k =
  match u with
  | Some m => match m !! k with Some v => Some v | None => d !! k end
  | None => d !! k
  end.
Proof.
  destruct u as [m|]; simpl; [|done].
  case_bool_decide as Hsz.
  - unfold dict_update. rewrite lookup_union. destruct (m !! k), (d !! k); done.
  - assert (m = ∅) as -> by (apply map_size_empty_iff; lia).
    by rewrite lookup_empty.
Qed.

Lemma dict_update_lookup (d u : dict) (k : string) :
  dict_update d u !! k = match u !! k with Some v => Some v | None => d !! k end.
Proof.
  unfold dict_update. rewrite lookup_union. destruct (u !! k), (d !! k); done.
Qed.

Lemma bind_ok {S A B} (m : M S A) (k : A → M S B) s a s' :
  m s = (Ok a, s') → bind m k s = k a s'.
Proof. unfold bind. by intros ->. Qed.

Lemma bind_raise {S A B} (m : M S A) (k : A → M S B) s e s' :
  m s = (Raise e, s') → bind m k s = (Raise e, s').
Proof. unfold bind. by intros ->. Qed.

Lemma bind_inv_ok {S A B} (m : M S A) (k : A → M S B) s b s2 :
  bind m k s = (Ok b, s2) → ∃ a s1, m s = (Ok a, s1) ∧ k a s1 = (Ok b, s2).
Proof.
  unfold bind. destruct (m s) as [[a|e] s1]; [eauto|done].
Qed.

(** ** Interpreter.parse *)

Section Parse.
Variable methods : string → Component.Class.

Lemma process_loop_app cs1 cs2 m ctx w :
  Interpreter.process_loop methods (cs1 ++ cs2) m ctx w =
  match Interpreter.process_loop methods cs1 m ctx w with
  | (Ok m', w') => Interpreter.process_loop methods cs2 m' ctx w'
  | (Raise e, w') => (Raise e, w')
  end.
Proof.
  revert m w. induction cs1 as [|c cs1 IH]; intros m w; [done|].
  simpl. unfold bind.
  destruct (call_process methods c m ctx w) as [[m1|e] w1]; [apply IH|done].
Qed.

Lemma call_process_eq c m ctx w :
  call_process methods c m ctx w =
  (Component.process (class_of methods c) (Component.self c) m ctx,
   log_event (EvProcess c m ctx) w).
Proof. done. Qed.

(** When no component raises, the loop returns the final message. *)
Lemma process_loop_total cs ctx :
  (∀ c m, c ∈ cs →
     is_ok (Component.process (class_of methods c) (Component.self c) m ctx)) →
  ∀ m w, ∃ final w',
    Interpreter.process_loop methods cs m ctx w = (Ok final, w').
Proof.
  induction cs as [|c cs IH]; intros Hok m w; [by eexists _, _|].
  simpl. unfold bind. rewrite call_process_eq.
  pose proof (Hok c m ltac:(left)) as Hc.
  destruct (Component.process _ _ m ctx) as [m1|e]; [|done].
  apply IH. intros c' m' Hin. apply Hok. by right.
Qed.

(** A key left alone by every component of [cs] keeps its output value. *)
Lemma process_loop_preserves cs ctx k :
  (∀ c m m', c ∈ cs →
     Component.process (class_of methods c) (Component.self c) m ctx = Ok m' →
     Message.as_dict m' true !! k = Message.as_dict m true !! k) →
  ∀ m w final w',
    Interpreter.process_loop methods cs m ctx w = (Ok final, w') →
    Message.as_dict final true !! k = Message.as_dict m true !! k.
Proof.
  induction cs as [|c cs IH]; intros Hkeep m w final w' Hrun.
  - by injection Hrun as -> _.
  - simpl in Hrun. apply bind_inv_ok in Hrun as (m1 & w1 & Hc & Hrest).
    rewrite call_process_eq in Hc. injection Hc as Hc _.
    rewrite (IH (λ c' a b Hin, Hkeep c' a b (list_elem_of_further _ _ _ Hin))
               _ _ _ _ Hrest).
    apply (Hkeep c); [by left|done].
Qed.

End Parse.

(** C1. [parse] of an absent or empty text returns exactly the default
    output attributes with ["text": ""], whatever the pipeline, and leaves
    the world as it is: no component's [process] is called. *)
Theorem Interpreter_parse_empty_text
    (methods : string → Component.Class) (self : Interpreter.t)
    (time : option pyval) (w : world) :
  let expected : dict :=
    {[ "intent" := PyDict {[ "name" := PyStr ""; "confidence" := PyFloat 0%float ]};
       "entities" := PyList [];
       "text" := PyStr "" ]} in
  Interpreter.parse methods self None time w = (Ok expected, w)
  ∧ Interpreter.parse methods self (Some "") time w = (Ok expected, w).
Proof. split; reflexivity. Qed.

(** C2. For a non-empty text and a pipeline whose components' [process]
    return, [parse] returns the default output attributes overlaid with the
    output state of the message after the last component: ["intent"] and
    ["entities"] are present, a key the message does not output keeps its
    default, a key it outputs has the message's value, and a key written by
    a component and left alone by all later ones has that component's
    value. *)
Theorem Interpreter_parse_overlays_defaults
    (methods : string → Component.Class) (self : Interpreter.t)
    (text : string) (time : option pyval) (w : world) :
  text ≠ "" →
  (∀ c m, c ∈ Interpreter.pipeline self →
     is_ok (Component.process (class_of methods c) (Component.self c) m
              (Interpreter.context self))) →
  ∃ final w',
    Interpreter.process_loop methods (Interpreter.pipeline self)
      (Message.init text Interpreter.default_output_attributes time)
      (Interpreter.context self) w = (Ok final, w')
    ∧ let out := dict_update Interpreter.default_output_attributes
                   (Message.as_dict final true) in
      Interpreter.parse methods self (Some text) time w = (Ok out, w')
      ∧ is_Some (out !! "intent") ∧ is_Some (out !! "entities")
      ∧ (∀ k, Message.as_dict final true !! k = None →
              out !! k = Interpreter.default_output_attributes !! k)
      ∧ (∀ k v, Message.as_dict final true !! k = Some v → out !! k = Some v)
      ∧ (∀ pre c post k v,
           Interpreter.pipeline self = pre ++ c :: post →
           (∀ m m',
              Component.process (class_of methods c) (Component.self c) m
                (Interpreter.context self) = Ok m' →
              Message.as_dict m' true !! k = Some v) →
           (∀ c' m m', c' ∈ post →
              Component.process (class_of methods c') (Component.self c') m
                (Interpreter.context self) = Ok m' →
              Message.as_dict m' true !! k = Message.as_dict m true !! k) →
           out !! k = Some v).
Proof.
  intros Htext Hok.
  destruct (process_loop_total methods _ _ Hok
              (Message.init text Interpreter.default_output_attributes time) w)
    as (final & w' & Hrun).
  exists final, w'. split; [done|]. cbv zeta.
  assert (Hlookup : ∀ k, dict_update Interpreter.default_output_attributes
                           (Message.as_dict final true) !! k =
                         match Message.as_dict final true !! k with
                         | Some v => Some v
                         | None => Interpreter.default_output_attributes !! k
                         end) by (intros; apply dict_update_lookup).
  split; [|split; [|split; [|split; [|split]]]].
  - unfold Interpreter.parse.
    assert (str_truthy (Some text) = true) as ->.
    { simpl. apply negb_true_iff, String.eqb_neq. done. }
    simpl. by rewrite (bind_ok _ _ _ _ _ Hrun).
  - rewrite Hlookup. destruct (Message.as_dict final true !! "intent"); by eauto.
  - rewrite Hlookup. destruct (Message.as_dict final true !! "entities"); by eauto.
  - intros k Hk. by rewrite Hlookup, Hk.
  - intros k v Hk. by rewrite Hlookup, Hk.
  - intros pre c post k v Hsplit Hwrite Hkeep.
    rewrite Hlookup.
    rewrite Hsplit, process_loop_app in Hrun.
    destruct (Interpreter.process_loop methods pre _ _ w) as [[m1|e] w1];
      [|done].
    simpl in Hrun. apply bind_inv_ok in Hrun as (m2 & w2 & Hc & Hpost).
    rewrite call_process_eq in Hc. injection Hc as Hc _.
    rewrite (process_loop_preserves methods post _ k Hkeep _ _ _ _ Hpost).
    by rewrite (Hwrite _ _ Hc).
Qed.

(** ** Interpreter.create *)

Section Create.
Variable methods : string → Component.Class.

Lemma call_provide_context_eq c w :
  call_provide_context methods c w =
  (let r := Component.provide_context (class_of methods c) (Component.self c) in
   (r, log_event (EvProvideContext c r) w)).
Proof. done. Qed.

Lemma call_load_component_eq b name md cfg ctx w :
  Interpreter.call_load_component b name md cfg ctx w =
  (load_component b name (Metadata.model_dir md) md cfg ctx,
   log_event (EvLoadComponent name (Metadata.model_dir md) ctx) w).
Proof. done. Qed.

(** One iteration of the loop of [create], by the outcome of the load and
    of [provide_context]. *)
Lemma create_loop_cons b md cfg name names pl ctx w :
  Interpreter.create_loop methods b md cfg (name :: names) pl ctx w =
  let w1 := log_event (EvLoadComponent name (Metadata.model_dir md) ctx) w in
  match load_component b name (Metadata.model_dir md) md cfg ctx with
  | Raise e => (Raise e, w1)
  | Ok c =>
      let r := Component.provide_context (class_of methods c) (Component.self c) in
      let w2 := log_event (EvProvideContext c r) w1 in
      match r with
      | Ok updates =>
          Interpreter.create_loop methods b md cfg names (pl ++ [c])
            (merge_updates ctx updates) w2
      | Raise (MissingArgumentError m) =>
          (Raise (Exception
                    (failed_to_initialize (Component.name (class_of methods c))
                       (MissingArgumentError m))), w2)
      | Raise e => (Raise e, w2)
      end
  end.
Proof.
  simpl. unfold bind at 1. rewrite call_load_component_eq.
  destruct (load_component _ _ _ _ _ _) as [c|e]; [|done].
  unfold bind at 1, try_except_MissingArgumentError.
  unfold bind at 1. rewrite call_provide_context_eq. cbv zeta.
  destruct (Component.provide_context _ _) as [u|[m|m|k m]]; done.
Qed.

Lemma create_loop_app b md cfg names1 names2 pl ctx w :
  Interpreter.create_loop methods b md cfg (names1 ++ names2) pl ctx w =
  match Interpreter.create_loop methods b md cfg names1 pl ctx w with
  | (Ok (pl', ctx'), w') =>
      Interpreter.create_loop methods b md cfg names2 pl' ctx' w'
  | (Raise e, w') => (Raise e, w')
  end.
Proof.
  revert pl ctx w. induction names1 as [|n names1 IH]; intros pl ctx w; [done|].
  rewrite <- app_comm_cons, !create_loop_cons. cbv zeta.
  destruct (load_component _ _ _ _ _ _) as [c|e]; [|done].
  destruct (Component.provide_context _ _) as [u|[m|m|k m]];
    first [done | apply IH].
Qed.

(** The value the loop computes does not depend on the world it runs in. *)
Lemma create_loop_fst b md cfg names pl ctx w w' :
  (Interpreter.create_loop methods b md cfg names pl ctx w).1 =
  (Interpreter.create_loop methods b md cfg names pl ctx w').1.
Proof.
  revert pl ctx w w'. induction names as [|n names IH]; intros pl ctx w w'; [done|].
  rewrite !create_loop_cons. cbv zeta.
  destruct (load_component _ _ _ _ _ _) as [c|e]; [|done].
  destruct (Component.provide_context _ _) as [u|[m|m|k m]];
    first [done | apply IH].
Qed.

End Create.

(** C9. When the components before some component of the metadata's
    pipeline load and initialise, and that component's [provide_context]
    raises a missing-argument error, [Interpreter.create] raises the
    builtin [Exception] whose message carries the component's name and the
    text of the original error; [Interpreter.load] surfaces the same
    exception, on a directory as on a metadata object. *)
Theorem Interpreter_create_wraps_missing_argument
    (methods : string → Component.Class) (default_builder : ComponentBuilder)
    (validate_requirements : list pyval → result unit)
    (md : Metadata.t) (config : Config)
    (component_builder : option ComponentBuilder) (skip_valdation : bool)
    (w : world) (pre post : list pyval) (name : pyval)
    (pl : list Component.t) (ctx : dict) (c : Component.t) (message : string) :
  let builder := default default_builder component_builder in
  let wrapped :=
    Exception ("Failed to initialize component '"
               +:+ Component.name (class_of methods c) +:+ "'. " +:+ message) in
  Metadata.pipeline md = pre ++ name :: post →
  (skip_valdation = true ∨ validate_requirements (Metadata.pipeline md) = Ok tt) →
  (Interpreter.create_loop methods builder md config pre [] ∅ w).1 = Ok (pl, ctx) →
  load_component builder name (Metadata.model_dir md) md config ctx = Ok c →
  Component.provide_context (class_of methods c) (Component.self c)
    = Raise (MissingArgumentError message) →
  (Interpreter.create methods default_builder validate_requirements
     md config component_builder skip_valdation w).1 = Raise wrapped
  ∧ (Interpreter.load methods default_builder validate_requirements
       (inl md) config component_builder skip_valdation w).1 = Raise wrapped
  ∧ (disk w !! Metadata.model_dir md = Some (Metadata.metadata md) →
     (Interpreter.load methods default_builder validate_requirements
        (inr (Metadata.model_dir md)) config component_builder
        skip_valdation w).1 = Raise wrapped).
Proof.
  intros builder wrapped Hsplit Hvalid Hpre Hload Hctx.
  assert (Hcreate : ∀ w0,
    (Interpreter.create methods default_builder validate_requirements
       md config component_builder skip_valdation w0).1 = Raise wrapped).
  { intros w0. unfold Interpreter.create. fold builder.
    set (v := if negb skip_valdation then _ else _).
    assert (∃ w1, v w0 = (Ok tt, w1)) as [w1 Hv].
    { subst v. destruct Hvalid as [->|Hv]; [by eexists|].
      destruct skip_valdation; [by eexists|]. simpl.
      unfold Interpreter.call_validate_requirements, bind, log, modify, of_result.
      rewrite Hv. by eexists. }
    rewrite (bind_ok _ _ _ _ _ Hv).
    rewrite Hsplit. unfold bind. rewrite create_loop_app.
    destruct (Interpreter.create_loop methods builder md config pre [] ∅ w1)
      as [r w2] eqn:Hrun.
    rewrite (create_loop_fst _ _ _ _ _ _ _ w w1), Hrun in Hpre.
    simpl in Hpre. subst r.
    rewrite create_loop_cons. cbv zeta.
    by rewrite Hload, Hctx. }
  split; [apply Hcreate|]. split.
  - unfold Interpreter.load. unfold bind at 1. simpl. apply Hcreate.
  - intros Hdisk. unfold Interpreter.load, Metadata_io.load.
    unfold bind at 1. unfold bind at 1. unfold gets. rewrite Hdisk.
    unfold ret. destruct md; apply Hcreate.
Qed.

(** ** Trainer.train *)

Lemma add_events_nil w : add_events [] w = w.
Proof. destruct w. unfold add_events. simpl. by rewrite app_nil_r. Qed.

Lemma add_events_app evs1 evs2 w :
  add_events evs2 (add_events evs1 w) = add_events (evs1 ++ evs2) w.
Proof. unfold add_events. simpl. by rewrite app_assoc. Qed.

Lemma log_event_add e w : log_event e w = add_events [e] w.
Proof. done. Qed.

Section Train.
Variable methods : string → Component.Class.

Lemma provide_context_loop_cons c cs ctx w :
  Trainer.provide_context_loop methods (c :: cs) ctx w =
  let r := Component.provide_context (class_of methods c) (Component.self c) in
  let w1 := log_event (EvProvideContext c r) w in
  match r with
  | Ok u => Trainer.provide_context_loop methods cs (merge_updates ctx u) w1
  | Raise e => (Raise e, w1)
  end.
Proof.
  simpl. unfold bind. rewrite call_provide_context_eq. cbv zeta.
  by destruct (Component.provide_context _ _).
Qed.

(** Every run of the first loop: the events recorded are a prefix of the
    [provide_context] calls in pipeline order; a run that returns made all
    the calls and folded their values from the left, a run that raises
    stopped at the call that raised. *)
Lemma provide_context_loop_run cs ctx w r w' :
  Trainer.provide_context_loop methods cs ctx w = (r, w') →
  ∃ n, w' = add_events (take n (provide_events methods cs)) w
    ∧ match r with
      | Ok ctx' =>
          n = length cs
          ∧ ctx' = foldl merge_updates ctx (provided_updates methods cs)
      | Raise e =>
          ∃ ev, last (take n (provide_events methods cs)) = Some ev
                ∧ raised_by_component e ev
      end.
Proof.
  revert ctx w. induction cs as [|c cs IH]; intros ctx w Hrun.
  - injection Hrun as <- <-. exists 0. by rewrite add_events_nil.
  - rewrite provide_context_loop_cons in Hrun. cbv zeta in Hrun.
    unfold provide_events, provided_updates. rewrite !fmap_cons. simpl foldl.
    destruct (Component.provide_context (class_of methods c) (Component.self c))
      as [u|e] eqn:Hc.
    + apply IH in Hrun as (n & -> & Hr). exists (S n). split.
      * by rewrite log_event_add, add_events_app.
      * destruct r as [ctx'|e]; [by destruct Hr as [-> ->]|].
        destruct Hr as (ev & Hlast & Hev). exists ev. split; [|done].
        simpl. fold (provide_events methods cs).
        destruct (take n (provide_events methods cs)); [done|].
        by rewrite last_cons, Hlast.
    + injection Hrun as <- <-. exists 1. simpl. split; [done|].
      eexists. split; done.
Qed.

(** When every [provide_context] returns, so does the first loop. *)
Lemma provide_context_loop_ok cs :
  Forall (λ c, is_ok (Component.provide_context (class_of methods c)
                        (Component.self c))) cs →
  ∀ ctx w,
    Trainer.provide_context_loop methods cs ctx w =
    (Ok (foldl merge_updates ctx (provided_updates methods cs)),
     add_events (provide_events methods cs) w).
Proof.
  induction 1 as [|c cs Hc _ IH]; intros ctx w.
  - simpl. by rewrite add_events_nil.
  - rewrite provide_context_loop_cons. cbv zeta.
    unfold provided_updates, provide_events. rewrite !fmap_cons. simpl foldl.
    destruct (Component.provide_context (class_of methods c) (Component.self c));
      [|done].
    by rewrite IH, log_event_add, add_events_app.
Qed.

(** A first loop that returns called a [provide_context] that returned on
    every component. *)
Lemma provide_context_loop_returned cs :
  ∀ ctx w ctx' w',
    Trainer.provide_context_loop methods cs ctx w = (Ok ctx', w') →
    Forall (λ c, is_ok (Component.provide_context (class_of methods c)
                          (Component.self c))) cs.
Proof.
  induction cs as [|c cs IH]; intros ctx w ctx' w' Hrun; [constructor|].
  rewrite provide_context_loop_cons in Hrun. cbv zeta in Hrun.
  destruct (Component.provide_context (class_of methods c) (Component.self c))
    as [u|e] eqn:Hc; [|done].
  constructor; [by rewrite Hc|]. by eapply IH.
Qed.

Lemma train_step_eq wd i c ctx s :
  Trainer.train_step methods wd i c ctx s =
  let pl := Trainer.pipeline (Trainer.self s) in
  let cfg := Trainer.config (Trainer.self s) in
  let r1 := Component.prepare_partial_processing (class_of methods c)
              (Component.self c) (take i pl) ctx in
  let w1 := log_event (EvPrepare c (take i pl) ctx r1) (Trainer.env s) in
  match r1 with
  | Raise e => (Raise e, Trainer.mkState (Trainer.self s) w1)
  | Ok sp =>
      let c1 := Component.with_self c sp in
      let self1 := Trainer.with_pipeline (Trainer.self s) (<[i := c1]> pl) in
      match Component.train (class_of methods c) sp (deref wd w1) cfg ctx with
      | Raise e =>
          (Raise e,
           Trainer.mkState self1 (log_event (EvTrain c1 wd cfg ctx (Raise e)) w1))
      | Ok (sT, td', u) =>
          let w2 := log_event (EvTrain c1 wd cfg ctx (Ok u)) w1 in
          (Ok u,
           Trainer.mkState
             (Trainer.with_pipeline (Trainer.self s)
                (<[i := Component.with_self c sT]> pl))
             (set_heap (<[wd := td']> (heap w1)) w2))
      end
  end.
Proof.
  unfold Trainer.train_step, bind, gets, Trainer.lift, call_prepare, bind,
    log, modify, of_result, ret. simpl.
  destruct (Component.prepare_partial_processing _ _ _ _) as [sp|e]; [|done].
  simpl. unfold call_train, bind, gets. simpl.
  unfold class_of. simpl.
  destruct (Component.train _ _ _ _ _) as [[[sT td'] u]|e]; [|done].
  simpl. unfold Trainer.with_pipeline. simpl.
  by rewrite list_insert_insert_eq.
Qed.


Lemma train_loop_cons wd i indices ctx s :
  Trainer.train_loop methods wd (i :: indices) ctx s =
  match Trainer.pipeline (Trainer.self s) !! i with
  | None => (Ok ctx, s)
  | Some c =>
      match Trainer.train_step methods wd i c ctx s with
      | (Ok u, s1) => Trainer.train_loop methods wd indices (merge_updates ctx u) s1
      | (Raise e, s1) => (Raise e, s1)
      end
  end.
Proof.
  simpl. unfold bind at 1. unfold gets.
  by destruct (Trainer.pipeline (Trainer.self s) !! i).
Qed.

(** The schedule from index [i] on reads [before] at indices [i] and above
    only. *)
Lemma follows_schedule_before cfg wd before before' after final final_td evs :
  ∀ i ctx td,
    (∀ j, i ≤ j → before !! j = before' !! j) →
    follows_schedule methods cfg wd before after i ctx td evs final final_td →
    follows_schedule methods cfg wd before' after i ctx td evs final final_td.
Proof.
  remember (length evs) as n eqn:Hn.
  revert evs Hn. induction n as [n IH] using lt_wf_ind.
  intros [|e1 [|e2 rest]] Hn i ctx td Hsame; [done|done|].
  destruct e1 as [| | | |c prior ctx1 [sp|]| | | | | | | |]; try done.
  destruct e2 as [| | | | |c' d cfg' ctx2 [u|]| | | | | | |]; try done.
  simpl.
  intros (Hc & Hprior & Hctx1 & Hprep & Hc' & Hd & Hcfg & Hctx2
          & sT & td' & Htrain & Hafter & Hrest).
  rewrite <- (Hsame i) by lia.
  repeat (split; [done|]). exists sT, td'.
  split; [done|]. split; [done|].
  eapply (IH (length rest)); [simpl in Hn; lia|done| |done].
  intros j Hj. apply Hsame. lia.
Qed.

(** Every run of the training loop over the indices [i, i+1, ...] of the
    pipeline. *)
Lemma train_loop_run wd k :
  ∀ i ctx s r s',
    length (Trainer.pipeline (Trainer.self s)) = i + k →
    Trainer.train_loop methods wd (seq i k) ctx s = (r, s') →
    ∃ evs,
      Trainer.env s' =
        set_heap (heap (Trainer.env s')) (add_events evs (Trainer.env s))
      ∧ Trainer.self s' =
          Trainer.with_pipeline (Trainer.self s) (Trainer.pipeline (Trainer.self s'))
      ∧ Component.cls <$> Trainer.pipeline (Trainer.self s')
          = Component.cls <$> Trainer.pipeline (Trainer.self s)
      ∧ take i (Trainer.pipeline (Trainer.self s'))
          = take i (Trainer.pipeline (Trainer.self s))
      ∧ (∀ l, l ≠ wd → heap (Trainer.env s') !! l = heap (Trainer.env s) !! l)
      ∧ Forall (loop_event wd) evs
      ∧ match r with
        | Ok final =>
            follows_schedule methods (Trainer.config (Trainer.self s)) wd
              (Trainer.pipeline (Trainer.self s))
              (Trainer.pipeline (Trainer.self s')) i ctx
              (deref wd (Trainer.env s)) evs final (deref wd (Trainer.env s'))
        | Raise e => ∃ ev, last evs = Some ev ∧ raised_by_component e ev
        end.
Proof.
  induction k as [|k IH]; intros i ctx s r s' Hlen Hrun.
  - injection Hrun as <- <-. exists []. rewrite add_events_nil.
    destruct s as [[cfg skip td pl] [tr h d cl]]. simpl in *.
    repeat (split; [done|]). split; [lia|done].
  - simpl seq in Hrun. rewrite train_loop_cons in Hrun.
    destruct (lookup_lt_is_Some_2 (Trainer.pipeline (Trainer.self s)) i
                ltac:(lia)) as [c Hc].
    rewrite Hc, train_step_eq in Hrun. cbv zeta in Hrun.
    destruct s as [[cfg skip td pl] w]. simpl in Hc, Hlen, Hrun |- *.
    destruct (Component.prepare_partial_processing _ _ _ _) as [sp|e] eqn:Hprep.
    2:{ injection Hrun as <- <-. eexists [_]. simpl.
        split; [done|]. split; [done|].
        repeat (split; [done|]). split; [by repeat constructor|].
        eexists. split; [done|]. done. }
    destruct (Component.train _ _ _ _ _) as [[[sT td'] u]|e] eqn:Htrain.
    2:{ injection Hrun as <- <-. eexists [_; _]. simpl.
        split; [unfold log_event, set_heap, add_events; simpl;
                by rewrite <- app_assoc|].
        split; [done|].
        split; [|split; [|split; [done|split]]].
        - rewrite list_fmap_insert. simpl. apply list_insert_id.
          by rewrite list_lookup_fmap, Hc.
        - apply take_insert_ge. lia.
        - by repeat constructor.
        - eexists. split; [done|]. done. }
    apply IH in Hrun as (evs & Henv & Hself & Hcls & Htake & Hheap & Hevs & Hr);
      [|simpl; rewrite length_insert; lia].
    simpl in Henv, Hself, Hcls, Htake, Hheap, Hr.
    assert (Hprior : take i (Trainer.pipeline (Trainer.self s')) = take i pl).
    { apply (f_equal (take i)) in Htake.
      rewrite !take_take in Htake. rewrite !Nat.min_l in Htake by lia.
      rewrite Htake. apply take_insert_ge. lia. }
    eexists (_ :: _ :: evs). split; [|split; [|split; [|split; [|split; [|split]]]]].
    + rewrite Henv. unfold set_heap, add_events. simpl.
      by rewrite <- !app_assoc.
    + rewrite Hself. done.
    + rewrite Hcls, list_fmap_insert. simpl. apply list_insert_id.
      by rewrite list_lookup_fmap, Hc.
    + exact Hprior.
    + intros l Hl. rewrite (Hheap l Hl). by rewrite lookup_insert_ne.
    + by repeat constructor.
    + destruct r as [final|e].
      * simpl. rewrite Hprior.
        repeat (split; [done|]).
        exists sT, td'. split; [exact Htrain|]. split.
        { apply (f_equal (λ l, l !! i)) in Htake.
          rewrite !lookup_take_lt in Htake by lia.
          rewrite Htake. apply list_lookup_insert_eq. lia. }
        unfold deref at 1 in Hr. simpl in Hr.
        rewrite lookup_insert_eq in Hr. simpl in Hr.
        eapply follows_schedule_before; [|exact Hr].
        intros j Hj. apply list_lookup_insert_ne. lia.
      * destruct Hr as (ev & Hlast & Hev). exists ev. split; [|done].
        destruct evs; [done|exact Hlast].
Qed.


(** [train], by the outcome of its three phases. *)
Lemma train_eq va data s :
  Trainer.train methods va data s =
  let self1 := Trainer.with_training_data (Trainer.self s) (Some data) in
  let pl := Trainer.pipeline (Trainer.self s) in
  match Trainer.provide_context_loop methods pl ∅ (Trainer.env s) with
  | (Raise e, w1) => (Raise e, Trainer.mkState self1 w1)
  | (Ok ctx0, w1) =>
      let validated :=
        if Trainer.skip_validation (Trainer.self s) then (Ok tt, w1)
        else (va pl ctx0, log_event (EvValidateArguments pl ctx0) w1) in
      match validated with
      | (Raise e, w2) => (Raise e, Trainer.mkState self1 w2)
      | (Ok _, w2) =>
          let wd := fresh (dom (heap w2)) in
          let w3 := log_event (EvDeepcopy data wd)
                      (set_heap (<[wd := deref data w2]> (heap w2)) w2) in
          match Trainer.train_loop methods wd (seq 0 (length pl)) ctx0
                  (Trainer.mkState self1 w3) with
          | (Ok final, s') =>
              (Ok (Interpreter.init (Trainer.pipeline (Trainer.self s'))
                     (Some final) None), s')
          | (Raise e, s') => (Raise e, s')
          end
      end
  end.
Proof.
  unfold Trainer.train, Trainer.set_training_data,
    Trainer.call_validate_arguments, deepcopy, bind, Trainer.lift, gets,
    modify, log, of_result, ret.
  destruct s as [[cfg skip td pl] w]. simpl.
  destruct (Trainer.provide_context_loop methods _ ∅ w)
    as [[ctx0|e] w1]; [|done].
  destruct skip; simpl.
  - by destruct (Trainer.train_loop _ _ _ _ _) as [[final|e] s'].
  - destruct (va _ ctx0) as [[]|e]; [|done].
    by destruct (Trainer.train_loop _ _ _ _ _) as [[final|e] s'].
Qed.

(** The contexts the schedule passes to [train] are the left folds of the
    values returned so far, and every value is the one the [train] of the
    component at that index returned when called with that context. *)
Lemma follows_schedule_contexts cfg wd before after final final_td evs :
  ∀ i ctx td,
    follows_schedule methods cfg wd before after i ctx td evs final final_td →
    final = foldl merge_updates ctx (train_returns evs)
    ∧ i + length (train_returns evs) = length after
    ∧ (∀ j c, train_contexts evs !! j = Some c →
              c = foldl merge_updates ctx (take j (train_returns evs)))
    ∧ (∀ j u, train_returns evs !! j = Some u →
         ∃ c prepared td1 trained td2,
           before !! (i + j) = Some c
           ∧ Component.train (class_of methods c) prepared td1 cfg
               (foldl merge_updates ctx (take j (train_returns evs)))
             = Ok (trained, td2, u)).
Proof.
  remember (length evs) as n eqn:Hn.
  revert evs Hn. induction n as [n IH] using lt_wf_ind.
  intros [|e1 [|e2 rest]] Hn i ctx td; [|done|].
  { intros (-> & -> & ->). simpl. split; [done|]. split; [lia|].
    split; by intros []. }
  destruct e1 as [| | | |c prior ctx1 [sp|]| | | | | | | |]; try done.
  destruct e2 as [| | | | |c' d cfg' ctx2 [u|]| | | | | | |]; try done.
  simpl.
  intros (Hc & Hprior & Hctx1 & Hprep & Hc' & Hd & Hcfg & Hctx2
          & sT & td' & Htrain & Hafter & Hrest).
  apply (IH (length rest)) in Hrest as (Hfinal & Hlen & Hctxs & Hrets);
    [|simpl in Hn; lia|done].
  unfold train_returns, train_contexts in *. simpl.
  split; [done|]. split; [lia|]. split.
  - intros [|j] c0; simpl; [by intros [= <-]|]. apply Hctxs.
  - intros [|j] u0; simpl.
    + intros [= <-]. exists c, sp, td, sT, td'.
      split; [by rewrite Nat.add_0_r|done].
    + intros Hu. destruct (Hrets j u0 Hu) as (c0 & sp0 & td1 & sT0 & td2 & Hc0 & Ht0).
      exists c0, sp0, td1, sT0, td2. split; [|done].
      by replace (i + S j) with (S i + j) by lia.
Qed.

Lemma list_insert_middle {A} (l1 l2 : list A) (x y : A) :
  <[length l1 := x]> (l1 ++ y :: l2) = l1 ++ x :: l2.
Proof. rewrite insert_app_r_alt by done. by rewrite Nat.sub_diag. Qed.

(** The training loop computes the schedule: run on a pipeline whose first
    components are [done] and whose others are [todo], it ends as
    [Schedule.run] says, with that pipeline and those contents of the
    working copy, and the values it recorded for the calls of [train] are
    the ones the schedule lists. *)
Lemma train_loop_refines wd todo :
  ∀ done ctx s rets r s',
    Trainer.pipeline (Trainer.self s) = done ++ todo →
    Trainer.train_loop methods wd (seq (length done) (length todo)) ctx s
      = (r, s') →
    ∃ evs,
      trace (Trainer.env s') = trace (Trainer.env s) ++ evs
      ∧ Schedule.run methods (Trainer.config (Trainer.self s)) todo done ctx
          (deref wd (Trainer.env s)) rets
        = Schedule.mk r (Trainer.pipeline (Trainer.self s'))
            (deref wd (Trainer.env s')) (rets ++ train_returns evs).
Proof.
  induction todo as [|c todo IH]; intros done ctx s rets r s' Hpl Hrun.
  - injection Hrun as <- <-. exists []. rewrite !app_nil_r.
    split; [done|]. simpl. by rewrite Hpl, app_nil_r.
  - simpl length in Hrun. simpl seq in Hrun. rewrite train_loop_cons in Hrun.
    rewrite Hpl, list_lookup_middle in Hrun by done.
    rewrite train_step_eq in Hrun. cbv zeta in Hrun.
    rewrite Hpl, take_app_length in Hrun.
    destruct s as [[cfg skip td pl] w]. simpl in Hpl, Hrun |- *. subst pl.
    destruct (Component.prepare_partial_processing _ _ _ _) as [sp|e] eqn:Hprep.
    2:{ injection Hrun as <- <-. eexists [_]. simpl.
        split; [done|]. by rewrite app_nil_r. }
    change (deref wd (log_event (EvPrepare c done ctx (Ok sp)) w))
      with (deref wd w) in Hrun.
    destruct (Component.train _ _ _ _ _) as [[[sT td'] u]|e] eqn:Htrain.
    2:{ injection Hrun as <- <-. eexists [_; _]. simpl.
        split; [by rewrite <- app_assoc|].
        by rewrite list_insert_middle, app_nil_r. }
    rewrite list_insert_middle in Hrun.
    replace (S (length done))
      with (length (done ++ [Component.with_self c sT])) in Hrun
      by (rewrite length_app; simpl; lia).
    apply (IH (done ++ [Component.with_self c sT]) _ _ (rets ++ [u])) in Hrun
      as (evs & Htrace & Hsched); [|simpl; by rewrite <- app_assoc].
    simpl in Htrace, Hsched.
    eexists (_ :: _ :: evs). split.
    + rewrite Htrace. by rewrite <- !app_assoc.
    + unfold deref at 1 in Hsched. simpl in Hsched.
      rewrite lookup_insert_eq in Hsched. simpl in Hsched.
      rewrite Hsched. unfold train_returns. simpl.
      by rewrite <- app_assoc.
Qed.

(** Every run of [train] ends in one of three ways: a [provide_context]
    raised; argument validation raised; or the corpus was copied and the
    training loop ran on the copy. *)
Lemma train_run va data s r s' :
  Trainer.train methods va data s = (r, s') →
  let pl := Trainer.pipeline (Trainer.self s) in
  let self1 := Trainer.with_training_data (Trainer.self s) (Some data) in
  let ctx0 := foldl merge_updates ∅ (provided_updates methods pl) in
  let validation :=
    if Trainer.skip_validation (Trainer.self s) then []
    else [EvValidateArguments pl ctx0] in
  (∃ n e ev,
      r = Raise e
      ∧ s' = Trainer.mkState self1
               (add_events (take n (provide_events methods pl)) (Trainer.env s))
      ∧ last (take n (provide_events methods pl)) = Some ev
      ∧ raised_by_component e ev)
  ∨ (∃ e,
      r = Raise e
      ∧ Trainer.skip_validation (Trainer.self s) = false
      ∧ va pl ctx0 = Raise e
      ∧ s' = Trainer.mkState self1
               (add_events (provide_events methods pl ++ validation)
                  (Trainer.env s)))
  ∨ (∃ evs,
      let wd := fresh (dom (heap (Trainer.env s))) in
      (Trainer.skip_validation (Trainer.self s) = true ∨ va pl ctx0 = Ok tt)
      ∧ Trainer.env s' =
          set_heap (heap (Trainer.env s'))
            (add_events
               (provide_events methods pl ++ validation
                ++ EvDeepcopy data wd :: evs) (Trainer.env s))
      ∧ Trainer.self s' =
          Trainer.with_pipeline self1 (Trainer.pipeline (Trainer.self s'))
      ∧ Component.cls <$> Trainer.pipeline (Trainer.self s')
          = Component.cls <$> pl
      ∧ (∀ l, l ≠ wd →
              heap (Trainer.env s') !! l = heap (Trainer.env s) !! l)
      ∧ Forall (loop_event wd) evs
      ∧ match r with
        | Ok interp =>
            ∃ final,
              interp = Interpreter.init (Trainer.pipeline (Trainer.self s'))
                         (Some final) None
              ∧ follows_schedule methods (Trainer.config (Trainer.self s)) wd pl
                  (Trainer.pipeline (Trainer.self s')) 0 ctx0
                  (deref data (Trainer.env s)) evs final
                  (deref wd (Trainer.env s'))
        | Raise e => ∃ ev, last evs = Some ev ∧ raised_by_component e ev
        end).
Proof.
  rewrite train_eq. cbv zeta.
  destruct (Trainer.provide_context_loop methods _ ∅ (Trainer.env s))
    as [[ctx0|e] w1] eqn:Hprovide;
    apply provide_context_loop_run in Hprovide as (n & -> & Hp).
  2:{ intros [= <- <-]. left. destruct Hp as (ev & Hlast & Hev).
      by exists n, e, ev. }
  destruct Hp as [-> ->].
  rewrite take_ge by (unfold provide_events; by rewrite length_fmap).
  set (pl := Trainer.pipeline (Trainer.self s)).
  set (ctx0 := foldl merge_updates ∅ (provided_updates methods pl)).
  set (validated := if Trainer.skip_validation (Trainer.self s) then _ else _).
  set (validation := if Trainer.skip_validation (Trainer.self s) then []
                     else [EvValidateArguments pl ctx0]).
  assert (Hval : validated.2 =
                 add_events (provide_events methods pl ++ validation)
                   (Trainer.env s)).
  { subst validated validation.
    destruct (Trainer.skip_validation (Trainer.self s)); simpl.
    - by rewrite app_nil_r.
    - by rewrite log_event_add, add_events_app. }
  destruct validated as [[[]|e] w2] eqn:Hvalidated; simpl in Hval; subst w2.
  2:{ intros [= <- <-]. right. left. exists e. subst validated.
      destruct (Trainer.skip_validation (Trainer.self s)); [done|].
      by injection Hvalidated as ->. }
  assert (Hok : Trainer.skip_validation (Trainer.self s) = true ∨ va pl ctx0 = Ok tt).
  { subst validated.
    destruct (Trainer.skip_validation (Trainer.self s)); [by left|right].
    by injection Hvalidated as ->. }
  clear Hvalidated.
  destruct (Trainer.train_loop methods _ _ ctx0 _) as [r0 s0] eqn:Hloop.
  apply train_loop_run in Hloop
    as (evs & Henv & Hself & Hcls & _ & Hheap & Hevs & Hr); [|done].
  simpl in Henv, Hself, Hcls, Hheap, Hr.
  intros Hres. right. right. exists evs. cbv zeta.
  assert (s0 = s') as -> by (by destruct r0; injection Hres as _ <-).
  split; [done|]. split.
  { rewrite Henv. unfold set_heap, add_events. simpl.
    by rewrite <- !app_assoc. }
  split; [done|]. split; [done|]. split.
  { intros l Hl. rewrite (Hheap l Hl). by rewrite lookup_insert_ne. }
  split; [done|].
  destruct r0 as [final|e]; injection Hres as <-; [|done].
  exists final. split; [done|].
  unfold deref at 1 in Hr. simpl in Hr.
  rewrite lookup_insert_eq in Hr. exact Hr.
Qed.

(** A run of [train] that returns passed its first two phases. *)
Lemma train_returned_reached va data s interp s' :
  Trainer.train methods va data s = (Ok interp, s') →
  let pl := Trainer.pipeline (Trainer.self s) in
  let ctx0 := foldl merge_updates ∅ (provided_updates methods pl) in
  Forall (λ c, is_ok (Component.provide_context (class_of methods c)
                        (Component.self c))) pl
  ∧ (Trainer.skip_validation (Trainer.self s) = true ∨ va pl ctx0 = Ok tt).
Proof.
  intros Hrun pl ctx0. split.
  - rewrite train_eq in Hrun. cbv zeta in Hrun.
    destruct (Trainer.provide_context_loop methods _ ∅ (Trainer.env s))
      as [[ctx|e] w1] eqn:Hprovide; [|done].
    by eapply provide_context_loop_returned.
  - apply train_run in Hrun
      as [(n & e & ev & [=] & _)|[(e & [=] & _)|(evs & Hrun)]].
    cbv zeta in Hrun. by destruct Hrun as (Hok & _).
Qed.

(** A run of [train] whose first two phases pass is the schedule run on a
    copy of the corpus, from the context the [provide_context] values fold
    to. *)
Lemma train_refines va data s r s' :
  Trainer.train methods va data s = (r, s') →
  let pl := Trainer.pipeline (Trainer.self s) in
  let ctx0 := foldl merge_updates ∅ (provided_updates methods pl) in
  let validation :=
    if Trainer.skip_validation (Trainer.self s) then []
    else [EvValidateArguments pl ctx0] in
  let wd := fresh (dom (heap (Trainer.env s))) in
  Forall (λ c, is_ok (Component.provide_context (class_of methods c)
                        (Component.self c))) pl →
  (Trainer.skip_validation (Trainer.self s) = true ∨ va pl ctx0 = Ok tt) →
  ∃ evs,
    trace (Trainer.env s') =
      trace (Trainer.env s) ++ provide_events methods pl ++ validation
      ++ EvDeepcopy data wd :: evs
    ∧ Trainer.training_data (Trainer.self s') = Some data
    ∧ Schedule.run methods (Trainer.config (Trainer.self s)) pl [] ctx0
        (deref data (Trainer.env s)) []
      = Schedule.mk (train_outcome r) (Trainer.pipeline (Trainer.self s'))
          (deref wd (Trainer.env s')) (train_returns evs).
Proof.
  intros Hrun pl ctx0 validation wd Hprovide Hvalid.
  rewrite train_eq in Hrun. cbv zeta in Hrun. fold pl in Hrun.
  rewrite (provide_context_loop_ok pl Hprovide) in Hrun. fold ctx0 in Hrun.
  set (w1 := add_events (provide_events methods pl) (Trainer.env s)) in Hrun.
  assert (Hval :
    (if Trainer.skip_validation (Trainer.self s) then (Ok tt, w1)
     else (va pl ctx0, log_event (EvValidateArguments pl ctx0) w1))
    = (Ok tt, add_events (provide_events methods pl ++ validation)
                (Trainer.env s))).
  { subst validation w1.
    destruct (Trainer.skip_validation (Trainer.self s)).
    - by rewrite app_nil_r.
    - destruct Hvalid as [Hskip|Hva]; [done|]. rewrite Hva.
      by rewrite log_event_add, add_events_app. }
  rewrite Hval in Hrun. clear Hval.
  change (heap (add_events (provide_events methods pl ++ validation)
                  (Trainer.env s))) with (heap (Trainer.env s)) in Hrun.
  change (deref data (add_events (provide_events methods pl ++ validation)
                        (Trainer.env s)))
    with (deref data (Trainer.env s)) in Hrun.
  fold wd in Hrun.
  destruct (Trainer.train_loop methods wd _ ctx0 _) as [r0 s0] eqn:Hloop.
  assert (s0 = s') as -> by (by destruct r0; injection Hrun as _ <-).
  pose proof Hloop as Hloop2.
  apply (train_loop_refines wd pl [] ctx0 _ []) in Hloop
    as (evs & Htrace & Hsched); [|done].
  apply train_loop_run in Hloop2 as (_ & _ & Hself & _); [|done].
  simpl in Htrace, Hsched, Hself.
  exists evs. split; [|split].
  - rewrite Htrace. by rewrite <- !app_assoc.
  - by rewrite Hself.
  - unfold deref at 1 in Hsched. simpl in Hsched.
    rewrite lookup_insert_eq in Hsched. simpl in Hsched.
    rewrite Hsched. f_equal.
    destruct r0 as [final|e]; by injection Hrun as <-.
Qed.


End Train.

Lemma provide_events_no_train methods pl :
  train_returns (provide_events methods pl) = []
  ∧ train_contexts (provide_events methods pl) = []
  ∧ Forall (λ e, is_train_event e = false) (provide_events methods pl)
  ∧ Forall (λ e, is_validate_event e = false) (provide_events methods pl).
Proof.
  induction pl as [|c pl (IH1 & IH2 & IH3 & IH4)]; [done|].
  repeat split; [done|done| |]; by constructor.
Qed.

Lemma foldl_merge_falsy (d : dict) (ups : list (option dict)) :
  Forall (λ u, truthy u = false) ups → foldl merge_updates d ups = d.
Proof.
  induction ups as [|u ups IH]; [done|].
  intros [Hu Hups]%Forall_cons. simpl. rewrite <- IH at 2 by done.
  f_equal. destruct u as [m|]; [|done]. simpl in *. by rewrite Hu.
Qed.

Lemma loop_event_not_validate wd evs :
  Forall (loop_event wd) evs → Forall (λ e, is_validate_event e = false) evs.
Proof. intros H. eapply Forall_impl; [exact H|]. by intros []. Qed.

(** C7. A run of [train] that returns made, after the [provide_context]
    calls, the optional validation and the copy of the corpus, exactly the
    calls of the training schedule. For every index [i] in pipeline order
    it called [prepare_partial_processing] on component [i] with the first
    [i] components of the pipeline, which are the objects the [train] of
    the components before it returned, and the current context; then it
    called [train] of the prepared component with the working copy, the
    configuration and that context. Each call is the method of the
    component's class run on these arguments: the object [train] returns is
    the one the pipeline holds at index [i] afterwards, the corpus it
    leaves is the one the next [train] works on, and the value it returns
    is folded into the context of index [i+1]. The interpreter holds the
    context after the last index and the trained pipeline. *)
Theorem Trainer_train_follows_schedule
    (methods : string → Component.Class)
    (validate_arguments : list Component.t → dict → result unit)
    (data : loc) (s s' : Trainer.state) (interp : Interpreter.t) :
  Trainer.train methods validate_arguments data s = (Ok interp, s') →
  let pl := Trainer.pipeline (Trainer.self s) in
  let ctx0 := foldl merge_updates ∅ (provided_updates methods pl) in
  ∃ wd evs,
    trace (Trainer.env s') =
      trace (Trainer.env s) ++ provide_events methods pl
      ++ (if Trainer.skip_validation (Trainer.self s) then []
          else [EvValidateArguments pl ctx0])
      ++ EvDeepcopy data wd :: evs
    ∧ follows_schedule methods (Trainer.config (Trainer.self s)) wd pl
        (Trainer.pipeline (Trainer.self s')) 0 ctx0
        (deref data (Trainer.env s)) evs
        (Interpreter.context interp) (deref wd (Trainer.env s'))
    ∧ length (Trainer.pipeline (Trainer.self s')) = length pl
    ∧ Interpreter.pipeline interp = Trainer.pipeline (Trainer.self s').
Proof.
  intros Hrun pl ctx0.
  apply train_run in Hrun
    as [(n & e & ev & [=] & _)|[(e & [=] & _)|(evs & Hrun)]].
  cbv zeta in Hrun.
  destruct Hrun as (_ & Henv & _ & Hcls & _ & _ & final & -> & Hsched).
  exists (fresh (dom (heap (Trainer.env s)))), evs.
  split; [by rewrite Henv|]. split; [done|]. split; [|done].
  apply (f_equal length) in Hcls. by rewrite !length_fmap in Hcls.
Qed.

(** C3. In a run of [train] that returns, the context is a left fold with
    overwrite. The values the calls of [train] returned are those the
    training schedule computes from the components' classes: the [i]-th is
    what the [train] of the component at index [i] returns when it is
    called with the [i]-th context. The context passed to the [i]-th
    [train] is the fold of [merge_updates], from the empty dictionary, over
    the values of every [provide_context] in pipeline order and then over
    the values returned by the first [i] calls of [train]; the
    interpreter's context is the fold over all of them. A merged key takes
    the value of the later mapping, and a key the later mapping lacks keeps
    its value. With a component providing [{"x": 1}] followed by one
    providing [{"x": 2, "y": 3}] and no other contribution, every component
    is trained with the context [{"x": 2, "y": 3}]. *)
Theorem context_accumulation_left_fold
    (methods : string → Component.Class)
    (validate_arguments : list Component.t → dict → result unit)
    (data : loc) (s s' : Trainer.state) (interp : Interpreter.t) :
  Trainer.train methods validate_arguments data s = (Ok interp, s') →
  let pl := Trainer.pipeline (Trainer.self s) in
  let cfg := Trainer.config (Trainer.self s) in
  let new := drop (length (trace (Trainer.env s))) (trace (Trainer.env s')) in
  let provided := provided_updates methods pl in
  let ctx0 := foldl merge_updates ∅ provided in
  let returned :=
    Schedule.returned
      (Schedule.run methods cfg pl [] ctx0 (deref data (Trainer.env s)) []) in
  train_returns new = returned
  ∧ length returned = length pl
  ∧ (∀ i u, returned !! i = Some u →
       ∃ c prepared td trained td',
         pl !! i = Some c
         ∧ Component.train (class_of methods c) prepared td cfg
             (foldl merge_updates ctx0 (take i returned))
           = Ok (trained, td', u))
  ∧ (∀ i ctx, train_contexts new !! i = Some ctx →
              ctx = foldl merge_updates ctx0 (take i returned))
  ∧ Interpreter.context interp = foldl merge_updates ctx0 returned
  ∧ (∀ (d u : dict) k v,
       u !! k = Some v → merge_updates d (Some u) !! k = Some v)
  ∧ (∀ (d u : dict) k,
       u !! k = None → merge_updates d (Some u) !! k = d !! k)
  ∧ (∀ a b rest,
       pl = a :: b :: rest →
       Component.provide_context (class_of methods a) (Component.self a)
         = Ok (Some {[ "x" := PyInt 1 ]}) →
       Component.provide_context (class_of methods b) (Component.self b)
         = Ok (Some {[ "x" := PyInt 2; "y" := PyInt 3 ]}) →
       Forall (λ u, truthy u = false) (provided_updates methods rest) →
       Forall (λ u, truthy u = false) returned →
       ∀ i ctx, train_contexts new !! i = Some ctx →
                ctx = {[ "x" := PyInt 2; "y" := PyInt 3 ]}).
Proof.
  intros Hrun pl cfg new provided ctx0 returned.
  destruct (train_returned_reached _ _ _ _ _ _ Hrun) as [Hprovide Hvalid].
  destruct (train_refines _ _ _ _ _ _ Hrun Hprovide Hvalid)
    as (evs' & Htrace & _ & Hrefines).
  apply train_run in Hrun
    as [(n & e & ev & [=] & _)|[(e & [=] & _)|(evs & Hrun)]].
  cbv zeta in Hrun.
  destruct Hrun as (_ & Henv & _ & Hcls & _ & _ & final & -> & Hsched).
  assert (evs' = evs) as ->.
  { rewrite Henv in Htrace. simpl in Htrace.
    do 3 apply app_inv_head in Htrace. by injection Htrace. }
  clear Htrace.
  apply follows_schedule_contexts in Hsched as (Hfinal & Hlen & Hctxs & Hrets).
  assert (Hnew : new = provide_events methods pl
                       ++ (if Trainer.skip_validation (Trainer.self s) then []
                           else [EvValidateArguments pl ctx0])
                       ++ EvDeepcopy data (fresh (dom (heap (Trainer.env s))))
                          :: evs).
  { subst new. rewrite Henv. simpl. by rewrite drop_app_length. }
  destruct (provide_events_no_train methods pl) as (Hpr & Hpc & _ & _).
  assert (Hreturned : returned = train_returns evs).
  { exact (f_equal Schedule.returned Hrefines). }
  assert (Hrecorded : train_returns new = train_returns evs).
  { rewrite Hnew. unfold train_returns in *.
    rewrite !omap_app, Hpr.
    by destruct (Trainer.skip_validation (Trainer.self s)). }
  assert (Hcontexts : train_contexts new = train_contexts evs).
  { rewrite Hnew. unfold train_contexts in *. rewrite !omap_app, Hpc.
    by destruct (Trainer.skip_validation (Trainer.self s)). }
  assert (Hseen : ∀ i ctx, train_contexts new !! i = Some ctx →
                           ctx = foldl merge_updates ctx0 (take i returned)).
  { intros i ctx. rewrite Hcontexts, Hreturned. apply Hctxs. }
  split; [by rewrite Hrecorded, Hreturned|].
  split.
  { rewrite Hreturned. apply (f_equal length) in Hcls.
    rewrite !length_fmap in Hcls. fold pl in Hcls. lia. }
  split.
  { intros i u. rewrite Hreturned. intros Hu.
    destruct (Hrets i u Hu) as (c & sp & td & sT & td' & Hc & Htrain).
    by exists c, sp, td, sT, td'. }
  split; [done|]. split; [by rewrite Hreturned|].
  split; [by intros d u k v Hu; rewrite merge_updates_lookup, Hu|].
  split; [by intros d u k Hu; rewrite merge_updates_lookup, Hu|].
  intros a b rest Hpl Ha Hb Hrest Hret i ctx Hctx.
  rewrite (Hseen i ctx Hctx).
  rewrite foldl_merge_falsy by (by apply Forall_take).
  subst ctx0 provided. rewrite Hpl. unfold provided_updates.
  rewrite !fmap_cons, Ha, Hb. simpl foldl.
  by rewrite foldl_merge_falsy.
Qed.

(** C8. In every run of [train], also one that raises, the corpus object
    the caller passed is left as it was: the events of the run split into
    a part with no call of [train], at most followed by the copy of the
    corpus into an object that did not exist before and is not the
    caller's, after which every [train] is called on that copy. *)
Theorem Trainer_train_leaves_corpus_unchanged
    (methods : string → Component.Class)
    (validate_arguments : list Component.t → dict → result unit)
    (data : loc) (s s' : Trainer.state) (r : result Interpreter.t) :
  is_Some (heap (Trainer.env s) !! data) →
  Trainer.train methods validate_arguments data s = (r, s') →
  heap (Trainer.env s') !! data = heap (Trainer.env s) !! data
  ∧ Trainer.training_data (Trainer.self s') = Some data
  ∧ ∃ pre post,
      trace (Trainer.env s') = trace (Trainer.env s) ++ pre ++ post
      ∧ Forall (λ e, is_train_event e = false) pre
      ∧ (post = []
         ∨ ∃ wd rest,
             post = EvDeepcopy data wd :: rest
             ∧ wd ≠ data
             ∧ heap (Trainer.env s) !! wd = None
             ∧ Forall (loop_event wd) rest).
Proof.
  intros Hdata Hrun.
  destruct (provide_events_no_train methods
              (Trainer.pipeline (Trainer.self s))) as (_ & _ & Hnt & _).
  apply train_run in Hrun
    as [(n & e & ev & -> & -> & _)|[(e & -> & Hskip & _ & ->)|(evs & Hrun)]].
  - simpl. split; [done|]. split; [done|].
    exists (take n (provide_events methods (Trainer.pipeline (Trainer.self s)))), [].
    rewrite app_nil_r. split; [done|]. split; [by apply Forall_take|by left].
  - simpl. rewrite Hskip. split; [done|]. split; [done|].
    eexists _, []. rewrite app_nil_r. split; [done|]. split; [|by left].
    apply Forall_app. split; [done|]. by repeat constructor.
  - cbv zeta in Hrun.
    destruct Hrun as (_ & Henv & Hself & _ & Hheap & Hevs & _).
    set (wd := fresh (dom (heap (Trainer.env s)))) in *.
    assert (Hfresh : heap (Trainer.env s) !! wd = None).
    { apply not_elem_of_dom. subst wd. apply is_fresh. }
    assert (Hne : wd ≠ data).
    { intros ->. rewrite Hfresh in Hdata. by destruct Hdata. }
    split; [by apply Hheap|]. split; [by rewrite Hself|].
    exists (provide_events methods (Trainer.pipeline (Trainer.self s))
            ++ (if Trainer.skip_validation (Trainer.self s) then []
                else [EvValidateArguments (Trainer.pipeline (Trainer.self s))
                        (foldl merge_updates ∅
                           (provided_updates methods
                              (Trainer.pipeline (Trainer.self s))))])),
      (EvDeepcopy data wd :: evs).
    split.
    { rewrite Henv. simpl. by rewrite <- !app_assoc. }
    split.
    { apply Forall_app. split; [done|].
      destruct (Trainer.skip_validation (Trainer.self s)); by repeat constructor. }
    right. by exists wd, evs.
Qed.

(** ** Argument validation *)

Lemma first_missing_Some (required : list string) (provided : gset string) k :
  k ∈ required → k ∉ provided →
  is_Some (Components.first_missing required provided).
Proof.
  intros Hin Hnot. unfold Components.first_missing.
  assert (Hk : k ∈ filter (λ k, k ∉ provided) required)
    by (apply list_elem_of_filter; done).
  destruct (filter _ required); [by apply elem_of_nil in Hk|by eexists].
Qed.

(** Validation fails on a pipeline one of whose components requires a key
    that is neither provided at the start nor promised by a predecessor. *)
Lemma validate_from_missing methods pre c post k :
  ∀ provided,
    k ∈ Component.requires (class_of methods c) →
    k ∉ provided →
    (∀ c', c' ∈ pre → k ∉ Component.provides (class_of methods c')) →
    ∃ message,
      Components.validate_from methods (pre ++ c :: post) provided
      = Raise (MissingArgumentError message).
Proof.
  induction pre as [|c' pre IH]; intros provided Hreq Hnot Hpre; simpl.
  - destruct (first_missing_Some _ _ _ Hreq Hnot) as [k' ->]. by eexists.
  - destruct (Components.first_missing _ provided) as [k'|]; [by eexists|].
    apply IH; [done| |].
    + rewrite elem_of_union, elem_of_list_to_set.
      intros [?|?]; [done|]. by apply (Hpre c'); [left|].
    + intros c'' Hin. apply Hpre. by right.
Qed.

(** C5. With validation enabled, on a pipeline whose [provide_context]
    calls return and one of whose components requires a context key that is
    neither in the context accumulated from the [provide_context] of every
    component of the pipeline, the later ones included, nor promised by a
    predecessor, [train] raises [MissingArgumentError] after the
    [provide_context] calls and the validation call only: no
    [prepare_partial_processing] and no [train] was called, and the corpus
    was not copied. With
    [skip_validation] set, the validator is never consulted: the run is the
    same whatever the validator, records no validation call, and an
    exception it raises was raised by the last call it made to a
    component. *)
Theorem Trainer_train_validation
    (methods : string → Component.Class) (data : loc) (s : Trainer.state)
    (pre post : list Component.t) (c : Component.t) (k : string) :
  let pl := Trainer.pipeline (Trainer.self s) in
  let ctx0 := foldl merge_updates ∅ (provided_updates methods pl) in
  Trainer.skip_validation (Trainer.self s) = false →
  Forall (λ c, is_ok (Component.provide_context (class_of methods c)
                        (Component.self c))) pl →
  pl = pre ++ c :: post →
  k ∈ Component.requires (class_of methods c) →
  k ∉ dom ctx0 →
  (∀ c', c' ∈ pre → k ∉ Component.provides (class_of methods c')) →
  (∃ message,
     Trainer.train methods (Components.validate_arguments methods) data s
     = (Raise (MissingArgumentError message),
        Trainer.mkState
          (Trainer.with_training_data (Trainer.self s) (Some data))
          (add_events (provide_events methods pl ++ [EvValidateArguments pl ctx0])
             (Trainer.env s))))
  ∧ (∀ (s2 : Trainer.state) va1 va2,
       Trainer.skip_validation (Trainer.self s2) = true →
       Trainer.train methods va1 data s2 = Trainer.train methods va2 data s2
       ∧ ∃ evs,
           trace (Trainer.env (Trainer.train methods va1 data s2).2)
             = trace (Trainer.env s2) ++ evs
           ∧ Forall (λ e, is_validate_event e = false) evs
           ∧ ∀ e, (Trainer.train methods va1 data s2).1 = Raise e →
                  ∃ ev, last evs = Some ev ∧ raised_by_component e ev).
Proof.
  intros pl ctx0 Hskip Hprovide Hsplit Hreq Hnot Hpre. split.
  - destruct (validate_from_missing methods pre c post k (dom ctx0)
                Hreq Hnot Hpre) as [message Hmsg].
    exists message. rewrite train_eq. cbv zeta. fold pl.
    rewrite (provide_context_loop_ok methods pl Hprovide), Hskip.
    fold ctx0. unfold Components.validate_arguments.
    rewrite Hsplit at 1. rewrite Hmsg.
    by rewrite log_event_add, add_events_app.
  - intros s2 va1 va2 Hskip2. split.
    { rewrite !train_eq. cbv zeta. by rewrite Hskip2. }
    destruct (Trainer.train methods va1 data s2) as [r s2'] eqn:Hrun.
    simpl.
    destruct (provide_events_no_train methods
                (Trainer.pipeline (Trainer.self s2))) as (_ & _ & _ & Hnv).
    apply train_run in Hrun
      as [(n & e & ev & -> & -> & Hlast & Hev)
         |[(e & -> & Hskip' & _)|(evs & Hrun)]].
    + eexists. split; [done|]. split; [by apply Forall_take|].
      intros e' [= <-]. by exists ev.
    + by rewrite Hskip2 in Hskip'.
    + cbv zeta in Hrun. rewrite Hskip2 in Hrun.
      destruct Hrun as (_ & Henv & _ & _ & _ & Hevs & Hr).
      eexists. split; [by rewrite Henv|]. split.
      * apply Forall_app. split; [done|]. simpl. constructor; [done|].
        by eapply loop_event_not_validate.
      * intros e' ->. simpl in Hr. destruct Hr as (ev & Hlast & Hev).
        exists ev. split; [|done].
        rewrite last_app. simpl app. rewrite last_cons, Hlast. done.
Qed.

(** ** Trainer.persist *)

Section Persist.
Variable methods : string → Component.Class.
Variable TrainingData_persist : pyval → string → result dict.
Variable TrainingData_bool : pyval → bool.

Lemma persist_loop_ok cs dir :
  Forall (λ c, is_ok (Component.persist (class_of methods c)
                        (Component.self c) dir)) cs →
  ∀ md w,
    Trainer.persist_loop methods cs dir md w =
    (Ok (foldl merge_updates md (persisted_updates methods cs dir)),
     add_events (persist_events methods cs dir) w).
Proof.
  induction 1 as [|c cs Hc _ IH]; intros md w.
  - simpl. by rewrite add_events_nil.
  - simpl. unfold bind, call_persist, bind, log, modify, of_result.
    destruct (Component.persist (class_of methods c) (Component.self c) dir)
      as [u|e] eqn:Hp; [|done].
    rewrite IH. simpl.
    by rewrite log_event_add, add_events_app.
Qed.

(** A key of a left fold of updates has the value of the last mapping that
    holds it. *)
Lemma foldl_merge_lookup_last (d : dict) ups1 (u : dict) ups2 k v :
  u !! k = Some v →
  Forall (lacks_key k) ups2 →
  foldl merge_updates d (ups1 ++ Some u :: ups2) !! k = Some v.
Proof.
  intros Hu Hups2. rewrite foldl_app.
  change (foldl merge_updates (foldl merge_updates d ups1) (Some u :: ups2))
    with (foldl merge_updates
            (merge_updates (foldl merge_updates d ups1) (Some u)) ups2).
  generalize (foldl merge_updates d ups1). intros d'.
  assert (Hd : merge_updates d' (Some u) !! k = Some v)
    by (by rewrite merge_updates_lookup, Hu).
  revert Hd. generalize (merge_updates d' (Some u)). clear d' Hu.
  induction Hups2 as [|o ups2 Ho _ IH]; intros d2 Hd; [done|].
  simpl. apply IH. rewrite merge_updates_lookup.
  destruct o as [m|]; [|done]. simpl in Ho. by rewrite Ho.
Qed.

Lemma foldl_merge_lookup_none (d : dict) ups k :
  Forall (lacks_key k) ups → foldl merge_updates d ups !! k = d !! k.
Proof.
  intros Hups. revert d. induction Hups as [|o ups Ho _ IH]; intros d; [done|].
  simpl. rewrite IH, merge_updates_lookup.
  destruct o as [m|]; [|done]. simpl in Ho. by rewrite Ho.
Qed.

(** [persist] returns when the corpus's, the components' and the
    persistor's [persist] return; it then wrote the folded metadata. *)
Lemma persist_ok self path persistor project_name fixed_model_name w :
  let dir := persist_dir_name path project_name fixed_model_name (clock w) in
  let model_name :=
    if str_truthy fixed_model_name then default "" fixed_model_name
    else "model_" +:+ clock w in
  let meta := foldl merge_updates (corpus_merged TrainingData_persist TrainingData_bool self w dir)
                (persisted_updates methods (Trainer.pipeline self) dir) in
  (∀ data, Trainer.training_data self = Some data →
           TrainingData_bool (deref data w) = true →
           is_ok (TrainingData_persist (deref data w) dir)) →
  Forall (λ c, is_ok (Component.persist (class_of methods c)
                        (Component.self c) dir)) (Trainer.pipeline self) →
  (∀ p, persistor = Some p →
        is_ok (persistor_persist p dir model_name (default "default" project_name))) →
  Trainer.persist methods TrainingData_persist TrainingData_bool
    self path persistor project_name fixed_model_name w =
  (Ok dir,
   add_events
     (match persistor with
      | Some _ => [EvPersistor dir model_name (default "default" project_name)]
      | None => []
      end)
     (set_disk (<[dir := meta]> (disk w))
        (add_events
           (EvCreateDir dir
            :: corpus_events TrainingData_bool self w dir
            ++ persist_events methods (Trainer.pipeline self) dir
            ++ [EvMetadataPersist (Metadata.mk meta dir) dir]) w))).
Proof.
  intros dir model_name meta Hcorpus Hcomp Hpersistor.
  unfold Trainer.persist. unfold bind at 1. unfold gets at 1.
  fold model_name.
  change (os_path_join path [default "default" project_name; model_name])
    with dir.
  unfold bind at 1. unfold log at 1, modify at 1.
  unfold bind at 1.
  set (w1 := log_event (EvCreateDir dir) w).
  assert (Hphase :
    (match Trainer.training_data self with
     | Some data =>
         td <-- gets (deref data) ;;
         (if TrainingData_bool td
          then update <-- Trainer.call_data_persist TrainingData_persist data dir ;;
               ret (dict_update (Trainer.base_metadata self) update)
          else ret (Trainer.base_metadata self))
     | None => ret (Trainer.base_metadata self)
     end) w1
    = (Ok (corpus_merged TrainingData_persist TrainingData_bool self w dir),
       add_events (corpus_events TrainingData_bool self w dir) w1)).
  { unfold corpus_merged, corpus_updates, corpus_events.
    destruct (Trainer.training_data self) as [data|] eqn:Htd;
      [|by rewrite add_events_nil].
    unfold bind at 1. unfold gets at 1.
    change (deref data w1) with (deref data w).
    destruct (TrainingData_bool (deref data w)) eqn:Hb;
      [|by rewrite add_events_nil].
    specialize (Hcorpus data eq_refl Hb).
    unfold bind, Trainer.call_data_persist, bind, log, modify, gets, of_result, ret.
    change (deref data (log_event (EvDataPersist data dir) w1))
      with (deref data w).
    by destruct (TrainingData_persist (deref data w) dir). }
  rewrite Hphase. unfold bind at 1.
  rewrite (persist_loop_ok _ _ Hcomp). fold meta.
  unfold bind at 1, Metadata_io.persist, bind, log, modify. simpl.
  subst w1. unfold ret.
  destruct persistor as [p|].
  - specialize (Hpersistor p eq_refl).
    unfold Trainer.call_persistor, bind, log, modify, of_result.
    destruct (persistor_persist p dir model_name _) as [[]|]; [|done].
    f_equal. unfold add_events, set_disk, log_event. simpl.
    rewrite <- !app_assoc. simpl. by rewrite <- !app_assoc.
  - f_equal. unfold add_events, set_disk, log_event. simpl.
    by rewrite app_nil_r, <- !app_assoc.
Qed.

End Persist.

(** C10. When the corpus's, the components' and the persistor's [persist]
    return, [persist] returns the directory and writes there the metadata
    assembled by successive updates: the base record with ["language"] and
    ["pipeline"], then the corpus's mapping, then the value of each
    component's [persist] in pipeline order, the calls being made in that
    order. So every key, the two of the base record included, has the
    value of the last contribution that holds it: the base record's when
    no contribution has the key, the corpus's when no component has it,
    else that of the last component that has it. *)
Theorem Trainer_persist_merge_order
    (methods : string → Component.Class)
    (TrainingData_persist : pyval → string → result dict)
    (TrainingData_bool : pyval → bool)
    (self : Trainer.t) (path : string) (persistor : option Persistor)
    (project_name fixed_model_name : option string) (w : world) :
  let dir := persist_dir_name path project_name fixed_model_name (clock w) in
  let model_name :=
    if str_truthy fixed_model_name then default "" fixed_model_name
    else "model_" +:+ clock w in
  let base := Trainer.base_metadata self in
  let corpus :=
    corpus_updates TrainingData_persist TrainingData_bool self w dir in
  let ups := persisted_updates methods (Trainer.pipeline self) dir in
  let meta :=
    foldl merge_updates
      (match corpus with Some u => dict_update base u | None => base end) ups in
  (∀ data, Trainer.training_data self = Some data →
           TrainingData_bool (deref data w) = true →
           is_ok (TrainingData_persist (deref data w) dir)) →
  Forall (λ c, is_ok (Component.persist (class_of methods c)
                        (Component.self c) dir)) (Trainer.pipeline self) →
  (∀ p, persistor = Some p →
        is_ok (persistor_persist p dir model_name (default "default" project_name))) →
  (∃ w' tail,
     Trainer.persist methods TrainingData_persist TrainingData_bool
       self path persistor project_name fixed_model_name w = (Ok dir, w')
     ∧ disk w' = <[dir := meta]> (disk w)
     ∧ trace w' =
         trace w
         ++ EvCreateDir dir
            :: corpus_events TrainingData_bool self w dir
            ++ persist_events methods (Trainer.pipeline self) dir
            ++ EvMetadataPersist (Metadata.mk meta dir) dir :: tail)
  ∧ base !! "language" = Some (PyStr (cfg_language (Trainer.config self)))
  ∧ base !! "pipeline" =
      Some (PyList (PyStr <$> (module_path_from_object <$> Trainer.pipeline self)))
  ∧ (∀ k, lacks_key k corpus → Forall (lacks_key k) ups →
          meta !! k = base !! k)
  ∧ (∀ u k v, corpus = Some u → u !! k = Some v → Forall (lacks_key k) ups →
              meta !! k = Some v)
  ∧ (∀ ups1 u ups2 k v,
       ups = ups1 ++ Some u :: ups2 → u !! k = Some v →
       Forall (lacks_key k) ups2 → meta !! k = Some v).
Proof.
  intros dir model_name base corpus ups meta Hcorpus Hcomp Hpersistor.
  split; [|split; [done|split; [done|split; [|split]]]].
  - eexists _, (match persistor with
                | Some _ =>
                    [EvPersistor dir model_name (default "default" project_name)]
                | None => []
                end).
    split; [by apply persist_ok|]. split; [by destruct persistor|].
    unfold add_events, set_disk. simpl.
    rewrite <- !app_assoc. simpl. by rewrite <- !app_assoc.
  - intros k Hck Hups. subst meta. rewrite foldl_merge_lookup_none by done.
    destruct corpus as [u|]; [|done].
    simpl in Hck. by rewrite dict_update_lookup, Hck.
  - intros u k v Hc Hu Hups. subst meta.
    rewrite foldl_merge_lookup_none by done.
    by rewrite Hc, dict_update_lookup, Hu.
  - intros ups1 u ups2 k v Hsplit Hu Hups2. subst meta. rewrite Hsplit.
    by apply foldl_merge_lookup_last.
Qed.

Lemma Trainer_create_loop_run b cfg names :
  ∀ acc w pl w',
    Trainer.create_loop b cfg names acc w = (Ok pl, w') →
    ∃ cs, pl = acc ++ cs
          ∧ Forall2 (λ n c, create_component b n cfg = Ok c) names cs.
Proof.
  induction names as [|n names IH]; intros acc w pl w' Hrun.
  - injection Hrun as <- _. exists []. by rewrite app_nil_r.
  - simpl in Hrun. apply bind_inv_ok in Hrun as (c & w1 & Hc & Hrun).
    injection Hc as Hc _.
    apply IH in Hrun as (cs & -> & Hcs). exists (c :: cs).
    split; [by rewrite <- app_assoc|by constructor].
Qed.

(** [__init__] builds the pipeline from the configured names, in order, and
    holds no corpus. *)
Lemma Trainer_init_run db cfg cb skip w tr w' :
  Trainer.init db cfg cb skip w = (Ok tr, w') →
  Forall2 (λ n c, create_component (default db cb) n cfg = Ok c)
    (cfg_pipeline cfg) (Trainer.pipeline tr)
  ∧ Trainer.training_data tr = None
  ∧ Trainer.config tr = cfg
  ∧ Trainer.skip_validation tr = skip.
Proof.
  unfold Trainer.init. intros Hrun.
  apply bind_inv_ok in Hrun as (pl & w1 & Hpl & Hret).
  injection Hret as <- _.
  by apply Trainer_create_loop_run in Hpl as (cs & -> & Hcs).
Qed.

(** C6 (amended). [persist] has no check of the trainer's state: on a
    trainer that was constructed and never trained, it skips the corpus,
    calls every component's [persist] and, when these and the persistor
    return, returns the directory and writes the metadata folded from the
    base record and the components' values. *)
Theorem Trainer_persist_before_train
    (methods : string → Component.Class) (default_builder : ComponentBuilder)
    (TrainingData_persist : pyval → string → result dict)
    (TrainingData_bool : pyval → bool)
    (config : Config) (component_builder : option ComponentBuilder)
    (skip_validation : bool) (w0 w1 : world) (self : Trainer.t)
    (path : string) (persistor : option Persistor)
    (project_name fixed_model_name : option string) (w : world) :
  let dir := persist_dir_name path project_name fixed_model_name (clock w) in
  let model_name :=
    if str_truthy fixed_model_name then default "" fixed_model_name
    else "model_" +:+ clock w in
  Trainer.init default_builder config component_builder skip_validation w0
    = (Ok self, w1) →
  Forall (λ c, is_ok (Component.persist (class_of methods c)
                        (Component.self c) dir)) (Trainer.pipeline self) →
  (∀ p, persistor = Some p →
        is_ok (persistor_persist p dir model_name (default "default" project_name))) →
  Trainer.training_data self = None
  ∧ ∃ w',
      Trainer.persist methods TrainingData_persist TrainingData_bool
        self path persistor project_name fixed_model_name w = (Ok dir, w')
      ∧ disk w' !! dir =
          Some (foldl merge_updates (Trainer.base_metadata self)
                  (persisted_updates methods (Trainer.pipeline self) dir)).
Proof.
  intros dir model_name Hinit Hcomp Hpersistor.
  apply Trainer_init_run in Hinit as (_ & Htd & _).
  split; [done|]. eexists. split.
  - apply persist_ok; [|done|done]. intros data Hdata. by rewrite Htd in Hdata.
  - destruct persistor; simpl; rewrite lookup_insert_eq;
      unfold corpus_merged, corpus_updates; by rewrite Htd.
Qed.

(** ** Pipeline order, end to end *)

Lemma train_preserves_classes methods va data s r s' :
  Trainer.train methods va data s = (r, s') →
  Component.cls <$> Trainer.pipeline (Trainer.self s')
  = Component.cls <$> Trainer.pipeline (Trainer.self s).
Proof.
  intros Hrun. apply train_run in Hrun
    as [(n & e & ev & _ & -> & _)|[(e & _ & _ & _ & ->)|(evs & Hrun)]];
    [done|done|].
  cbv zeta in Hrun. by destruct Hrun as (_ & _ & _ & Hcls & _).
Qed.

Lemma loaded_names_app evs1 evs2 :
  loaded_names (evs1 ++ evs2) = loaded_names evs1 ++ loaded_names evs2.
Proof. apply omap_app. Qed.

Lemma process_calls_app evs1 evs2 :
  process_calls (evs1 ++ evs2) = process_calls evs1 ++ process_calls evs2.
Proof. apply omap_app. Qed.

(** A run of the loop of [create] that returns loaded one component per
    identifier, in order. *)
Lemma Interpreter_create_loop_run methods b md cfg names :
  ∀ pl ctx w pl' ctx' w',
    Interpreter.create_loop methods b md cfg names pl ctx w
      = (Ok (pl', ctx'), w') →
    ∃ cs evs,
      pl' = pl ++ cs
      ∧ w' = add_events evs w
      ∧ loaded_names evs = names
      ∧ Forall2 (λ id c, ∃ ctx0,
                   load_component b id (Metadata.model_dir md) md cfg ctx0 = Ok c)
          names cs.
Proof.
  induction names as [|n names IH]; intros pl ctx w pl' ctx' w' Hrun.
  - injection Hrun as <- _ <-. exists [], [].
    by rewrite app_nil_r, add_events_nil.
  - rewrite create_loop_cons in Hrun. cbv zeta in Hrun.
    destruct (load_component _ _ _ _ _ _) as [c|e] eqn:Hload; [|done].
    destruct (Component.provide_context _ _) as [u|[m|m|k m]]; try done.
    apply IH in Hrun as (cs & evs & -> & -> & Hnames & Hcs).
    eexists (c :: cs), (_ :: _ :: evs).
    split; [by rewrite <- app_assoc|]. split.
    { by rewrite !log_event_add, !add_events_app. }
    split; [simpl; by rewrite <- Hnames|].
    constructor; [by eexists|done].
Qed.

Lemma Interpreter_create_run methods db vr md cfg cb skip w interp w' :
  Interpreter.create methods db vr md cfg cb skip w = (Ok interp, w') →
  loaded_names (drop (length (trace w)) (trace w')) = Metadata.pipeline md
  ∧ Forall2 (λ id c, ∃ ctx0,
               load_component (default db cb) id (Metadata.model_dir md)
                 md cfg ctx0 = Ok c)
      (Metadata.pipeline md) (Interpreter.pipeline interp).
Proof.
  unfold Interpreter.create. intros Hrun.
  apply bind_inv_ok in Hrun as ([] & w1 & Hvalid & Hrun).
  apply bind_inv_ok in Hrun as ([pl ctx] & w2 & Hloop & Hret).
  injection Hret as <- <-.
  apply Interpreter_create_loop_run in Hloop as (cs & evs & -> & -> & Hnames & Hcs).
  split; [|done].
  assert (∃ pre, w1 = add_events pre w ∧ loaded_names pre = []) as (pre & -> & Hpre).
  { destruct skip; simpl in Hvalid.
    - injection Hvalid as <-. exists []. by rewrite add_events_nil.
    - unfold Interpreter.call_validate_requirements, bind, log, modify,
        of_result in Hvalid.
      injection Hvalid as _ <-. by eexists [_]. }
  simpl. rewrite <- app_assoc, drop_app_length, loaded_names_app, Hpre.
  done.
Qed.

Lemma process_loop_run methods cs ctx :
  ∀ m w m' w',
    Interpreter.process_loop methods cs m ctx w = (Ok m', w') →
    ∃ evs, w' = add_events evs w ∧ process_calls evs = cs.
Proof.
  induction cs as [|c cs IH]; intros m w m' w' Hrun.
  - injection Hrun as _ <-. exists []. by rewrite add_events_nil.
  - simpl in Hrun. apply bind_inv_ok in Hrun as (m1 & w1 & Hc & Hrun).
    rewrite call_process_eq in Hc. injection Hc as _ <-.
    apply IH in Hrun as (evs & -> & Hevs). exists (EvProcess c m ctx :: evs).
    split; [by rewrite log_event_add, add_events_app|].
    simpl. by rewrite <- Hevs.
Qed.

Lemma Interpreter_parse_run methods self text time w out w' :
  text ≠ "" →
  Interpreter.parse methods self (Some text) time w = (Ok out, w') →
  process_calls (drop (length (trace w)) (trace w')) = Interpreter.pipeline self.
Proof.
  intros Htext. unfold Interpreter.parse.
  assert (str_truthy (Some text) = true) as ->.
  { simpl. by apply negb_true_iff, String.eqb_neq. }
  simpl. intros Hrun.
  apply bind_inv_ok in Hrun as (m & w1 & Hloop & Hret).
  injection Hret as _ <-.
  apply process_loop_run in Hloop as (evs & -> & Hevs).
  simpl. by rewrite drop_app_length.
Qed.

(** C4 (amended). A trainer built from an ordered list of names holds one
    component per name, in order. Persisting it, before or after training,
    when no persisted mapping of the corpus or of a component has the key
    ["pipeline"], writes a metadata record whose ["pipeline"] entry lists
    the identifiers of the components' classes in that order and length;
    [Interpreter.create] on that record loads one component per identifier
    in the same order, and [parse] of a non-empty text calls [process] on
    the interpreter's components in that order. *)
Theorem pipeline_order_end_to_end
    (methods : string → Component.Class) (default_builder : ComponentBuilder)
    (validate_arguments : list Component.t → dict → result unit)
    (validate_requirements : list pyval → result unit)
    (TrainingData_persist : pyval → string → result dict)
    (TrainingData_bool : pyval → bool)
    (config : Config) (component_builder : option ComponentBuilder)
    (skip_validation : bool) (w0 w1 : world) (tr : Trainer.t) :
  Trainer.init default_builder config component_builder skip_validation w0
    = (Ok tr, w1) →
  let ids := module_path_from_object <$> Trainer.pipeline tr in
  Forall2 (λ n c, create_component (default default_builder component_builder)
                    n config = Ok c)
    (cfg_pipeline config) (Trainer.pipeline tr)
  ∧ length ids = length (cfg_pipeline config)
  ∧ ∀ self path persistor project_name fixed_model_name w,
      let dir := persist_dir_name path project_name fixed_model_name (clock w) in
      let model_name :=
        if str_truthy fixed_model_name then default "" fixed_model_name
        else "model_" +:+ clock w in
      (self = tr
       ∨ ∃ data wa r s',
           Trainer.train methods validate_arguments data (Trainer.mkState tr wa)
             = (r, s')
           ∧ self = Trainer.self s') →
      (∀ data, Trainer.training_data self = Some data →
               TrainingData_bool (deref data w) = true →
               is_ok (TrainingData_persist (deref data w) dir)) →
      Forall (λ c, is_ok (Component.persist (class_of methods c)
                            (Component.self c) dir)) (Trainer.pipeline self) →
      (∀ p, persistor = Some p →
            is_ok (persistor_persist p dir model_name
                     (default "default" project_name))) →
      lacks_key "pipeline"
        (corpus_updates TrainingData_persist TrainingData_bool self w dir) →
      Forall (lacks_key "pipeline")
        (persisted_updates methods (Trainer.pipeline self) dir) →
      ∃ w' meta,
        Trainer.persist methods TrainingData_persist TrainingData_bool
          self path persistor project_name fixed_model_name w = (Ok dir, w')
        ∧ disk w' !! dir = Some meta
        ∧ meta !! "pipeline" = Some (PyList (PyStr <$> ids))
        ∧ ∀ config' builder' skip' w3 interp w4,
            Interpreter.create methods default_builder validate_requirements
              (Metadata.mk meta dir) config' builder' skip' w3
              = (Ok interp, w4) →
            loaded_names (drop (length (trace w3)) (trace w4)) = PyStr <$> ids
            ∧ Forall2 (λ id c, ∃ ctx0,
                         load_component (default default_builder builder')
                           (PyStr id) dir (Metadata.mk meta dir) config' ctx0
                         = Ok c)
                ids (Interpreter.pipeline interp)
            ∧ ∀ text time w5 out w6,
                text ≠ "" →
                Interpreter.parse methods interp (Some text) time w5
                  = (Ok out, w6) →
                process_calls (drop (length (trace w5)) (trace w6))
                = Interpreter.pipeline interp.
Proof.
  intros Hinit ids.
  apply Trainer_init_run in Hinit as (Hcreated & _).
  split; [done|]. split.
  { subst ids. rewrite length_fmap. symmetry. by eapply Forall2_length. }
  intros self path persistor project_name fixed_model_name w dir model_name
    Hself Hcorpus Hcomp Hpersistor Hnc Hnk.
  assert (Hids : module_path_from_object <$> Trainer.pipeline self = ids).
  { destruct Hself as [->|(data & wa & r & s' & Hrun & ->)]; [done|].
    by apply train_preserves_classes in Hrun. }
  set (meta := foldl merge_updates
                 (corpus_merged TrainingData_persist TrainingData_bool self w dir)
                 (persisted_updates methods (Trainer.pipeline self) dir)).
  assert (Hmeta : meta !! "pipeline" = Some (PyList (PyStr <$> ids))).
  { subst meta. rewrite foldl_merge_lookup_none by done.
    unfold corpus_merged.
    destruct (corpus_updates _ _ self w dir) as [u|]; simpl in Hnc.
    - by rewrite dict_update_lookup, Hnc, <- Hids.
    - by rewrite <- Hids. }
  eexists _, meta. split; [by apply persist_ok|].
  split; [destruct persistor; simpl; by rewrite lookup_insert_eq|].
  split; [done|].
  intros config' builder' skip' w3 interp w4 Hcreate.
  apply Interpreter_create_run in Hcreate as [Hloaded Hpl].
  unfold Metadata.pipeline in Hloaded, Hpl. simpl in Hloaded, Hpl.
  rewrite Hmeta in Hloaded, Hpl.
  split; [done|]. split; [by apply Forall2_fmap_l in Hpl|].
  intros text time w5 out w6. apply Interpreter_parse_run.
Qed.

(** ** The theorems on the stub pipeline *)

Ltac by_computation := vm_compute; reflexivity.
Ltac forall_members :=
  repeat (constructor; [first [exact I | reflexivity | split; reflexivity]|]);
  constructor.
Ltac forall_by_computation := vm_compute; forall_members.

Lemma as_dict_set_eq (m : Message.t) (k : string) (v : pyval) :
  Message.as_dict (Message.set m k v true) true !! k = Some v.
Proof.
  unfold Message.as_dict, Message.set. simpl.
  apply map_lookup_filter_Some. split; [apply lookup_insert_eq|].
  simpl. set_solver.
Qed.

Example stub_train_returns :
  Stubs.run_ABC.1 = Ok Stubs.interpreter_ABC
  ∧ Interpreter.context Stubs.interpreter_ABC
    = {[ "x" := PyInt 2; "y" := PyInt 3 ]}
  ∧ deref 2%positive (Trainer.env Stubs.trained_ABC)
    = PyList [PyStr "A"; PyStr "B"; PyStr "C"].
Proof. split; [|split]; vm_compute; reflexivity. Qed.

Example stub_parse_empty :
  (Interpreter.parse Stubs.methods Stubs.interpreter_AB (Some "") None
     Stubs.world0).1
  = Ok {[ "entities" := PyList [];
          "intent" := PyDict {[ "confidence" := PyFloat 0%float;
                                "name" := PyStr "" ]};
          "text" := PyStr "" ]}.
Proof. vm_compute. reflexivity. Qed.

Example stub_parse_text :
  (Interpreter.parse Stubs.methods Stubs.interpreter_AB (Some "hello") None
     Stubs.world0).1
  = Ok {[ "entities" := PyList []; "intent" := PyStr "B" ]}.
Proof. vm_compute. reflexivity. Qed.

Lemma Interpreter_parse_overlays_defaults_witness :
  "hello" ≠ ""
  ∧ ∃ out w',
      Interpreter.parse Stubs.methods Stubs.interpreter_AB (Some "hello") None
        Stubs.world0 = (Ok out, w')
      ∧ out !! "intent" = Some (PyStr "B")
      ∧ is_Some (out !! "entities").
Proof.
  assert (Htext : "hello" ≠ "") by discriminate.
  split; [exact Htext|].
  destruct (Interpreter_parse_overlays_defaults Stubs.methods
              Stubs.interpreter_AB "hello" None Stubs.world0 Htext)
    as (final & w' & _ & Hparse & _ & Hent & _ & _ & Hlast).
  { intros c m Hin. simpl in Hin.
    apply elem_of_cons in Hin as [->|Hin]; [exact I|].
    apply elem_of_cons in Hin as [->|Hin]; [exact I|].
    apply elem_of_nil in Hin. destruct Hin. }
  eexists _, w'. split; [exact Hparse|]. split; [|exact Hent].
  apply (Hlast [Component.mk "stubs.A" (PyStr "loaded")]
           (Component.mk "stubs.B" (PyStr "loaded")) [] "intent" (PyStr "B")).
  - reflexivity.
  - intros m m' [= <-]. apply as_dict_set_eq.
  - intros c' m m' Hin. apply elem_of_nil in Hin. destruct Hin.
Defined.

Lemma Interpreter_create_wraps_missing_argument_witness :
  (Interpreter.create Stubs.methods Stubs.builder Stubs.validate_requirements
     Stubs.metadata_broken Stubs.config_ABC None false Stubs.world0).1
  = Raise (Exception "Failed to initialize component 'Broken'. spacy_nlp").
Proof.
  refine (proj1 (Interpreter_create_wraps_missing_argument Stubs.methods
            Stubs.builder Stubs.validate_requirements Stubs.metadata_broken
            Stubs.config_ABC None false Stubs.world0
            [PyStr "stubs.A"] [PyStr "stubs.C"] (PyStr "stubs.Broken")
            [Component.mk "stubs.A" (PyStr "loaded")]
            {[ "x" := PyInt 1 ]}
            (Component.mk "stubs.Broken" (PyStr "loaded")) "spacy_nlp"
            _ _ _ _ _)).
  - reflexivity.
  - right. reflexivity.
  - vm_compute. reflexivity.
  - reflexivity.
  - reflexivity.
Defined.

Lemma stub_run_ABC :
  Trainer.train Stubs.methods (Components.validate_arguments Stubs.methods)
    Stubs.corpus (Trainer.mkState Stubs.trainer_ABC Stubs.world0)
  = (Ok Stubs.interpreter_ABC, Stubs.trained_ABC).
Proof. vm_compute. reflexivity. Defined.

Lemma stub_run_tagger :
  Trainer.train Stubs3.methods (Components.validate_arguments Stubs3.methods)
    Stubs.corpus (Trainer.mkState Stubs3.trainer_tagger Stubs.world0)
  = (Ok Stubs3.interpreter_tagger, Stubs3.trained_tagger).
Proof. vm_compute. reflexivity. Defined.

Lemma Trainer_train_follows_schedule_witness :
  ∃ wd evs,
    follows_schedule Stubs3.methods Stubs3.config_tagger wd
      [Stubs.component_A; Stubs.component_B; Stubs3.component_Tagger;
       Stubs.component_C]
      (Trainer.pipeline (Trainer.self Stubs3.trained_tagger)) 0
      {[ "x" := PyInt 2; "y" := PyInt 3 ]} (PyList []) evs
      (Interpreter.context Stubs3.interpreter_tagger)
      (deref wd (Trainer.env Stubs3.trained_tagger))
    ∧ length evs = 8
    ∧ Interpreter.context Stubs3.interpreter_tagger
      = {[ "x" := PyInt 7; "y" := PyInt 3; "z" := PyInt 9 ]}
    ∧ deref wd (Trainer.env Stubs3.trained_tagger)
      = PyList [PyStr "A"; PyStr "B"; PyStr "Tagger"; PyStr "C"]
    ∧ Trainer.pipeline (Trainer.self Stubs3.trained_tagger)
      = [Component.mk "stubs.A" (PyStr "trained");
         Component.mk "stubs.B" (PyStr "trained");
         Component.mk "stubs.Tagger" (PyStr "tagger trained");
         Component.mk "stubs.C" (PyStr "trained")].
Proof.
  destruct (Trainer_train_follows_schedule _ _ _ _ _ _ stub_run_tagger)
    as (wd & evs & Htrace & Hsched & _).
  assert (Hwd : wd = 2%positive).
  { apply (f_equal (λ t, head (working_copies t))) in Htrace.
    vm_compute in Htrace. by injection Htrace. }
  subst wd. exists 2%positive, evs.
  split; [exact Hsched|]. split.
  { apply (f_equal length) in Htrace.
    rewrite !length_app, length_cons in Htrace.
    remember (length evs) as n eqn:Hn. vm_compute in Htrace. lia. }
  split; [by_computation|]. split; by_computation.
Defined.

Lemma context_accumulation_left_fold_witness :
  Interpreter.context Stubs.interpreter_ABC
    = {[ "x" := PyInt 2; "y" := PyInt 3 ]}
  ∧ length (train_contexts (trace (Trainer.env Stubs.trained_ABC))) = 3
  ∧ Forall (λ ctx, ctx = {[ "x" := PyInt 2; "y" := PyInt 3 ]})
      (train_contexts (trace (Trainer.env Stubs.trained_ABC)))
  ∧ train_returns (trace (Trainer.env Stubs3.trained_tagger))
    = [None; None; Some {[ "x" := PyInt 7; "z" := PyInt 9 ]}; None]
  ∧ train_contexts (trace (Trainer.env Stubs3.trained_tagger))
    = [ {[ "x" := PyInt 2; "y" := PyInt 3 ]};
        {[ "x" := PyInt 2; "y" := PyInt 3 ]};
        {[ "x" := PyInt 2; "y" := PyInt 3 ]};
        {[ "x" := PyInt 7; "y" := PyInt 3; "z" := PyInt 9 ]} ]
  ∧ Interpreter.context Stubs3.interpreter_tagger
    = {[ "x" := PyInt 7; "y" := PyInt 3; "z" := PyInt 9 ]}.
Proof.
  destruct (context_accumulation_left_fold _ _ _ _ _ _ stub_run_ABC)
    as (_ & _ & _ & _ & _ & _ & _ & Hexample).
  destruct (context_accumulation_left_fold _ _ _ _ _ _ stub_run_tagger)
    as (Hrecorded & _ & _ & _ & Hfinal & _).
  split; [by_computation|]. split; [by_computation|]. split.
  { apply Forall_lookup_2. intros i ctx Hctx.
    apply (Hexample Stubs.component_A Stubs.component_B [Stubs.component_C]
             eq_refl eq_refl eq_refl) with i.
    - forall_members.
    - forall_by_computation.
    - exact Hctx. }
  split.
  { etransitivity; [exact Hrecorded|]. by_computation. }
  split; [by_computation|].
  etransitivity; [exact Hfinal|]. by_computation.
Defined.

Lemma Trainer_train_leaves_corpus_unchanged_witness :
  is_Some (heap Stubs.world0 !! Stubs.corpus)
  ∧ heap (Trainer.env Stubs.trained_ABC) !! Stubs.corpus = Some (PyList [])
  ∧ heap (Trainer.env Stubs.trained_ABC) !! 2%positive
    = Some (PyList [PyStr "A"; PyStr "B"; PyStr "C"]).
Proof.
  assert (Hdata : is_Some (heap Stubs.world0 !! Stubs.corpus))
    by (eexists; reflexivity).
  split; [exact Hdata|].
  destruct (Trainer_train_leaves_corpus_unchanged Stubs.methods
              (Components.validate_arguments Stubs.methods) Stubs.corpus
              (Trainer.mkState Stubs.trainer_ABC Stubs.world0)
              Stubs.trained_ABC (Ok Stubs.interpreter_ABC) Hdata stub_run_ABC)
    as (Hsame & _).
  split; [by rewrite Hsame|by_computation].
Defined.

Lemma Trainer_train_validation_witness :
  ∃ message s',
    Trainer.train Stubs.methods (Components.validate_arguments Stubs.methods)
      Stubs.corpus (Trainer.mkState Stubs.trainer_needy Stubs.world0)
    = (Raise (MissingArgumentError message), s')
    ∧ Forall (λ e, is_train_event e = false ∧ is_prepare_event e = false)
        (trace (Trainer.env s')).
Proof.
  destruct (Trainer_train_validation Stubs.methods Stubs.corpus
              (Trainer.mkState Stubs.trainer_needy Stubs.world0)
              [Stubs.component_A] [Stubs.component_C] Stubs.component_Needy
              "spacy_nlp") as [(message & Hrun) _].
  - reflexivity.
  - forall_members.
  - reflexivity.
  - simpl. left.
  - apply not_elem_of_dom. reflexivity.
  - intros c' Hin. apply list_elem_of_singleton in Hin as ->.
    simpl. apply not_elem_of_nil.
  - eexists message, _. split; [exact Hrun|].
    simpl. forall_members.
Defined.

(** C5 (counterexample). On the stub trainer [A, Needy, Late], with
    validation enabled, the second component requires the key
    ["spacy_nlp"], which its only predecessor neither provides nor
    promises; the key comes from the [provide_context] of the third
    component. [train] raises no error: every [provide_context] is collected
    before the validation, the three components are trained, each with the
    key in its context, and the interpreter is returned. *)
Lemma train_accepts_key_of_later_provider :
  let run := Trainer.train Stubs3.methods
               (Components.validate_arguments Stubs3.methods) Stubs.corpus
               (Trainer.mkState Stubs3.trainer_late Stubs.world0) in
  let ctx : dict := {[ "spacy_nlp" := PyStr "nlp"; "x" := PyInt 1 ]} in
  Trainer.skip_validation Stubs3.trainer_late = false
  ∧ Trainer.pipeline Stubs3.trainer_late
    = [Stubs.component_A; Stubs.component_Needy; Stubs3.component_Late]
  ∧ Component.requires (class_of Stubs3.methods Stubs.component_Needy)
    = ["spacy_nlp"]
  ∧ Component.provide_context (class_of Stubs3.methods Stubs.component_A)
      (Component.self Stubs.component_A) = Ok (Some {[ "x" := PyInt 1 ]})
  ∧ Component.provides (class_of Stubs3.methods Stubs.component_A) = []
  ∧ run.1
    = Ok (Interpreter.init
            [Component.mk "stubs.A" (PyStr "trained");
             Component.mk "stubs.Needy" (PyStr "trained");
             Component.mk "stubs.Late" (PyStr "trained")]
            (Some ctx) None)
  ∧ train_contexts (trace (Trainer.env run.2)) = [ctx; ctx; ctx]
  ∧ is_validate_event <$> trace (Trainer.env run.2)
    = [false; false; false; true; false; false; false; false; false; false;
       false].
Proof. cbv zeta. split_and!; by_computation. Qed.

(** C9 (counterexample). On metadata naming the stub [Broken], whose
    [provide_context] raises a missing-argument error, [create] raises an
    exception of the builtin class [Exception], not of a class
    [ComponentInitializationError]: what it carries of the original error
    is its text, in the message. *)
Lemma create_raises_builtin_exception :
  ∃ e,
    (Interpreter.create Stubs.methods Stubs.builder Stubs.validate_requirements
       Stubs.metadata_broken Stubs.config_ABC None false Stubs.world0).1
    = Raise e
    ∧ exn_class e = "Exception"
    ∧ exn_class e ≠ "ComponentInitializationError"
    ∧ exn_str e = "Failed to initialize component 'Broken'. spacy_nlp".
Proof.
  exists (Exception "Failed to initialize component 'Broken'. spacy_nlp").
  split; [by_computation|]. split; [reflexivity|]. split; [|reflexivity].
  discriminate.
Qed.

(** C6 (counterexample). On the stub trainer [A, B, C], constructed and
    never trained, [persist] returns the model directory: no error is
    raised. *)
Lemma persist_before_train_returns :
  (Trainer.init Stubs.builder Stubs.config_ABC None false Stubs.world0).1
    = Ok Stubs.trainer_ABC
  ∧ (Trainer.persist Stubs.methods Stubs.TrainingData_persist
       Stubs.TrainingData_bool Stubs.trainer_ABC "models" None None None
       Stubs.world0).1
    = Ok "models/default/model_20170101-120000".
Proof. split; by_computation. Qed.

Lemma Trainer_persist_before_train_witness :
  ∃ w',
    Trainer.persist Stubs.methods Stubs.TrainingData_persist
      Stubs.TrainingData_bool Stubs.trainer_ABC "models" None None None
      Stubs.world0
    = (Ok "models/default/model_20170101-120000", w')
    ∧ disk w' !! "models/default/model_20170101-120000"
      = Some {[ "language" := PyStr "zh";
                "pipeline" := PyList [PyStr "stubs.A"; PyStr "stubs.B";
                                      PyStr "stubs.C"];
                "a_file" := PyStr "a.pkl";
                "b_file" := PyStr "b.pkl" ]}.
Proof.
  destruct (Trainer_persist_before_train Stubs.methods Stubs.builder
              Stubs.TrainingData_persist Stubs.TrainingData_bool
              Stubs.config_ABC None false Stubs.world0 Stubs.world0
              Stubs.trainer_ABC "models" None None None Stubs.world0)
    as (_ & w' & Hrun & Hdisk).
  - by_computation.
  - forall_members.
  - intros p Hp. discriminate Hp.
  - exists w'. split; [exact Hrun|].
    etrans; [exact Hdisk|]. by_computation.
Defined.

Lemma Trainer_persist_merge_order_witness :
  ∃ w',
    Trainer.persist Stubs.methods Stubs.TrainingData_persist
      Stubs.TrainingData_bool (Trainer.self Stubs.trained_ABC) "models"
      None (Some "nlu") (Some "current") (Trainer.env Stubs.trained_ABC)
    = (Ok "models/nlu/current", w')
    ∧ disk w' !! "models/nlu/current"
      = Some {[ "language" := PyStr "zh";
                "pipeline" := PyList [PyStr "stubs.A"; PyStr "stubs.B";
                                      PyStr "stubs.C"];
                "training_data" := PyStr "training_data.json";
                "a_file" := PyStr "a.pkl";
                "b_file" := PyStr "b.pkl" ]}.
Proof.
  destruct (Trainer_persist_merge_order Stubs.methods
              Stubs.TrainingData_persist Stubs.TrainingData_bool
              (Trainer.self Stubs.trained_ABC) "models" None (Some "nlu")
              (Some "current") (Trainer.env Stubs.trained_ABC))
    as ((w' & tail & Hrun & Hdisk & _) & _).
  - intros data _ _. exact I.
  - forall_members.
  - intros p Hp. discriminate Hp.
  - exists w'. split; [exact Hrun|]. rewrite Hdisk. by_computation.
Defined.

(** C4 (counterexample). The trainer built from the name [Greedy] holds the
    component of class [stubs.Greedy], whose [persist] returns a mapping
    with the key ["pipeline"]: the metadata written lists no component. *)
Lemma persist_pipeline_entry_overwritten :
  (Trainer.init Stubs.builder Stubs.config_greedy None false Stubs.world0).1
    = Ok Stubs.trainer_greedy
  ∧ module_path_from_object <$> Trainer.pipeline Stubs.trainer_greedy
    = ["stubs.Greedy"]
  ∧ ∃ w',
      Trainer.persist Stubs.methods Stubs.TrainingData_persist
        Stubs.TrainingData_bool Stubs.trainer_greedy "models" None None
        (Some "m") Stubs.world0
      = (Ok "models/default/m", w')
      ∧ disk w' !! "models/default/m"
        = Some {[ "language" := PyStr "zh"; "pipeline" := PyList [] ]}
      ∧ Metadata.pipeline
          (Metadata.mk {[ "language" := PyStr "zh"; "pipeline" := PyList [] ]}
             "models/default/m")
        ≠ [PyStr "stubs.Greedy"].
Proof.
  split; [by_computation|]. split; [done|].
  eexists. split; [by_computation|]. split; [by_computation|].
  vm_compute. discriminate.
Qed.

Lemma pipeline_order_end_to_end_witness :
  ∃ w' meta,
    Trainer.persist Stubs.methods Stubs.TrainingData_persist
      Stubs.TrainingData_bool (Trainer.self Stubs.trained_ABC) "models"
      None None (Some "m") (Trainer.env Stubs.trained_ABC)
    = (Ok "models/default/m", w')
    ∧ disk w' !! "models/default/m" = Some meta
    ∧ meta !! "pipeline"
      = Some (PyList [PyStr "stubs.A"; PyStr "stubs.B"; PyStr "stubs.C"]).
Proof.
  destruct (pipeline_order_end_to_end Stubs.methods Stubs.builder
              (Components.validate_arguments Stubs.methods)
              Stubs.validate_requirements Stubs.TrainingData_persist
              Stubs.TrainingData_bool Stubs.config_ABC None false
              Stubs.world0 Stubs.world0 Stubs.trainer_ABC)
    as (_ & _ & Hpersist); [by_computation|].
  destruct (Hpersist (Trainer.self Stubs.trained_ABC) "models" None None
              (Some "m") (Trainer.env Stubs.trained_ABC))
    as (w' & meta & Hrun & Hdisk & Hmeta & _).
  - right. exists Stubs.corpus, Stubs.world0, (Ok Stubs.interpreter_ABC),
      Stubs.trained_ABC.
    split; [exact stub_run_ABC|reflexivity].
  - intros data _ _. exact I.
  - forall_members.
  - intros p Hp. discriminate Hp.
  - by_computation.
  - forall_by_computation.
  - exists w', meta. split; [exact Hrun|]. split; [exact Hdisk|exact Hmeta].
Defined.

(** The whole life cycle on the stubs: train, persist, load, parse. *)
Example stub_end_to_end :
  let persisted :=
    Trainer.persist Stubs.methods Stubs.TrainingData_persist
      Stubs.TrainingData_bool (Trainer.self Stubs.trained_ABC) "models"
      None None (Some "m") (Trainer.env Stubs.trained_ABC) in
  let loaded :=
    Interpreter.load Stubs.methods Stubs.builder Stubs.validate_requirements
      (inr "models/default/m") Stubs.config_ABC None false persisted.2 in
  persisted.1 = Ok "models/default/m"
  ∧ ∃ interp,
      loaded.1 = Ok interp
      ∧ Component.cls <$> Interpreter.pipeline interp
        = ["stubs.A"; "stubs.B"; "stubs.C"]
      ∧ (Interpreter.parse Stubs.methods interp (Some "hello") None loaded.2).1
        = Ok {[ "entities" := PyList []; "intent" := PyStr "B";
                "c_out" := PyStr "C" ]}
      ∧ Component.cls <$>
          process_calls
            (drop (length (trace loaded.2))
               (trace (Interpreter.parse Stubs.methods interp (Some "hello")
                         None loaded.2).2))
        = ["stubs.A"; "stubs.B"; "stubs.C"].
Proof.
  cbv zeta. split; [by_computation|].
  eexists. split; [by_computation|]. split; [by_computation|].
  split; by_computation.
Qed.

(** * Further properties of the engine *)

(** ** Trainer.__init__ *)

Lemma Trainer_create_loop_ok b cfg names cs :
  Forall2 (λ n c, create_component b n cfg = Ok c) names cs →
  ∀ acc w, Trainer.create_loop b cfg names acc w = (Ok (acc ++ cs), w).
Proof.
  induction 1 as [|n c names cs Hc _ IH]; intros acc w.
  - simpl. by rewrite app_nil_r.
  - simpl. unfold bind, of_result. rewrite Hc, IH. by rewrite <- app_assoc.
Qed.

Lemma Trainer_create_loop_raise b cfg pre n post cs e :
  Forall2 (λ n c, create_component b n cfg = Ok c) pre cs →
  create_component b n cfg = Raise e →
  ∀ acc w, Trainer.create_loop b cfg (pre ++ n :: post) acc w = (Raise e, w).
Proof.
  intros Hpre Hn. induction Hpre as [|n' c pre cs Hc _ IH]; intros acc w.
  - simpl. unfold bind, of_result. by rewrite Hn.
  - simpl. unfold bind, of_result. rewrite Hc. apply IH.
Qed.

(** X1. [Trainer.__init__] resolves the configured names in order through
    the builder (the default one when none is passed). When every name
    resolves, the trainer holds exactly the resolved components in the
    order of the names, no corpus, and the configuration and flag it was
    given. When a name does not resolve, the constructor raises the
    builder's exception for the first such name. *)
Theorem Trainer_init_resolves_in_order
    (default_builder : ComponentBuilder) (config : Config)
    (component_builder : option ComponentBuilder) (skip_validation : bool)
    (w : world) :
  let builder := default default_builder component_builder in
  (∀ cs,
     Forall2 (λ n c, create_component builder n config = Ok c)
       (cfg_pipeline config) cs →
     Trainer.init default_builder config component_builder skip_validation w
     = (Ok (Trainer.mk config skip_validation None cs), w))
  ∧ (∀ pre n post cs e,
       cfg_pipeline config = pre ++ n :: post →
       Forall2 (λ n c, create_component builder n config = Ok c) pre cs →
       create_component builder n config = Raise e →
       Trainer.init default_builder config component_builder skip_validation w
       = (Raise e, w)).
Proof.
  intros builder. split.
  - intros cs Hcs. unfold Trainer.init. fold builder.
    unfold bind. by rewrite (Trainer_create_loop_ok _ _ _ _ Hcs).
  - intros pre n post cs e Hsplit Hpre Hn. unfold Trainer.init. fold builder.
    unfold bind. rewrite Hsplit.
    by rewrite (Trainer_create_loop_raise _ _ _ _ _ _ _ Hpre Hn).
Qed.

(** ** Interpreter.create *)

Lemma load_contexts_app evs1 evs2 :
  load_contexts (evs1 ++ evs2) = load_contexts evs1 ++ load_contexts evs2.
Proof. apply omap_app. Qed.

(** A run of the loop of [create] that returns: each component was loaded
    with the fold of the contexts provided by the components loaded before
    it. *)
Lemma Interpreter_create_loop_contexts methods b md cfg names :
  ∀ pl ctx w pl' ctx' w',
    Interpreter.create_loop methods b md cfg names pl ctx w
      = (Ok (pl', ctx'), w') →
    ∃ cs evs,
      pl' = pl ++ cs
      ∧ length cs = length names
      ∧ w' = add_events evs w
      ∧ ctx' = foldl merge_updates ctx (provided_updates methods cs)
      ∧ load_contexts evs =
          (λ i, foldl merge_updates ctx (take i (provided_updates methods cs)))
            <$> seq 0 (length cs).
Proof.
  induction names as [|n names IH]; intros pl ctx w pl' ctx' w' Hrun.
  - injection Hrun as <- <- <-. exists [], [].
    by rewrite app_nil_r, add_events_nil.
  - rewrite create_loop_cons in Hrun. cbv zeta in Hrun.
    destruct (load_component _ _ _ _ _ _) as [c|e] eqn:Hload; [|done].
    destruct (Component.provide_context (class_of methods c) (Component.self c))
      as [u|[m|m|k m]] eqn:Hc; try done.
    apply IH in Hrun as (cs & evs & -> & Hlen & -> & -> & Hctxs).
    eexists (c :: cs), (_ :: _ :: evs).
    split; [by rewrite <- app_assoc|]. split; [simpl; by rewrite Hlen|]. split.
    { by rewrite !log_event_add, !add_events_app. }
    unfold provided_updates. rewrite !fmap_cons, Hc.
    fold (provided_updates methods cs). split; [done|].
    change (load_contexts
              (EvLoadComponent n (Metadata.model_dir md) ctx
               :: EvProvideContext c (Ok u) :: evs))
      with (ctx :: load_contexts evs).
    rewrite Hctxs. simpl length. rewrite <- cons_seq, fmap_cons.
    by rewrite <- fmap_S_seq, <- list_fmap_compose.
Qed.

(** X3. [Interpreter.create] threads the context through the loads: in a
    run that returns, the [i]-th component was loaded with the left fold,
    from the empty dictionary, of the [provide_context] values of the
    [i] components loaded before it (so a component never sees its own or a
    later component's context when it is loaded), and the interpreter holds
    the fold over all of them, one component per identifier of the
    metadata, and the metadata itself. *)
Theorem Interpreter_create_threads_context
    (methods : string → Component.Class) (default_builder : ComponentBuilder)
    (validate_requirements : list pyval → result unit)
    (md : Metadata.t) (config : Config)
    (component_builder : option ComponentBuilder) (skip_valdation : bool)
    (w w' : world) (interp : Interpreter.t) :
  Interpreter.create methods default_builder validate_requirements
    md config component_builder skip_valdation w = (Ok interp, w') →
  let ups := provided_updates methods (Interpreter.pipeline interp) in
  length (Interpreter.pipeline interp) = length (Metadata.pipeline md)
  ∧ load_contexts (new_events w w') =
      (λ i, foldl merge_updates ∅ (take i ups))
        <$> seq 0 (length (Interpreter.pipeline interp))
  ∧ Interpreter.context interp = foldl merge_updates ∅ ups
  ∧ Interpreter.model_metadata interp = Some md.
Proof.
  unfold Interpreter.create. intros Hrun.
  apply bind_inv_ok in Hrun as ([] & w1 & Hvalid & Hrun).
  apply bind_inv_ok in Hrun as ([pl ctx] & w2 & Hloop & Hret).
  injection Hret as <- <-.
  apply Interpreter_create_loop_contexts in Hloop
    as (cs & evs & -> & Hlen & -> & -> & Hctxs).
  simpl. split; [done|]. split; [|done].
  assert (∃ pre, w1 = add_events pre w ∧ load_contexts pre = [])
    as (pre & -> & Hpre).
  { destruct skip_valdation; simpl in Hvalid.
    - injection Hvalid as <-. exists []. by rewrite add_events_nil.
    - unfold Interpreter.call_validate_requirements, bind, log, modify,
        of_result in Hvalid.
      injection Hvalid as _ <-. by eexists [_]. }
  unfold new_events. simpl.
  by rewrite <- app_assoc, drop_app_length, load_contexts_app, Hpre.
Qed.

(** The world after the requirements check of [create] that passed. *)
Lemma create_validation_passes vr md skip w :
  skip = true ∨ vr (Metadata.pipeline md) = Ok tt →
  ∃ pre,
    (if negb skip
     then Interpreter.call_validate_requirements vr (Metadata.pipeline md)
     else ret tt) w = (Ok tt, add_events pre w)
    ∧ loaded_names pre = [].
Proof.
  intros [->|Hv].
  - exists []. by rewrite add_events_nil.
  - destruct skip; [exists []; by rewrite add_events_nil|].
    eexists [_]. simpl.
    unfold Interpreter.call_validate_requirements, bind, log, modify, of_result.
    by rewrite Hv.
Qed.

(** X4. [Interpreter.create] wraps nothing but a missing-argument error of
    [provide_context]: when the components before some identifier load and
    initialise, an exception raised by the builder's [load_component] for
    that identifier, or an exception other than [MissingArgumentError]
    raised by the loaded component's [provide_context], reaches the caller
    unchanged; in both cases the identifiers after it were never passed to
    the builder. *)
Theorem Interpreter_create_propagates_other_errors
    (methods : string → Component.Class) (default_builder : ComponentBuilder)
    (validate_requirements : list pyval → result unit)
    (md : Metadata.t) (config : Config)
    (component_builder : option ComponentBuilder) (skip_valdation : bool)
    (w : world) (pre post : list pyval) (name : pyval)
    (pl : list Component.t) (ctx : dict) (e : exn) :
  let builder := default default_builder component_builder in
  let run := Interpreter.create methods default_builder validate_requirements
               md config component_builder skip_valdation w in
  Metadata.pipeline md = pre ++ name :: post →
  (skip_valdation = true ∨ validate_requirements (Metadata.pipeline md) = Ok tt) →
  (Interpreter.create_loop methods builder md config pre [] ∅ w).1 = Ok (pl, ctx) →
  (load_component builder name (Metadata.model_dir md) md config ctx = Raise e
   ∨ ∃ c, load_component builder name (Metadata.model_dir md) md config ctx = Ok c
          ∧ Component.provide_context (class_of methods c) (Component.self c)
            = Raise e
          ∧ ∀ message, e ≠ MissingArgumentError message) →
  run.1 = Raise e
  ∧ loaded_names (new_events w run.2) = pre ++ [name].
Proof.
  intros builder run Hsplit Hvalid Hpre Hfail. subst run.
  unfold Interpreter.create. fold builder.
  destruct (create_validation_passes validate_requirements md skip_valdation w
              Hvalid) as (evs0 & Hv & Hevs0).
  rewrite (bind_ok _ _ _ _ _ Hv).
  rewrite Hsplit. unfold bind. rewrite create_loop_app.
  destruct (Interpreter.create_loop methods builder md config pre [] ∅
              (add_events evs0 w)) as [r w2] eqn:Hrun.
  rewrite (create_loop_fst _ _ _ _ _ _ _ w (add_events evs0 w)), Hrun in Hpre.
  simpl in Hpre. subst r.
  apply Interpreter_create_loop_run in Hrun as (cs & evs & _ & -> & Hnames & _).
  rewrite create_loop_cons. cbv zeta.
  assert (Hnew : ∀ tail, loaded_names tail = [name] →
            loaded_names
              (new_events w (add_events tail (add_events evs (add_events evs0 w))))
            = pre ++ [name]).
  { intros tail Htail. unfold new_events. simpl.
    rewrite <- !app_assoc, drop_app_length, !loaded_names_app.
    by rewrite Hevs0, Hnames, Htail. }
  destruct Hfail as [Hload|(c & Hload & Hc & Hne)]; rewrite Hload.
  - split; [done|]. simpl snd. rewrite log_event_add. by apply Hnew.
  - rewrite Hc. destruct e as [m|m|k m]; [by destruct (Hne m)| |];
      (split; [done|]); simpl snd;
      rewrite !log_event_add, add_events_app; by apply Hnew.
Qed.

(** ** Interpreter.parse *)

Lemma process_contexts_app evs1 evs2 :
  process_contexts (evs1 ++ evs2) = process_contexts evs1 ++ process_contexts evs2.
Proof. apply omap_app. Qed.

(** Every run of the loop of [parse]: [process] was called on a prefix of
    the pipeline, always with the same context, and a run that raises
    stopped at the component that raised. *)
Lemma process_loop_any_run methods cs ctx :
  ∀ m w r w',
    Interpreter.process_loop methods cs m ctx w = (r, w') →
    ∃ evs n,
      w' = add_events evs w
      ∧ process_calls evs = take n cs
      ∧ process_contexts evs = replicate (length (take n cs)) ctx
      ∧ match r with
        | Ok _ => n = length cs
        | Raise e =>
            ∃ c m', cs !! (n - 1) = Some c ∧ 0 < n
                    ∧ Component.process (class_of methods c) (Component.self c)
                        m' ctx = Raise e
        end.
Proof.
  induction cs as [|c cs IH]; intros m w r w' Hrun.
  - injection Hrun as <- <-. exists [], 0. by rewrite add_events_nil.
  - simpl in Hrun. unfold bind in Hrun. rewrite call_process_eq in Hrun.
    destruct (Component.process (class_of methods c) (Component.self c) m ctx)
      as [m1|e] eqn:Hc.
    + apply IH in Hrun as (evs & n & -> & Hcalls & Hctxs & Hr).
      exists (EvProcess c m ctx :: evs), (S n).
      split; [by rewrite log_event_add, add_events_app|].
      split; [simpl; by rewrite <- Hcalls|].
      split; [simpl; unfold process_contexts in *; simpl; by rewrite Hctxs|].
      destruct r as [m'|e]; [by rewrite Hr|].
      destruct Hr as (c' & m' & Hlook & Hn & Hraise).
      exists c', m'. split; [|split; [lia|done]].
      destruct n; [lia|]. simpl in *. by rewrite Nat.sub_0_r in Hlook.
    + injection Hrun as <- <-. exists [EvProcess c m ctx], 1.
      split; [done|]. split; [done|]. split; [done|].
      exists c, m. split; [done|]. split; [lia|done].
Qed.

(** X5. [Interpreter.parse] of a non-empty text does not catch what a
    component raises: in every run, [process] was called on a prefix of the
    pipeline, in order, each time with the interpreter's context; when the
    run returns the prefix is the whole pipeline, and when it raises the
    exception is the one raised by the last component called, the
    components after it not being called. *)
Theorem Interpreter_parse_stops_at_first_error
    (methods : string → Component.Class) (self : Interpreter.t)
    (text : string) (time : option pyval) (w : world) :
  text ≠ "" →
  let run := Interpreter.parse methods self (Some text) time w in
  ∃ n,
    process_calls (new_events w run.2) = take n (Interpreter.pipeline self)
    ∧ Forall (λ ctx, ctx = Interpreter.context self)
        (process_contexts (new_events w run.2))
    ∧ match run.1 with
      | Ok _ => n = length (Interpreter.pipeline self)
      | Raise e =>
          ∃ c m, Interpreter.pipeline self !! (n - 1) = Some c ∧ 0 < n
                 ∧ Component.process (class_of methods c) (Component.self c)
                     m (Interpreter.context self) = Raise e
      end.
Proof.
  intros Htext run. subst run. unfold Interpreter.parse.
  assert (str_truthy (Some text) = true) as ->.
  { simpl. by apply negb_true_iff, String.eqb_neq. }
  simpl. unfold bind.
  destruct (Interpreter.process_loop methods (Interpreter.pipeline self)
              (Message.init text Interpreter.default_output_attributes time)
              (Interpreter.context self) w) as [r w1] eqn:Hloop.
  apply process_loop_any_run in Hloop as (evs & n & -> & Hcalls & Hctxs & Hr).
  exists n.
  destruct r as [m|e]; simpl; unfold new_events; simpl;
    rewrite drop_app_length; (split; [done|]);
    (split; [rewrite Hctxs; by apply Forall_replicate|done]).
Qed.

(** ** Trainer.train: what a run leaves behind *)

Section TrainFrame.
Variable methods : string → Component.Class.

Lemma prepared_app evs1 evs2 :
  prepared (evs1 ++ evs2) = prepared evs1 ++ prepared evs2.
Proof. apply omap_app. Qed.

Lemma working_copies_app evs1 evs2 :
  working_copies (evs1 ++ evs2) = working_copies evs1 ++ working_copies evs2.
Proof. apply omap_app. Qed.

Lemma provide_events_prefix_quiet n cs :
  prepared (take n (provide_events methods cs)) = []
  ∧ working_copies (take n (provide_events methods cs)) = [].
Proof.
  revert n. induction cs as [|c cs IH]; intros [|n]; try done.
  simpl. apply IH.
Qed.

Lemma loop_events_no_copy wd evs :
  Forall (loop_event wd) evs → working_copies evs = [].
Proof.
  induction 1 as [|e evs He _ IH]; [done|].
  destruct e; try done; simpl; exact IH.
Qed.

(** Every run of the training loop: the components at the indices the loop
    did not reach are as they were, and no object of the heap is lost. *)
Lemma train_loop_untouched wd k :
  ∀ i ctx s r s',
    length (Trainer.pipeline (Trainer.self s)) = i + k →
    Trainer.train_loop methods wd (seq i k) ctx s = (r, s') →
    ∃ evs,
      trace (Trainer.env s') = trace (Trainer.env s) ++ evs
      ∧ length (Trainer.pipeline (Trainer.self s'))
        = length (Trainer.pipeline (Trainer.self s))
      ∧ drop (i + length (prepared evs)) (Trainer.pipeline (Trainer.self s'))
        = drop (i + length (prepared evs)) (Trainer.pipeline (Trainer.self s))
      ∧ (∀ l, is_Some (heap (Trainer.env s) !! l) →
              is_Some (heap (Trainer.env s') !! l))
      ∧ match r with
        | Ok _ => length (prepared evs) = k
        | Raise _ => 0 < length (prepared evs) ≤ k
        end.
Proof.
  induction k as [|k IH]; intros i ctx s r s' Hlen Hrun.
  - injection Hrun as <- <-. exists []. rewrite app_nil_r.
    split; [done|]. split; [done|]. split; [done|]. split; [done|]. done.
  - simpl seq in Hrun. rewrite train_loop_cons in Hrun.
    destruct (lookup_lt_is_Some_2 (Trainer.pipeline (Trainer.self s)) i
                ltac:(lia)) as [c Hc].
    rewrite Hc, train_step_eq in Hrun. cbv zeta in Hrun.
    destruct s as [[cfg skip td pl] w]. simpl in Hc, Hlen, Hrun |- *.
    destruct (Component.prepare_partial_processing _ _ _ _) as [sp|e].
    2:{ injection Hrun as <- <-. eexists [_]. simpl.
        split; [done|]. split; [done|]. split; [done|]. split; [done|].
        simpl. lia. }
    destruct (Component.train _ _ _ _ _) as [[[sT td'] u]|e].
    2:{ injection Hrun as <- <-. eexists [_; _]. simpl.
        split; [by rewrite <- app_assoc|]. split; [by rewrite length_insert|].
        split; [simpl; apply drop_insert_lt; lia|]. split; [done|].
        simpl. lia. }
    apply IH in Hrun as (evs & Htrace & Hlen' & Hdrop & Hheap & Hr);
      [|simpl; rewrite length_insert; lia].
    simpl in Htrace, Hlen', Hdrop, Hheap.
    eexists (_ :: _ :: evs). split; [|split; [|split; [|split]]].
    + rewrite Htrace. by rewrite <- !app_assoc.
    + by rewrite Hlen', length_insert.
    + simpl. replace (i + S (length (prepared evs)))
        with (S (i + length (prepared evs))) by lia.
      rewrite Hdrop. apply drop_insert_lt. lia.
    + intros l Hl. apply Hheap.
      destruct (decide (wd = l)) as [->|Hne].
      * rewrite lookup_insert_eq. by eexists.
      * by rewrite lookup_insert_ne.
    + simpl. destruct r; lia.
Qed.

(** Every run of [train], by what it leaves in the trainer and the heap. *)
Lemma train_leaves va data s :
  let run := Trainer.train methods va data s in
  let new := new_events (Trainer.env s) (Trainer.env run.2) in
  let wd := fresh (dom (heap (Trainer.env s))) in
  length (Trainer.pipeline (Trainer.self run.2))
    = length (Trainer.pipeline (Trainer.self s))
  ∧ drop (length (prepared new)) (Trainer.pipeline (Trainer.self run.2))
    = drop (length (prepared new)) (Trainer.pipeline (Trainer.self s))
  ∧ length (prepared new) ≤ length (Trainer.pipeline (Trainer.self s))
  ∧ (is_ok run.1 →
       length (prepared new) = length (Trainer.pipeline (Trainer.self s)))
  ∧ (∀ l, is_Some (heap (Trainer.env s) !! l) →
          is_Some (heap (Trainer.env run.2) !! l))
  ∧ (∀ l, l ≠ wd → heap (Trainer.env run.2) !! l = heap (Trainer.env s) !! l)
  ∧ (working_copies new = []
     ∨ working_copies new = [wd] ∧ is_Some (heap (Trainer.env run.2) !! wd)).
Proof.
  intros run new wd. subst run new.
  destruct (Trainer.train methods va data s) as [r s'] eqn:Hrun.
  pose proof Hrun as Hshape. apply train_run in Hshape.
  rewrite train_eq in Hrun. cbv zeta in Hrun.
  destruct (Trainer.provide_context_loop methods _ ∅ (Trainer.env s))
    as [[ctx0|e] w1] eqn:Hprovide;
    apply provide_context_loop_run in Hprovide as (n & -> & Hp).
  2:{ injection Hrun as <- <-. unfold new_events. simpl.
      rewrite drop_app_length.
      destruct (provide_events_prefix_quiet n (Trainer.pipeline (Trainer.self s)))
        as [-> ->].
      simpl. split_and!; first [done | lia | by left]. }
  destruct Hp as [-> _].
  rewrite take_ge in Hrun by (unfold provide_events; by rewrite length_fmap).
  destruct (provide_events_prefix_quiet
              (length (Trainer.pipeline (Trainer.self s)))
              (Trainer.pipeline (Trainer.self s))) as [Hq1 Hq2].
  rewrite take_ge in Hq1, Hq2 by (unfold provide_events; by rewrite length_fmap).
  set (pl := Trainer.pipeline (Trainer.self s)) in *.
  set (validated := if Trainer.skip_validation (Trainer.self s) then _ else _) in Hrun.
  assert (Hval : ∃ evs0, validated.2 = add_events evs0 (Trainer.env s)
                         ∧ prepared evs0 = [] ∧ working_copies evs0 = []).
  { subst validated. destruct (Trainer.skip_validation (Trainer.self s)).
    - exists (provide_events methods pl). by repeat split.
    - eexists (provide_events methods pl ++ [_]). simpl.
      rewrite log_event_add, add_events_app, prepared_app, working_copies_app.
      rewrite Hq1, Hq2. by repeat split. }
  destruct Hval as (evs0 & Hw2 & Hp0 & Hc0).
  destruct validated as [[[]|e] w2]; simpl in Hw2; subst w2.
  2:{ injection Hrun as <- <-. unfold new_events. simpl.
      rewrite drop_app_length, Hp0, Hc0.
      simpl. split_and!; first [done | lia | by left]. }
  change (heap (add_events evs0 (Trainer.env s))) with (heap (Trainer.env s)) in Hrun.
  fold wd in Hrun.
  destruct (Trainer.train_loop methods wd _ ctx0 _) as [r0 s0] eqn:Hloop.
  assert (s0 = s') as -> by (by destruct r0; injection Hrun as _ <-).
  assert (Hr : is_ok r → is_ok r0) by (destruct r0; by injection Hrun as <-).
  pose proof Hloop as Hloop2.
  apply train_loop_untouched in Hloop
    as (evs & Htrace & Hlen & Hdrop & Hheap & Hcount); [|done].
  apply train_loop_run in Hloop2
    as (evs' & Henv & _ & _ & _ & Hframe & Hevs & _); [|done].
  simpl in Htrace, Hlen, Hdrop, Hheap, Hcount, Henv, Hframe.
  assert (evs' = evs) as ->.
  { rewrite Henv in Htrace. simpl in Htrace. by apply app_inv_head in Htrace. }
  assert (Hnew : new_events (Trainer.env s) (Trainer.env s')
                 = evs0 ++ EvDeepcopy data wd :: evs).
  { unfold new_events. rewrite Htrace. simpl.
    by rewrite <- !app_assoc, drop_app_length. }
  simpl. rewrite Hnew, prepared_app, working_copies_app, Hp0, Hc0.
  simpl. rewrite (loop_events_no_copy wd evs Hevs).
  split; [done|]. split; [done|]. split; [destruct r0; lia|].
  split; [intros Hok; destruct r0; [done|by destruct (Hr Hok)]|].
  split.
  { intros l Hl. apply Hheap.
    destruct (decide (wd = l)) as [->|Hne].
    - rewrite lookup_insert_eq. by eexists.
    - by rewrite lookup_insert_ne. }
  split.
  { intros l Hl. rewrite (Hframe l Hl). by rewrite lookup_insert_ne. }
  right. split; [done|]. apply Hheap. rewrite lookup_insert_eq. by eexists.
Qed.

End TrainFrame.

(** The schedule of a pipeline in two parts: the first part, then the
    second from what the first left, unless the first raised. *)
Lemma Schedule_run_app methods cfg pre rest :
  ∀ done ctx td rets,
    Schedule.run methods cfg (pre ++ rest) done ctx td rets =
    let first := Schedule.run methods cfg pre done ctx td rets in
    match Schedule.outcome first with
    | Ok ctx1 =>
        Schedule.run methods cfg rest (Schedule.pipeline first) ctx1
          (Schedule.working_data first) (Schedule.returned first)
    | Raise e =>
        Schedule.mk (Raise e) (Schedule.pipeline first ++ rest)
          (Schedule.working_data first) (Schedule.returned first)
    end.
Proof.
  induction pre as [|c pre IH]; intros dn ctx td rets; [reflexivity|].
  simpl.
  destruct (Component.prepare_partial_processing _ _ _ _) as [sp|e].
  2:{ simpl. by rewrite <- app_assoc. }
  destruct (Component.train _ _ _ _ _) as [[[sT td'] u]|e].
  2:{ simpl. by rewrite <- app_assoc. }
  apply IH.
Qed.

(** A schedule keeps the number of components. *)
Lemma Schedule_run_length methods cfg todo :
  ∀ done ctx td rets,
    length (Schedule.pipeline (Schedule.run methods cfg todo done ctx td rets))
    = length done + length todo.
Proof.
  induction todo as [|c todo IH]; intros dn ctx td rets; simpl; [lia|].
  destruct (Component.prepare_partial_processing _ _ _ _) as [sp|e].
  2:{ simpl. by rewrite length_app. }
  destruct (Component.train _ _ _ _ _) as [[[sT td'] u]|e].
  2:{ simpl. by rewrite length_app. }
  rewrite IH, length_app. simpl. lia.
Qed.

(** X7. [train] does not roll back. A run whose [provide_context] calls
    return and whose validation passes ends as the training schedule says:
    with its outcome, its pipeline, its working copy and its returned
    values. So when the components before some component [c] train, and [c]
    raises in [prepare_partial_processing] or in [train], [train] raises
    that exception and the trainer keeps what was done: the components
    before [c] are the objects their [train] returned, [c] is the object
    [prepare_partial_processing] returned (or [c] itself when that call
    raised), the components after [c] are untouched, the working copy is as
    the last [train] that returned left it, and the trainer holds the
    corpus it was given. In every such run the number of components stays
    the same, and the components after the last one prepared are as
    before. *)
Theorem Trainer_train_no_rollback
    (methods : string → Component.Class)
    (validate_arguments : list Component.t → dict → result unit)
    (data : loc) (s : Trainer.state) :
  let pl := Trainer.pipeline (Trainer.self s) in
  let cfg := Trainer.config (Trainer.self s) in
  let ctx0 := foldl merge_updates ∅ (provided_updates methods pl) in
  let wd := fresh (dom (heap (Trainer.env s))) in
  let run := Trainer.train methods validate_arguments data s in
  let new := new_events (Trainer.env s) (Trainer.env run.2) in
  let reached := length (prepared new) in
  let schedule :=
    Schedule.run methods cfg pl [] ctx0 (deref data (Trainer.env s)) [] in
  Forall (λ c, is_ok (Component.provide_context (class_of methods c)
                        (Component.self c))) pl →
  (Trainer.skip_validation (Trainer.self s) = true
   ∨ validate_arguments pl ctx0 = Ok tt) →
  train_outcome run.1 = Schedule.outcome schedule
  ∧ Trainer.pipeline (Trainer.self run.2) = Schedule.pipeline schedule
  ∧ deref wd (Trainer.env run.2) = Schedule.working_data schedule
  ∧ train_returns new = Schedule.returned schedule
  ∧ Trainer.training_data (Trainer.self run.2) = Some data
  ∧ (∀ pre c post ctx1 trained td1 returned e,
       pl = pre ++ c :: post →
       Schedule.run methods cfg pre [] ctx0 (deref data (Trainer.env s)) []
         = Schedule.mk (Ok ctx1) trained td1 returned →
       length trained = length pre
       ∧ (Component.prepare_partial_processing (class_of methods c)
            (Component.self c) trained ctx1 = Raise e →
          run.1 = Raise e
          ∧ Trainer.pipeline (Trainer.self run.2) = trained ++ c :: post
          ∧ deref wd (Trainer.env run.2) = td1)
       ∧ (∀ prepared,
            Component.prepare_partial_processing (class_of methods c)
              (Component.self c) trained ctx1 = Ok prepared →
            Component.train (class_of methods c) prepared td1 cfg ctx1
              = Raise e →
            run.1 = Raise e
            ∧ Trainer.pipeline (Trainer.self run.2)
              = trained ++ Component.with_self c prepared :: post
            ∧ deref wd (Trainer.env run.2) = td1))
  ∧ length (Trainer.pipeline (Trainer.self run.2)) = length pl
  ∧ reached ≤ length pl
  ∧ drop reached (Trainer.pipeline (Trainer.self run.2)) = drop reached pl
  ∧ (is_ok run.1 → reached = length pl).
Proof.
  intros pl cfg ctx0 wd run new reached schedule Hprovide Hvalid.
  destruct (train_leaves methods validate_arguments data s)
    as (Hlen & Hdrop & Hle & Hok & _).
  destruct (Trainer.train methods validate_arguments data s) as [r s'] eqn:Hrun.
  destruct (train_refines methods _ _ _ _ _ Hrun Hprovide Hvalid)
    as (evs & Htrace & Hdata & Hrefines).
  fold pl cfg in Hrefines. fold ctx0 in Hrefines. fold wd in Hrefines.
  fold schedule in Hrefines.
  assert (Hreturned : train_returns new = train_returns evs).
  { subst new run. unfold new_events. simpl. rewrite Htrace, drop_app_length.
    unfold train_returns. rewrite !omap_app.
    destruct (provide_events_no_train methods pl) as (Hpr & _).
    unfold train_returns in Hpr. fold pl. rewrite Hpr.
    by destruct (Trainer.skip_validation (Trainer.self s)). }
  assert (Hraise : ∀ e, train_outcome r = Raise e → r = Raise e).
  { intros e. destruct r; [done|]. simpl. by intros [= ->]. }
  subst run. simpl in *.
  split; [by rewrite Hrefines|]. split; [by rewrite Hrefines|].
  split; [by rewrite Hrefines|]. split; [by rewrite Hreturned, Hrefines|].
  split; [done|]. split; [|by split_and!].
  intros pre c post ctx1 trained td1 returned e Hsplit Hpre.
  pose proof (Schedule_run_length methods cfg pre [] ctx0
                (deref data (Trainer.env s)) []) as Hpl.
  rewrite Hpre in Hpl. simpl in Hpl.
  split; [done|].
  assert (Hwhole : schedule =
    Schedule.run methods cfg (c :: post) trained ctx1 td1 returned).
  { subst schedule. rewrite Hsplit, Schedule_run_app. cbv zeta.
    by rewrite Hpre. }
  rewrite Hwhole in Hrefines. simpl in Hrefines. split.
  - intros Hprep. rewrite Hprep in Hrefines.
    injection Hrefines as Hr Hpipe Htd _.
    split; [by apply Hraise|]. by split.
  - intros sp Hprep Htrain. rewrite Hprep, Htrain in Hrefines.
    injection Hrefines as Hr Hpipe Htd _.
    split; [by apply Hraise|]. by split.
Qed.

(** X8. [train] can be called again on the same corpus: each call that
    reaches the training loop works on a copy of its own. After two
    consecutive calls the caller's corpus is as it was before the first,
    the two copies are different objects, neither is the caller's, and the
    second call left the first copy as the first call left it. *)
Theorem Trainer_train_twice_fresh_copies
    (methods : string → Component.Class)
    (validate_arguments : list Component.t → dict → result unit)
    (data : loc) (s : Trainer.state) :
  is_Some (heap (Trainer.env s) !! data) →
  let run1 := Trainer.train methods validate_arguments data s in
  let run2 := Trainer.train methods validate_arguments data run1.2 in
  heap (Trainer.env run2.2) !! data = heap (Trainer.env s) !! data
  ∧ ∀ wd1 wd2,
      wd1 ∈ working_copies (new_events (Trainer.env s) (Trainer.env run1.2)) →
      wd2 ∈ working_copies (new_events (Trainer.env run1.2) (Trainer.env run2.2)) →
      wd1 ≠ wd2 ∧ wd1 ≠ data ∧ wd2 ≠ data
      ∧ heap (Trainer.env run2.2) !! wd1 = heap (Trainer.env run1.2) !! wd1.
Proof.
  intros Hdata run1 run2.
  destruct (train_leaves methods validate_arguments data s)
    as (_ & _ & _ & _ & Hmono1 & Hframe1 & Hcopy1).
  destruct (train_leaves methods validate_arguments data run1.2)
    as (_ & _ & _ & _ & _ & Hframe2 & Hcopy2).
  fold run1 in Hmono1, Hframe1, Hcopy1, Hframe2, Hcopy2. fold run2 in Hframe2, Hcopy2.
  set (f1 := fresh (dom (heap (Trainer.env s)))) in *.
  set (f2 := fresh (dom (heap (Trainer.env run1.2)))) in *.
  assert (Hf1 : f1 ≠ data).
  { intros Heq. apply elem_of_dom in Hdata. rewrite <- Heq in Hdata.
    by apply is_fresh in Hdata. }
  assert (Hdata1 : is_Some (heap (Trainer.env run1.2) !! data)) by by apply Hmono1.
  assert (Hf2 : f2 ≠ data).
  { intros Heq. apply elem_of_dom in Hdata1. rewrite <- Heq in Hdata1.
    by apply is_fresh in Hdata1. }
  split.
  { rewrite Hframe2 by done. by apply Hframe1. }
  intros wd1 wd2 Hwd1 Hwd2.
  destruct Hcopy1 as [Hnone|[Hone Hsome]];
    [rewrite Hnone in Hwd1; by apply elem_of_nil in Hwd1|].
  destruct Hcopy2 as [Hnone|[Htwo _]];
    [rewrite Hnone in Hwd2; by apply elem_of_nil in Hwd2|].
  rewrite Hone in Hwd1. rewrite Htwo in Hwd2.
  apply list_elem_of_singleton in Hwd1 as ->.
  apply list_elem_of_singleton in Hwd2 as ->.
  assert (Hne : f1 ≠ f2).
  { intros Heq. apply elem_of_dom in Hsome. rewrite Heq in Hsome.
    by apply is_fresh in Hsome. }
  repeat split; [done|done|done|]. by apply Hframe2.
Qed.

(** ** Trainer.persist: failures and directory names *)

Section PersistFailures.
Variable methods : string → Component.Class.
Variable TrainingData_persist : pyval → string → result dict.
Variable TrainingData_bool : pyval → bool.

Lemma persist_loop_raise pre c post dir e :
  Forall (λ c, is_ok (Component.persist (class_of methods c)
                        (Component.self c) dir)) pre →
  Component.persist (class_of methods c) (Component.self c) dir = Raise e →
  ∀ md w,
    Trainer.persist_loop methods (pre ++ c :: post) dir md w =
    (Raise e, add_events (persist_events methods (pre ++ [c]) dir) w).
Proof.
  intros Hpre Hc. induction Hpre as [|c' pre Hc' _ IH]; intros md w.
  - simpl. unfold bind, call_persist, bind, log, modify, of_result.
    by rewrite Hc.
  - simpl. unfold bind, call_persist, bind, log, modify, of_result.
    destruct (Component.persist (class_of methods c') (Component.self c') dir)
      as [u|e']; [|done].
    rewrite IH. simpl. by rewrite log_event_add, add_events_app.
Qed.

(** [persist] up to the loop over the components: the directory is created
    and the corpus, when there is one, contributes its mapping. *)
Lemma persist_corpus_phase self dir w :
  (∀ data, Trainer.training_data self = Some data →
           TrainingData_bool (deref data w) = true →
           is_ok (TrainingData_persist (deref data w) dir)) →
  (match Trainer.training_data self with
   | Some data =>
       td <-- gets (deref data) ;;
       (if TrainingData_bool td
        then update <-- Trainer.call_data_persist TrainingData_persist data dir ;;
             ret (dict_update (Trainer.base_metadata self) update)
        else ret (Trainer.base_metadata self))
   | None => ret (Trainer.base_metadata self)
   end) (log_event (EvCreateDir dir) w)
  = (Ok (corpus_merged TrainingData_persist TrainingData_bool self w dir),
     add_events (EvCreateDir dir :: corpus_events TrainingData_bool self w dir) w).
Proof.
  intros Hcorpus. unfold corpus_merged, corpus_updates, corpus_events.
  destruct (Trainer.training_data self) as [data|] eqn:Htd; [|done].
  unfold bind at 1. unfold gets at 1.
  change (deref data (log_event (EvCreateDir dir) w)) with (deref data w).
  destruct (TrainingData_bool (deref data w)) eqn:Hb; [|done].
  specialize (Hcorpus data eq_refl Hb).
  unfold bind, Trainer.call_data_persist, bind, log, modify, gets, of_result, ret.
  change (deref data (log_event (EvDataPersist data dir)
                        (log_event (EvCreateDir dir) w)))
    with (deref data w).
  destruct (TrainingData_persist (deref data w) dir); [|done].
  f_equal. unfold add_events, log_event. simpl. by rewrite <- app_assoc.
Qed.

Lemma persist_unfold self path persistor project_name fixed_model_name w :
  let dir := persist_dir_name path project_name fixed_model_name (clock w) in
  let model_name :=
    if str_truthy fixed_model_name then default "" fixed_model_name
    else "model_" +:+ clock w in
  Trainer.persist methods TrainingData_persist TrainingData_bool
    self path persistor project_name fixed_model_name w =
  (metadata <--
     (match Trainer.training_data self with
      | Some data =>
          td <-- gets (deref data) ;;
          (if TrainingData_bool td
           then update <-- Trainer.call_data_persist TrainingData_persist data dir ;;
                ret (dict_update (Trainer.base_metadata self) update)
           else ret (Trainer.base_metadata self))
      | None => ret (Trainer.base_metadata self)
      end) ;;
   metadata <-- Trainer.persist_loop methods (Trainer.pipeline self) dir metadata ;;
   _ <-- Metadata_io.persist (Metadata.mk metadata dir) dir ;;
   _ <-- match persistor with
         | Some p =>
             Trainer.call_persistor p dir model_name
               (default "default" project_name)
         | None => ret tt
         end ;;
   ret dir) (log_event (EvCreateDir dir) w).
Proof. reflexivity. Qed.

End PersistFailures.

(** X9. When the [persist] of a component raises, after the corpus and the
    components before it persisted, [Trainer.persist] raises the same
    exception: the directory was created and the earlier components wrote
    their artifacts, but no metadata is written (the disk's metadata files
    are as before), the components after it are not asked to persist and
    the persistor is not called. *)
Theorem Trainer_persist_component_failure
    (methods : string → Component.Class)
    (TrainingData_persist : pyval → string → result dict)
    (TrainingData_bool : pyval → bool)
    (self : Trainer.t) (path : string) (persistor : option Persistor)
    (project_name fixed_model_name : option string) (w : world)
    (pre post : list Component.t) (c : Component.t) (e : exn) :
  let dir := persist_dir_name path project_name fixed_model_name (clock w) in
  Trainer.pipeline self = pre ++ c :: post →
  (∀ data, Trainer.training_data self = Some data →
           TrainingData_bool (deref data w) = true →
           is_ok (TrainingData_persist (deref data w) dir)) →
  Forall (λ c, is_ok (Component.persist (class_of methods c)
                        (Component.self c) dir)) pre →
  Component.persist (class_of methods c) (Component.self c) dir = Raise e →
  Trainer.persist methods TrainingData_persist TrainingData_bool
    self path persistor project_name fixed_model_name w
  = (Raise e,
     add_events
       (EvCreateDir dir
        :: corpus_events TrainingData_bool self w dir
        ++ persist_events methods (pre ++ [c]) dir) w).
Proof.
  intros dir Hsplit Hcorpus Hpre Hc.
  rewrite persist_unfold. cbv zeta. fold dir.
  unfold bind at 1. rewrite (persist_corpus_phase _ _ _ _ _ Hcorpus).
  unfold bind at 1. rewrite Hsplit.
  rewrite (persist_loop_raise _ _ _ _ _ _ Hpre Hc).
  rewrite add_events_app. simpl. by rewrite <- ?app_assoc.
Qed.

(** X10. When the corpus and every component persisted, the metadata is
    written in the directory and then the persistor, if there is one, is
    called: once, as the last call of the run, with the directory, the
    model name and the project name (["default"] when none is given).
    [Trainer.persist] returns the directory when the persistor returns, and
    raises the persistor's exception when it raises, although the metadata
    is already written. Without a persistor no such call is made, the
    writing of the metadata is the last call and the directory is
    returned. *)
Theorem Trainer_persist_calls_persistor_last
    (methods : string → Component.Class)
    (TrainingData_persist : pyval → string → result dict)
    (TrainingData_bool : pyval → bool)
    (self : Trainer.t) (path : string) (persistor : option Persistor)
    (project_name fixed_model_name : option string) (w : world) :
  let dir := persist_dir_name path project_name fixed_model_name (clock w) in
  let model_name :=
    if str_truthy fixed_model_name then default "" fixed_model_name
    else "model_" +:+ clock w in
  let meta :=
    foldl merge_updates
      (corpus_merged TrainingData_persist TrainingData_bool self w dir)
      (persisted_updates methods (Trainer.pipeline self) dir) in
  let run := Trainer.persist methods TrainingData_persist TrainingData_bool
               self path persistor project_name fixed_model_name w in
  (∀ data, Trainer.training_data self = Some data →
           TrainingData_bool (deref data w) = true →
           is_ok (TrainingData_persist (deref data w) dir)) →
  Forall (λ c, is_ok (Component.persist (class_of methods c)
                        (Component.self c) dir)) (Trainer.pipeline self) →
  run.1 = match persistor with
          | Some p =>
              match persistor_persist p dir model_name
                      (default "default" project_name) with
              | Ok _ => Ok dir
              | Raise e => Raise e
              end
          | None => Ok dir
          end
  ∧ disk run.2 !! dir = Some meta
  ∧ persistor_calls (new_events w run.2)
    = match persistor with
      | Some _ => [(dir, model_name, default "default" project_name)]
      | None => []
      end
  ∧ last (trace run.2)
    = Some (match persistor with
            | Some _ => EvPersistor dir model_name (default "default" project_name)
            | None => EvMetadataPersist (Metadata.mk meta dir) dir
            end).
Proof.
  intros dir model_name meta run Hcorpus Hcomp.
  set (outcome := match persistor with
                  | Some p =>
                      match persistor_persist p dir model_name
                              (default "default" project_name) with
                      | Ok _ => Ok dir
                      | Raise e => Raise e
                      end
                  | None => Ok dir
                  end).
  assert (Hrun : run =
    (outcome,
     add_events
       (match persistor with
        | Some _ => [EvPersistor dir model_name (default "default" project_name)]
        | None => []
        end)
       (set_disk (<[dir := meta]> (disk w))
          (add_events
             (EvCreateDir dir
              :: corpus_events TrainingData_bool self w dir
              ++ persist_events methods (Trainer.pipeline self) dir
              ++ [EvMetadataPersist (Metadata.mk meta dir) dir]) w)))).
  { subst run outcome. rewrite persist_unfold. cbv zeta. fold dir model_name.
    unfold bind at 1. rewrite (persist_corpus_phase _ _ _ _ _ Hcorpus).
    unfold bind at 1. rewrite (persist_loop_ok _ _ _ Hcomp). fold meta.
    unfold bind at 1, Metadata_io.persist, bind, log, modify. simpl.
    destruct persistor as [p|].
    - unfold Trainer.call_persistor, bind, log, modify, of_result.
      destruct (persistor_persist p dir model_name
                  (default "default" project_name)) as [[]|e];
        (f_equal; unfold add_events, set_disk, log_event; simpl;
         rewrite <- !app_assoc; simpl; by rewrite <- !app_assoc).
    - unfold ret. f_equal. unfold add_events, set_disk, log_event. simpl.
      rewrite <- !app_assoc. simpl. by rewrite <- !app_assoc, app_nil_r. }
  rewrite Hrun. simpl.
  split; [done|]. split; [by rewrite lookup_insert_eq|].
  assert (Hc : omap (λ e, match e with
                          | EvPersistor d m p => Some (d, m, p)
                          | _ => None
                          end)
                 (corpus_events TrainingData_bool self w dir) = []).
  { unfold corpus_events. destruct (Trainer.training_data self); [|done].
    by destruct (TrainingData_bool _). }
  assert (Hpe : ∀ cs, omap (λ e, match e with
                                 | EvPersistor d m p => Some (d, m, p)
                                 | _ => None
                                 end)
                        (persist_events methods cs dir) = []).
  { induction cs as [|c' cs IH]; [done|]. simpl. exact IH. }
  split.
  - unfold new_events. simpl. rewrite <- !app_assoc, drop_app_length.
    unfold persistor_calls. simpl. rewrite !omap_app. simpl.
    rewrite Hc, Hpe. by destruct persistor.
  - destruct persistor; simpl.
    + by rewrite last_snoc.
    + rewrite app_nil_r, !app_comm_cons, !app_assoc. by rewrite last_snoc.
Qed.

Lemma string_app_inv_head (s a b : string) : s +:+ a = s +:+ b → a = b.
Proof.
  induction s as [|c s IH]; simpl; intros H; [done|].
  injection H as H. by apply IH.
Qed.

(** The timestamped directory name determines the timestamp. *)
Lemma persist_dir_name_timestamp path project_name fixed_model_name t1 t2 :
  str_truthy fixed_model_name = false →
  persist_dir_name path project_name fixed_model_name t1
  = persist_dir_name path project_name fixed_model_name t2 →
  t1 = t2.
Proof.
  intros Hfixed. unfold persist_dir_name, os_path_join. rewrite Hfixed.
  simpl foldl. generalize (path_join1 path (default "default" project_name)).
  intros x. unfold path_join1.
  change (starts_with_slash ("model_" +:+ t1)) with false.
  change (starts_with_slash ("model_" +:+ t2)) with false.
  destruct (String.eqb x "" || ends_with_slash x); intros H;
    apply string_app_inv_head in H; simpl in H; by simplify_eq.
Qed.

(** A run of [persist] that returns: the value returned is the directory
    computed from the arguments and the clock, and the disk differs from
    the one before by the metadata file of that directory. *)
Lemma persist_returns methods tdp tdb self path persistor project_name
    fixed_model_name w d w' :
  Trainer.persist methods tdp tdb self path persistor project_name
    fixed_model_name w = (Ok d, w') →
  d = persist_dir_name path project_name fixed_model_name (clock w)
  ∧ ∃ meta, disk w' = <[d := meta]> (disk w).
Proof.
  rewrite persist_unfold. cbv zeta. intros H.
  apply bind_inv_ok in H as (md0 & wa & Ha & H).
  apply bind_inv_ok in H as (md1 & wb & Hb & H).
  apply bind_inv_ok in H as ([] & wc & Hmeta & H).
  apply bind_inv_ok in H as ([] & wd & Hp & H).
  injection H as <- <-. split; [done|].
  unfold Metadata_io.persist, bind, log, modify in Hmeta.
  injection Hmeta as <-.
  assert (Hdisk_a : disk wa = disk w).
  { destruct (Trainer.training_data self) as [data|];
      [|by injection Ha as _ <-].
    unfold bind, gets in Ha.
    destruct (tdb _); [|by injection Ha as _ <-].
    unfold Trainer.call_data_persist, bind, log, modify, gets, of_result, ret in Ha.
    destruct (tdp _ _); by injection Ha as _ <-. }
  assert (Hdisk_b : ∀ cs md wa wb md',
            Trainer.persist_loop methods cs
              (persist_dir_name path project_name fixed_model_name (clock w))
              md wa = (Ok md', wb) → disk wb = disk wa).
  { clear. induction cs as [|c cs IH]; intros md wa wb md' Hl.
    - by injection Hl as _ <-.
    - simpl in Hl. apply bind_inv_ok in Hl as (u & w1 & Hc & Hl).
      apply IH in Hl as ->.
      unfold call_persist, bind, log, modify, of_result in Hc.
      by injection Hc as _ <-. }
  apply Hdisk_b in Hb. exists md1.
  destruct persistor as [p|].
  - unfold Trainer.call_persistor, bind, log, modify, of_result in Hp.
    injection Hp as _ <-. simpl. congruence.
  - injection Hp as <-. simpl. congruence.
Qed.

(** X2. The directory [Trainer.persist] returns holds the metadata it
    wrote. With a fixed model name, two runs with the same path and project
    return the same directory whatever the time. Without one (absent or
    empty), the directory is named after the clock's timestamp: two runs
    return the same directory exactly when their timestamps are equal.
    When the second run starts from the disk the first one left, the first
    metadata file is kept if the directories differ and replaced if they
    are the same. *)
Theorem Trainer_persist_directory_names
    (methods : string → Component.Class)
    (TrainingData_persist : pyval → string → result dict)
    (TrainingData_bool : pyval → bool)
    (self1 self2 : Trainer.t) (path : string)
    (persistor1 persistor2 : option Persistor)
    (project_name fixed_model_name : option string)
    (w1 w2 w1' w2' : world) (d1 d2 : string) :
  Trainer.persist methods TrainingData_persist TrainingData_bool
    self1 path persistor1 project_name fixed_model_name w1 = (Ok d1, w1') →
  Trainer.persist methods TrainingData_persist TrainingData_bool
    self2 path persistor2 project_name fixed_model_name w2 = (Ok d2, w2') →
  is_Some (disk w1' !! d1) ∧ is_Some (disk w2' !! d2)
  ∧ (str_truthy fixed_model_name = true → d1 = d2)
  ∧ (str_truthy fixed_model_name = false → (d1 = d2 ↔ clock w1 = clock w2))
  ∧ (disk w2 = disk w1' →
       (d1 ≠ d2 → disk w2' !! d1 = disk w1' !! d1)
       ∧ (d1 = d2 → ∃ meta2, disk w2' = <[d1 := meta2]> (disk w1))).
Proof.
  intros H1 H2.
  apply persist_returns in H1 as (-> & meta1 & Hd1).
  apply persist_returns in H2 as (-> & meta2 & Hd2).
  split; [rewrite Hd1, lookup_insert_eq; by eexists|].
  split; [rewrite Hd2, lookup_insert_eq; by eexists|].
  split; [|split].
  - intros Hfixed. unfold persist_dir_name. by rewrite Hfixed.
  - intros Hfixed. split; [by apply persist_dir_name_timestamp|by intros ->].
  - intros Hdisk. split.
    + intros Hne. rewrite Hd2, lookup_insert_ne by done. by rewrite Hdisk.
    + intros Heq. exists meta2.
      by rewrite Hd2, Hdisk, Hd1, <- Heq, insert_insert_eq.
Qed.

(** ** Failures of [provide_context] in [train], and contexts after a load *)

Lemma provide_context_loop_raise methods pre c post e :
  Forall (λ c, is_ok (Component.provide_context (class_of methods c)
                        (Component.self c))) pre →
  Component.provide_context (class_of methods c) (Component.self c) = Raise e →
  ∀ ctx w,
    Trainer.provide_context_loop methods (pre ++ c :: post) ctx w =
    (Raise e, add_events (provide_events methods (pre ++ [c])) w).
Proof.
  intros Hpre Hc. induction Hpre as [|c' pre Hc' _ IH]; intros ctx w.
  - rewrite app_nil_l, provide_context_loop_cons. cbv zeta.
    unfold provide_events. simpl. by rewrite Hc.
  - rewrite <- !app_comm_cons, provide_context_loop_cons. cbv zeta.
    unfold provide_events. rewrite fmap_cons.
    destruct (Component.provide_context (class_of methods c') (Component.self c'))
      as [u|e']; [|done].
    rewrite IH. by rewrite log_event_add, add_events_app.
Qed.

(** X11. [train] has no handler around [provide_context]: when the
    [provide_context] of a component raises, after those of the components
    before it returned, [train] raises that very exception (a
    [MissingArgumentError] too: it is not wrapped as in
    [Interpreter.create]). Nothing else happened: the later components were
    not asked for their context, the validation did not run, the corpus was
    not copied, no component was prepared or trained; the trainer holds the
    corpus it was given and its pipeline as before. *)
Theorem Trainer_train_provide_context_failure
    (methods : string → Component.Class)
    (validate_arguments : list Component.t → dict → result unit)
    (data : loc) (s : Trainer.state)
    (pre post : list Component.t) (c : Component.t) (e : exn) :
  Trainer.pipeline (Trainer.self s) = pre ++ c :: post →
  Forall (λ c, is_ok (Component.provide_context (class_of methods c)
                        (Component.self c))) pre →
  Component.provide_context (class_of methods c) (Component.self c) = Raise e →
  Trainer.train methods validate_arguments data s
  = (Raise e,
     Trainer.mkState
       (Trainer.with_training_data (Trainer.self s) (Some data))
       (add_events (provide_events methods (pre ++ [c])) (Trainer.env s))).
Proof.
  intros Hsplit Hpre Hc. rewrite train_eq. cbv zeta.
  by rewrite Hsplit, (provide_context_loop_raise _ _ _ _ _ Hpre Hc).
Qed.

(** X12. The context survives persisting and loading when training adds
    nothing to it: if [train] returned an interpreter, no [train] of a
    component returned a non-empty mapping, and [Interpreter.create] loaded
    components whose [provide_context] values are those of the trainer's
    components, then the loaded interpreter has the context of the trained
    one. *)
Theorem loaded_context_matches_trained
    (methods : string → Component.Class) (default_builder : ComponentBuilder)
    (validate_arguments : list Component.t → dict → result unit)
    (validate_requirements : list pyval → result unit)
    (data : loc) (s s' : Trainer.state) (trained : Interpreter.t)
    (md : Metadata.t) (config : Config)
    (component_builder : option ComponentBuilder) (skip_valdation : bool)
    (w w' : world) (loaded : Interpreter.t) :
  Trainer.train methods validate_arguments data s = (Ok trained, s') →
  Interpreter.create methods default_builder validate_requirements
    md config component_builder skip_valdation w = (Ok loaded, w') →
  provided_updates methods (Interpreter.pipeline loaded)
    = provided_updates methods (Trainer.pipeline (Trainer.self s)) →
  Forall (λ u, truthy u = false)
    (train_returns (new_events (Trainer.env s) (Trainer.env s'))) →
  Interpreter.context loaded = Interpreter.context trained.
Proof.
  intros Htrain Hcreate Hsame Hquiet.
  apply train_run in Htrain
    as [(n & e & ev & [=] & _)|[(e & [=] & _)|(evs & Hrun)]].
  cbv zeta in Hrun.
  destruct Hrun as (_ & Henv & _ & _ & _ & _ & final & -> & Hsched).
  apply follows_schedule_contexts in Hsched as (-> & _ & _).
  assert (Hreturns : train_returns (new_events (Trainer.env s) (Trainer.env s'))
                     = train_returns evs).
  { unfold new_events. rewrite Henv. simpl. rewrite drop_app_length.
    destruct (provide_events_no_train methods (Trainer.pipeline (Trainer.self s)))
      as (Hpr & _).
    unfold train_returns in *. rewrite !omap_app, Hpr.
    by destruct (Trainer.skip_validation (Trainer.self s)). }
  rewrite Hreturns in Hquiet.
  simpl. rewrite foldl_merge_falsy by done.
  unfold Interpreter.create in Hcreate.
  apply bind_inv_ok in Hcreate as ([] & w1 & _ & Hcreate).
  apply bind_inv_ok in Hcreate as ([pl ctx] & w2 & Hloop & Hret).
  injection Hret as <- _.
  apply Interpreter_create_loop_contexts in Hloop
    as (cs & evs' & -> & _ & _ & -> & _).
  simpl in *. by rewrite Hsame.
Qed.

(** ** The message a pipeline hands on *)

Lemma process_messages_app evs1 evs2 :
  process_messages (evs1 ++ evs2) = process_messages evs1 ++ process_messages evs2.
Proof. apply omap_app. Qed.

Lemma process_loop_hands_on methods cs ctx :
  ∀ m w final w',
    Interpreter.process_loop methods cs m ctx w = (Ok final, w') →
    ∃ evs, w' = add_events evs w
           ∧ handed_on methods ctx cs m (process_messages evs) final.
Proof.
  induction cs as [|c cs IH]; intros m w final w' Hrun.
  - injection Hrun as <- <-. exists []. by rewrite add_events_nil.
  - simpl in Hrun. unfold bind in Hrun. rewrite call_process_eq in Hrun.
    destruct (Component.process (class_of methods c) (Component.self c) m ctx)
      as [m1|e] eqn:Hc; [|done].
    apply IH in Hrun as (evs & -> & Hchain).
    exists (EvProcess c m ctx :: evs).
    split; [by rewrite log_event_add, add_events_app|].
    simpl. by rewrite Hc.
Qed.

(** X6. In a run of [parse] of a non-empty text that returns, the message
    is handed from component to component: the first component receives the
    message built from the text, the time and the default output
    attributes, every other component receives the message its predecessor
    returned, and the result is the default attributes overlaid with the
    output properties of the message the last component returned. *)
Theorem Interpreter_parse_hands_message_on
    (methods : string → Component.Class) (self : Interpreter.t)
    (text : string) (time : option pyval) (w w' : world) (out : dict) :
  text ≠ "" →
  Interpreter.parse methods self (Some text) time w = (Ok out, w') →
  ∃ final,
    handed_on methods (Interpreter.context self) (Interpreter.pipeline self)
      (Message.init text Interpreter.default_output_attributes time)
      (process_messages (new_events w w')) final
    ∧ out = dict_update Interpreter.default_output_attributes
              (Message.as_dict final true).
Proof.
  intros Htext. unfold Interpreter.parse.
  assert (str_truthy (Some text) = true) as ->.
  { simpl. by apply negb_true_iff, String.eqb_neq. }
  simpl. intros Hrun.
  apply bind_inv_ok in Hrun as (final & w1 & Hloop & Hret).
  injection Hret as <- <-.
  apply process_loop_hands_on in Hloop as (evs & -> & Hchain).
  exists final. split; [|done].
  unfold new_events. simpl. by rewrite drop_app_length.
Qed.

(** ** The further properties on the stubs *)

Example stub_failed_training_is_not_rolled_back :
  let run := Trainer.train Stubs2.methods
               (Components.validate_arguments Stubs2.methods) Stubs.corpus
               (Trainer.mkState Stubs2.trainer_fragile Stubs.world0) in
  run.1 = Raise (OtherError "ValueError" "no training examples")
  ∧ Trainer.pipeline (Trainer.self run.2)
    = [Component.mk "stubs.A" (PyStr "trained");
       Component.mk "stubs.Fragile" (PyStr "prepared");
       Stubs.component_C]
  ∧ Trainer.training_data (Trainer.self run.2) = Some Stubs.corpus
  ∧ heap (Trainer.env run.2) !! Stubs.corpus = Some (PyList []).
Proof. cbv zeta. split; [|split; [|split]]; by_computation. Qed.

Lemma Interpreter_create_threads_context_witness :
  load_contexts (new_events Stubs.world0 Stubs2.created_ABC.2)
  = [∅; {[ "x" := PyInt 1 ]}; {[ "x" := PyInt 2; "y" := PyInt 3 ]}]
  ∧ Interpreter.context Stubs2.loaded_ABC
    = {[ "x" := PyInt 2; "y" := PyInt 3 ]}.
Proof.
  assert (Hrun : Interpreter.create Stubs.methods Stubs.builder
                   Stubs.validate_requirements Stubs2.metadata_ABC
                   Stubs.config_ABC None false Stubs.world0
                 = (Ok Stubs2.loaded_ABC, Stubs2.created_ABC.2))
    by by_computation.
  destruct (Interpreter_create_threads_context _ _ _ _ _ _ _ _ _ _ Hrun)
    as (_ & Hloads & Hctx & _).
  split.
  - etrans; [exact Hloads|]. by_computation.
  - etrans; [exact Hctx|]. by_computation.
Defined.

Lemma Interpreter_create_propagates_other_errors_witness :
  (Interpreter.create Stubs.methods Stubs.builder Stubs.validate_requirements
     Stubs2.metadata_unknown Stubs.config_ABC None false Stubs.world0).1
  = Raise (OtherError "Exception" "stubs.Unknown").
Proof.
  refine (proj1 (Interpreter_create_propagates_other_errors Stubs.methods
            Stubs.builder Stubs.validate_requirements Stubs2.metadata_unknown
            Stubs.config_ABC None false Stubs.world0
            [PyStr "stubs.A"] [PyStr "stubs.C"] (PyStr "stubs.Unknown")
            [Component.mk "stubs.A" (PyStr "loaded")]
            {[ "x" := PyInt 1 ]}
            (OtherError "Exception" "stubs.Unknown") _ _ _ _)).
  - reflexivity.
  - right. reflexivity.
  - by_computation.
  - left. reflexivity.
Defined.

Lemma Interpreter_parse_stops_at_first_error_witness :
  "hello" ≠ ""
  ∧ ∃ n,
      Component.cls <$>
        process_calls
          (new_events Stubs.world0
             (Interpreter.parse Stubs2.methods Stubs2.interpreter_fragile
                (Some "hello") None Stubs.world0).2)
      = take n ["stubs.A"; "stubs.Fragile"; "stubs.B"]
      ∧ n = 2.
Proof.
  assert (Htext : "hello" ≠ "") by discriminate.
  split; [exact Htext|].
  destruct (Interpreter_parse_stops_at_first_error Stubs2.methods
              Stubs2.interpreter_fragile "hello" None Stubs.world0 Htext)
    as (n & Hcalls & _ & _).
  exists n. split.
  - rewrite Hcalls. by rewrite fmap_take.
  - apply (f_equal length) in Hcalls. rewrite length_take in Hcalls.
    assert (Hl : length (process_calls
                   (new_events Stubs.world0
                      (Interpreter.parse Stubs2.methods Stubs2.interpreter_fragile
                         (Some "hello") None Stubs.world0).2)) = 2)
      by by_computation.
    rewrite Hl in Hcalls. simpl in Hcalls. lia.
Defined.

Lemma Trainer_train_no_rollback_witness :
  let run := Trainer.train Stubs2.methods
               (Components.validate_arguments Stubs2.methods) Stubs.corpus
               (Trainer.mkState Stubs2.trainer_fragile Stubs.world0) in
  run.1 = Raise (OtherError "ValueError" "no training examples")
  ∧ Trainer.pipeline (Trainer.self run.2)
    = [Component.mk "stubs.A" (PyStr "trained")]
      ++ Component.mk "stubs.Fragile" (PyStr "prepared") :: [Stubs.component_C]
  ∧ deref 2%positive (Trainer.env run.2) = PyList [PyStr "A"]
  ∧ Trainer.training_data (Trainer.self run.2) = Some Stubs.corpus.
Proof.
  cbv zeta.
  destruct (Trainer_train_no_rollback Stubs2.methods
              (Components.validate_arguments Stubs2.methods) Stubs.corpus
              (Trainer.mkState Stubs2.trainer_fragile Stubs.world0))
    as (_ & _ & _ & _ & Hdata & Hfail & _).
  { forall_members. }
  { left. reflexivity. }
  destruct (Hfail [Stubs.component_A] Stubs2.component_Fragile
              [Stubs.component_C] {[ "x" := PyInt 1 ]}
              [Component.mk "stubs.A" (PyStr "trained")]
              (PyList [PyStr "A"]) [None]
              (OtherError "ValueError" "no training examples"))
    as (_ & _ & Htrain).
  { reflexivity. }
  { by_computation. }
  destruct (Htrain (PyStr "prepared") eq_refl eq_refl)
    as (Hraise & Hpipeline & Hcopy).
  split; [exact Hraise|]. split; [exact Hpipeline|].
  split; [exact Hcopy|exact Hdata].
Defined.

Lemma Trainer_train_twice_fresh_copies_witness :
  is_Some (heap Stubs.world0 !! Stubs.corpus)
  ∧ let run2 := Trainer.train Stubs.methods
                  (Components.validate_arguments Stubs.methods) Stubs.corpus
                  Stubs.trained_ABC in
    heap (Trainer.env run2.2) !! Stubs.corpus = Some (PyList [])
    ∧ working_copies (trace (Trainer.env run2.2)) = [2%positive; 3%positive].
Proof.
  assert (Hdata : is_Some (heap Stubs.world0 !! Stubs.corpus))
    by (eexists; reflexivity).
  split; [exact Hdata|]. cbv zeta.
  destruct (Trainer_train_twice_fresh_copies Stubs.methods
              (Components.validate_arguments Stubs.methods) Stubs.corpus
              (Trainer.mkState Stubs.trainer_ABC Stubs.world0) Hdata)
    as (Hsame & _).
  split; [|by_computation].
  etrans; [exact Hsame|]. reflexivity.
Defined.

Lemma Trainer_persist_component_failure_witness :
  (Trainer.persist Stubs2.methods Stubs.TrainingData_persist
     Stubs.TrainingData_bool Stubs2.trainer_fragile "models" None None
     (Some "m") Stubs.world0).1
  = Raise (OtherError "IOError" "disk full")
  ∧ disk (Trainer.persist Stubs2.methods Stubs.TrainingData_persist
            Stubs.TrainingData_bool Stubs2.trainer_fragile "models" None None
            (Some "m") Stubs.world0).2 = ∅.
Proof.
  rewrite (Trainer_persist_component_failure Stubs2.methods
             Stubs.TrainingData_persist Stubs.TrainingData_bool
             Stubs2.trainer_fragile "models" None None (Some "m") Stubs.world0
             [Stubs.component_A] [Stubs.component_C] Stubs2.component_Fragile
             (OtherError "IOError" "disk full")).
  - split; reflexivity.
  - reflexivity.
  - intros data Hdata. discriminate Hdata.
  - forall_members.
  - reflexivity.
Defined.

Lemma Trainer_persist_calls_persistor_last_witness :
  let failed := Trainer.persist Stubs.methods Stubs.TrainingData_persist
               Stubs.TrainingData_bool (Trainer.self Stubs.trained_ABC) "models"
               (Some Stubs2.persistor_offline) None (Some "m")
               (Trainer.env Stubs.trained_ABC) in
  let uploaded := Trainer.persist Stubs.methods Stubs.TrainingData_persist
               Stubs.TrainingData_bool (Trainer.self Stubs.trained_ABC) "models"
               (Some Stubs3.persistor_online) None (Some "m")
               (Trainer.env Stubs.trained_ABC) in
  let kept := Trainer.persist Stubs.methods Stubs.TrainingData_persist
               Stubs.TrainingData_bool (Trainer.self Stubs.trained_ABC) "models"
               None None (Some "m") (Trainer.env Stubs.trained_ABC) in
  failed.1 = Raise (OtherError "IOError" "upload failed")
  ∧ is_Some (disk failed.2 !! "models/default/m")
  ∧ uploaded.1 = Ok "models/default/m"
  ∧ persistor_calls (new_events (Trainer.env Stubs.trained_ABC) uploaded.2)
    = [("models/default/m", "m", "default")]
  ∧ last (trace uploaded.2) = Some (EvPersistor "models/default/m" "m" "default")
  ∧ kept.1 = Ok "models/default/m"
  ∧ persistor_calls (new_events (Trainer.env Stubs.trained_ABC) kept.2) = [].
Proof.
  cbv zeta.
  destruct (Trainer_persist_calls_persistor_last Stubs.methods
              Stubs.TrainingData_persist Stubs.TrainingData_bool
              (Trainer.self Stubs.trained_ABC) "models"
              (Some Stubs2.persistor_offline)
              None (Some "m") (Trainer.env Stubs.trained_ABC))
    as (Hraise & Hdisk & _).
  { intros data _ _. exact I. }
  { forall_members. }
  destruct (Trainer_persist_calls_persistor_last Stubs.methods
              Stubs.TrainingData_persist Stubs.TrainingData_bool
              (Trainer.self Stubs.trained_ABC) "models"
              (Some Stubs3.persistor_online)
              None (Some "m") (Trainer.env Stubs.trained_ABC))
    as (Hreturn & _ & Hcalls & Hlast).
  { intros data _ _. exact I. }
  { forall_members. }
  destruct (Trainer_persist_calls_persistor_last Stubs.methods
              Stubs.TrainingData_persist Stubs.TrainingData_bool
              (Trainer.self Stubs.trained_ABC) "models" None
              None (Some "m") (Trainer.env Stubs.trained_ABC))
    as (Hkept & _ & Hnone & _).
  { intros data _ _. exact I. }
  { forall_members. }
  split; [exact Hraise|]. split; [eexists; exact Hdisk|].
  split; [exact Hreturn|]. split; [exact Hcalls|]. split; [exact Hlast|].
  split; [exact Hkept|exact Hnone].
Defined.

Lemma Trainer_persist_directory_names_witness :
  Stubs2.persisted_first.1 = Ok "models/default/model_20170101-120000"
  ∧ Stubs2.persisted_second.1 = Ok "models/default/model_20170101-120001"
  ∧ disk Stubs2.persisted_second.2 !! "models/default/model_20170101-120000"
    = disk Stubs2.persisted_first.2 !! "models/default/model_20170101-120000".
Proof.
  assert (H1 : Trainer.persist Stubs.methods Stubs.TrainingData_persist
                 Stubs.TrainingData_bool Stubs.trainer_ABC "models" None None
                 None Stubs.world0
               = (Ok "models/default/model_20170101-120000",
                  Stubs2.persisted_first.2)) by by_computation.
  assert (H2 : Trainer.persist Stubs.methods Stubs.TrainingData_persist
                 Stubs.TrainingData_bool Stubs.trainer_ABC "models" None None
                 None (at_time "20170101-120001" Stubs2.persisted_first.2)
               = (Ok "models/default/model_20170101-120001",
                  Stubs2.persisted_second.2)) by by_computation.
  destruct (Trainer_persist_directory_names _ _ _ _ _ _ _ _ _ _ _ _ _ _ _ _
              H1 H2) as (_ & _ & _ & Hiff & Hdisk).
  split; [by_computation|]. split; [by_computation|].
  apply (Hdisk eq_refl). intros Heq.
  apply (proj1 (Hiff eq_refl)) in Heq. discriminate Heq.
Defined.

Lemma Trainer_train_provide_context_failure_witness :
  (Trainer.train Stubs.methods (Components.validate_arguments Stubs.methods)
     Stubs.corpus (Trainer.mkState Stubs2.trainer_broken Stubs.world0)).1
  = Raise (MissingArgumentError "spacy_nlp").
Proof.
  rewrite (Trainer_train_provide_context_failure Stubs.methods
             (Components.validate_arguments Stubs.methods) Stubs.corpus
             (Trainer.mkState Stubs2.trainer_broken Stubs.world0)
             [Stubs.component_A] [Stubs.component_C] Stubs2.component_Broken
             (MissingArgumentError "spacy_nlp")).
  - reflexivity.
  - reflexivity.
  - forall_members.
  - reflexivity.
Defined.

Lemma loaded_context_matches_trained_witness :
  Interpreter.context Stubs2.loaded_ABC
  = Interpreter.context Stubs.interpreter_ABC.
Proof.
  apply (loaded_context_matches_trained Stubs.methods Stubs.builder
           (Components.validate_arguments Stubs.methods)
           Stubs.validate_requirements Stubs.corpus
           (Trainer.mkState Stubs.trainer_ABC Stubs.world0) Stubs.trained_ABC
           Stubs.interpreter_ABC Stubs2.metadata_ABC Stubs.config_ABC None false
           Stubs.world0 Stubs2.created_ABC.2 Stubs2.loaded_ABC).
  - exact stub_run_ABC.
  - by_computation.
  - reflexivity.
  - forall_by_computation.
Defined.

Lemma Interpreter_parse_hands_message_on_witness :
  "hello" ≠ ""
  ∧ ∃ final,
      process_messages (new_events Stubs.world0 Stubs2.parsed_AB.2)
      = [Message.init "hello" Interpreter.default_output_attributes None;
         Message.set
           (Message.init "hello" Interpreter.default_output_attributes None)
           "intent" (PyStr "A") true]
      ∧ Message.output final !! "intent" = Some (PyStr "B")
      ∧ Stubs2.output_AB
        = dict_update Interpreter.default_output_attributes
            (Message.as_dict final true).
Proof.
  assert (Htext : "hello" ≠ "") by discriminate.
  split; [exact Htext|].
  assert (Hrun : Interpreter.parse Stubs.methods Stubs.interpreter_AB
                   (Some "hello") None Stubs.world0
                 = (Ok Stubs2.output_AB, Stubs2.parsed_AB.2))
    by by_computation.
  destruct (Interpreter_parse_hands_message_on _ _ _ _ _ _ _ Htext Hrun)
    as (final & Hchain & Hout).
  exists final. split; [by_computation|]. split; [|exact Hout].
  assert (Hms : process_messages (new_events Stubs.world0 Stubs2.parsed_AB.2)
                = [Message.init "hello" Interpreter.default_output_attributes None;
                   Message.set
                     (Message.init "hello" Interpreter.default_output_attributes
                        None) "intent" (PyStr "A") true])
    by by_computation.
  rewrite Hms in Hchain. simpl in Hchain.
  destruct Hchain as (_ & _ & ->). reflexivity.
Defined.
